(** * Test-X: the test-case execution and verification engine

    A shallow embedding of the [APITester] class of the repository
    (src/App/V1.py, src/App/V4.py and src/Manual_scripts/auto_ap.py) and
    the properties of its behaviour.

    - Python values coming out of [json.loads] / [response.json()] are the
      inductive type [json]; Python's [None] is [JNull].
    - The network, the target server and the wall clock are the outside
      world: an abstract type [World] with a transition [send] for one HTTP
      call of the [requests] library and [now] for [datetime.now()].
    - Methods of [APITester] run in the monad [M]: they thread the tester
      object ([self]) and the world, and may raise a Python exception; the
      state reached when an exception is raised is kept, as in Python. *)

From Stdlib Require Import ZArith List String Ascii Bool Lia.
From Stdlib Require Import PrimFloat FloatOps SpecFloat Uint63 DecimalString.
From ExtLib Require Import Structures.Monad.
Import ListNotations.
Import MonadNotation.
Local Open Scope string_scope.
Local Open Scope Z_scope.
Local Open Scope monad_scope.

Set Warnings "-register-all".

(** ** Python values and builtins *)

Module Py.

(** A value produced by [json.loads]: [None], [bool], [int], [float], [str],
    [list] or [dict].  A [dict] is kept as an association list read by its
    first binding of a key. *)
Inductive json : Type :=
| JNull
| JBool (b : bool)
| JInt (n : Z)
| JFloat (f : float)
| JStr (s : string)
| JList (l : list json)
| JDict (d : list (string * json)).

(** The exceptions the modelled code can meet. [RequestException] carries
    [str(e)].  [RecursionError] and [ValueError] are what [response.json()]
    raises, besides [JSONDecodeError], on a body nested too deep and on an
    integer literal longer than the interpreter converts. *)
Inductive exn : Type :=
| RequestException (msg : string)
| JSONDecodeError
| RecursionError
| ValueError
| TypeError
| AttributeError
| ZeroDivisionError.

(** The outcome of evaluating a Python expression or call. *)
Inductive result (A : Type) : Type :=
| Ok (a : A)
| Raise (e : exn).
Arguments Ok {A} a.
Arguments Raise {A} e.

#[global] Instance Monad_result : Monad result :=
  {| ret := fun _ a => Ok a;
     bind := fun _ _ c k => match c with Ok a => k a | Raise e => Raise e end |}.

Fixpoint dict_get (k : string) (d : list (string * json)) : option json :=
  match d with
  | [] => None
  | (k', v) :: d' => if String.eqb k k' then Some v else dict_get k d'
  end.

(** [d.get(k, default)] on a dict. *)
Definition dict_get_default (d : list (string * json)) (k : string) (default : json) : json :=
  match dict_get k d with
  | Some v => v
  | None => default
  end.

(** [v.get(k, default)] on any value: only a dict has the method. *)
Definition py_get (v : json) (k : string) (default : json) : result json :=
  match v with
  | JDict d => Ok (dict_get_default d k default)
  | _ => Raise AttributeError
  end.

(** [bool(v)], the test made by [if v:] and by [or]. *)
Definition truthy (v : json) : bool :=
  match v with
  | JNull => false
  | JBool b => b
  | JInt n => negb (n =? 0)
  | JFloat f => negb (PrimFloat.eqb f 0%float)
  | JStr s => negb (String.eqb s "")
  | JList l => match l with [] => false | _ => true end
  | JDict d => match d with [] => false | _ => true end
  end.

(** [a or b]: [a] when it is truthy, otherwise the value of [b], which is
    evaluated only then. *)
Definition py_or (a : json) (b : result json) : result json :=
  if truthy a then Ok a else b.

Definition str_of_Z (n : Z) : string := NilZero.string_of_int (Z.to_int n).

(** [n == f] for an int and a float compares the exact values. *)
Definition Z_eq_float (n : Z) (f : float) : bool :=
  match Prim2SF f with
  | S754_zero _ => n =? 0
  | S754_finite s m e =>
      let sgn := fun x : Z => if s then - x else x in
      if 0 <=? e then n =? sgn (Z.pos m * 2 ^ e)
      else (Z.pos m mod 2 ^ (- e) =? 0) && (n =? sgn (Z.pos m / 2 ^ (- e)))
  | _ => false
  end.

(** [n == v] for an int [n] (a status code) and any value. *)
Definition int_eq (n : Z) (v : json) : bool :=
  match v with
  | JInt m => n =? m
  | JBool b => n =? (if b then 1 else 0)
  | JFloat f => Z_eq_float n f
  | _ => false
  end.

(** [v == s] for a string literal [s] and any value. *)
Definition str_eq (v : json) (s : string) : bool :=
  match v with
  | JStr t => String.eqb t s
  | _ => false
  end.

(** [sub in s] on strings. *)
Fixpoint contains (sub s : string) : bool :=
  String.prefix sub s ||
  match s with
  | EmptyString => false
  | String _ s' => contains sub s'
  end.

(** [s.split(sep)] for a one-character separator. *)
Fixpoint split (sep : ascii) (s : string) : list string :=
  match s with
  | EmptyString => [""]
  | String a s' =>
      if Ascii.eqb a sep then "" :: split sep s'
      else match split sep s' with
           | p :: ps => String a p :: ps
           | [] => [String a ""]
           end
  end.

(** [sep.join(l)]. *)
Fixpoint join (sep : string) (l : list string) : string :=
  match l with
  | [] => ""
  | [x] => x
  | x :: l' => x ++ sep ++ join sep l'
  end.

(** [s.rstrip(c)] for a one-character set: every trailing [c] goes. *)
Fixpoint rstrip (c : ascii) (s : string) : string :=
  match s with
  | EmptyString => ""
  | String a s' =>
      let t := rstrip c s' in
      if Ascii.eqb a c && String.eqb t "" then "" else String a t
  end.

(** A byte that continues a character of UTF-8 text (10xxxxxx). *)
Definition continuation (c : ascii) : bool :=
  let b := nat_of_ascii c in (128 <=? b)%nat && (b <? 192)%nat.

(** [s[:n]], the first [n] characters: a string holds the UTF-8 bytes of
    the Python text, so a character is a byte with the continuation bytes
    that follow it. *)
Fixpoint take (n : nat) (s : string) : string :=
  match s with
  | EmptyString => EmptyString
  | String c s' =>
      if continuation c then String c (take n s')
      else match n with
           | O => EmptyString
           | S n' => String c (take n' s')
           end
  end.

(** [field in data] for a string [field]: a key of a dict, an element of a
    list, a substring of a string; the other values are not containers. *)
Definition py_in (field : string) (data : json) : result bool :=
  match data with
  | JDict d => Ok (match dict_get field d with Some _ => true | None => false end)
  | JList l => Ok (existsb (fun v => str_eq v field) l)
  | JStr s => Ok (contains field s)
  | _ => Raise TypeError
  end.

(** Python's int/int true division: the float nearest to the quotient.
    Operands below 2^53 (list lengths) convert exactly. *)
Definition float_of_Z (n : Z) : float := PrimFloat.of_uint63 (Uint63.of_Z n).

Definition true_div (a b : Z) : result float :=
  if b =? 0 then Raise ZeroDivisionError
  else Ok (PrimFloat.div (float_of_Z a) (float_of_Z b)).

(** A number as [get_summary] returns it: the int [0] or a float. *)
Inductive pynum : Type :=
| PyInt (n : Z)
| PyFloat (f : float).

End Py.
Import Py.

(** ** The HTTP boundary: what [requests] sends and what comes back *)

Inductive Method : Type := GET | POST | PUT | PATCH | DELETE.

(** One call [requests.<method>(url, json=..., headers=..., timeout=...)].
    [rq_json] is [JNull] when no [json=] argument is passed or it is [None];
    [rq_headers] is [None] for [headers=None]. *)
Record Request : Type := mkRequest {
  rq_method : Method;
  rq_url : string;
  rq_json : json;
  rq_headers : option (list (string * string));
  rq_timeout : Z
}.

(** A [requests.Response]: [json_body] is what [response.json()] returns,
    [None] when the call raises instead, and [json_error] is then the
    exception it raises: [JSONDecodeError] for a body the decoder rejects,
    or whatever else leaves the decoder ([RecursionError], [ValueError]);
    [elapsed_seconds] is [response.elapsed.total_seconds()]. *)
Record Response : Type := mkResponse {
  status_code : Z;
  text : string;
  json_body : option json;
  elapsed_seconds : float;
  json_error : exn
}.

(** What a call of [requests] ends in: a response, whatever its status, or
    a [requests.exceptions.RequestException] (connection refused, DNS
    failure, timeout, ...) with its message. *)
Inductive Reply : Type :=
| Received (r : Response)
| Failed (msg : string).

(** [response.json()]. *)
Definition response_json (r : Response) : result json :=
  match json_body r with
  | Some v => Ok v
  | None => Raise (json_error r)
  end.

(** [bool(response)] is [response.ok] in [requests]: false for the 4xx and
    5xx statuses. *)
Definition response_ok (r : Response) : bool :=
  negb ((400 <=? status_code r) && (status_code r <? 600)).

(** [if x:] for [x] a response or [None]. *)
Definition returned_truthy (x : option Response) : bool :=
  match x with
  | Some r => response_ok r
  | None => false
  end.

(** ** The results log *)

(** One entry of [self.results], the dict built by [log_result]. *)
Record TestOutcome : Type := mkOutcome {
  test : string;
  status : string;
  details : string;
  timestamp : string
}.

(** The fields of an [APITester] object. *)
Record APITester : Type := mkTester {
  base_url : string;
  results : list TestOutcome
}.

(** [APITester.__init__]. *)
Definition __init__ (url : string) : APITester :=
  {| base_url := rstrip "/" url; results := [] |}.

Definition json_headers : option (list (string * string)) :=
  Some [("Content-Type", "application/json")].

(** ** The expectation verifier's field check *)

(** The inner loop of [validate_response_data] for a dotted field: walk
    [parts] down from [current]; [false] as soon as [current] is not a dict
    or lacks the part (the field is then reported missing). *)
Fixpoint descend (current : json) (parts : list string) : bool :=
  match parts with
  | [] => true
  | part :: rest =>
      match current with
      | JDict d =>
          match dict_get part d with
          | Some v => descend v rest
          | None => false
          end
      | _ => false
      end
  end.

(** The loop [for field in expected_fields] building [missing_fields]. *)
Fixpoint missing_fields (data : json) (expected_fields : list string) : result (list string) :=
  match expected_fields with
  | [] => Ok []
  | field :: rest =>
      absent <- (if contains "." field
                 then Ok (negb (descend data (split "." field)))
                 else present <- py_in field data ;; ret (negb present)) ;;
      others <- missing_fields data rest ;;
      ret (if absent : bool then field :: others else others)
  end.

(** [try: body / except json.JSONDecodeError: handler]. *)
Definition try_except_JSONDecodeError {A : Type} (body : result A) (handler : result A) : result A :=
  match body with
  | Raise JSONDecodeError => handler
  | other => other
  end.

(** [APITester.validate_response_data] (V1.py 174-203). [expected_fields] is
    [None] or a list; [if expected_fields:] holds for a non-empty list. *)
Definition validate_response_data (response : Response)
    (expected_fields : option (list string)) : result (bool * string) :=
  try_except_JSONDecodeError
    (data <- response_json response ;;
     match expected_fields with
     | Some ((_ :: _) as fields) =>
         missing <- missing_fields data fields ;;
         match missing with
         | _ :: _ => ret (false, "Missing fields: " ++ join ", " missing)
         | [] => ret (true, "All expected fields present")
         end
     | _ => ret (true, "Response validated")
     end)
    (Ok (false, "Invalid JSON response")).

(** ** The resource identity tracker *)

(** The expression assigned to [resource_id] in [run_full_crud_test]
    (V1.py 229-232, auto_ap.py 247-250):
    [response_data.get('id') or response_data.get('_id') or
     response_data.get('uuid') or response_data.get('data', {}).get('id')]. *)
Definition resource_id_expr (response_data : json) : result json :=
  a <- py_get response_data "id" JNull ;;
  py_or a
    (b <- py_get response_data "_id" JNull ;;
     py_or b
       (c <- py_get response_data "uuid" JNull ;;
        py_or c
          (d <- py_get response_data "data" (JDict []) ;;
           py_get d "id" JNull))).

(** The block [try: response_data = post_response.json(); resource_id = ...
    / except: pass] with [resource_id = None] before it: the value of
    [resource_id] after it. *)
Definition extract_resource_id (post_response : Response) : json :=
  match (response_data <- response_json post_response ;; resource_id_expr response_data) with
  | Ok v => v
  | Raise _ => JNull
  end.

(** ** The summary aggregator *)

Record Summary : Type := mkSummary {
  total : Z;
  passed : Z;
  failed : Z;
  pass_rate : pynum
}.

(** [sum(1 for r in results if r['status'] == 'PASS')]. *)
Definition count_pass (results : list TestOutcome) : Z :=
  fold_left (fun acc r => if String.eqb (status r) "PASS" then acc + 1 else acc) results 0.

(** [APITester.get_summary] (V1.py 270-281, V4.py 100-111). *)
Definition get_summary (self : APITester) : result Summary :=
  let total := Z.of_nat (List.length (results self)) in
  let passed := count_pass (results self) in
  let failed := total - passed in
  rate <- (if 0 <? total
           then q <- true_div passed total ;;
                ret (PyFloat (PrimFloat.mul q (float_of_Z 100)))
           else ret (PyInt 0)) ;;
  ret (mkSummary total passed failed rate).

(** The numbers [APITester.print_summary] of auto_ap.py (355-378) formats
    into its report, in the order it evaluates them: the totals, then
    [passed/total*100] and [failed/total*100] with no test on [total].  The
    text written to the console and the results file are left out. *)
Definition print_summary (self : APITester) : result (Z * Z * Z * float * float) :=
  let total := Z.of_nat (List.length (results self)) in
  let passed := count_pass (results self) in
  let failed := total - passed in
  p <- true_div passed total ;;
  f <- true_div failed total ;;
  ret (total, passed, failed,
       PrimFloat.mul p (float_of_Z 100), PrimFloat.mul f (float_of_Z 100)).

(** ** The engine *)

(** The outside world of a tester: the network and the server under test
    behind [send], the clock behind [now] (the text [strftime] gives), and
    Python's text formatting that the repository relies on without defining
    it: [repr] of a float, a list or a dict, and the format [:.2f] of a
    float. *)
Class Environment : Type := {
  World : Type;
  send : Request -> World -> Reply * World;
  now : World -> string * World;
  py_repr : json -> string;
  format_2f : float -> string
}.

Section Engine.

Context {env : Environment}.

(** [str(v)], what an f-string puts for [{v}]. *)
Definition py_str (v : json) : string :=
  match v with
  | JNull => "None"
  | JBool true => "True"
  | JBool false => "False"
  | JInt n => str_of_Z n
  | JStr s => s
  | _ => py_repr v
  end.

(** The state a method runs in: the tester object, the world, and the
    calls of [requests] made so far (kept to state which requests were
    attempted; no code reads it). *)
Record State : Type := mkState {
  self : APITester;
  world : World;
  issued : list Request
}.

(** A method body: from a state to a value or a raised exception, and the
    state reached. *)
Definition M (A : Type) : Type := State -> result A * State.

#[global] Instance Monad_M : Monad M :=
  {| ret := fun _ a s => (Ok a, s);
     bind := fun _ _ c k s =>
       match c s with
       | (Ok a, s') => k a s'
       | (Raise e, s') => (Raise e, s')
       end |}.

(** A pure computation that may raise, run in a method. *)
Definition lift {A : Type} (c : result A) : M A := fun s => (c, s).

(** [try: body / except requests.exceptions.RequestException as e: handler]
    with [str(e)] given to the handler. *)
Definition try_except_RequestException {A : Type} (body : M A) (handler : string -> M A) : M A :=
  fun s =>
    match body s with
    | (Raise (RequestException msg), s') => handler msg s'
    | other => other
    end.

Definition get_base_url : M string := fun s => (Ok (base_url (self s)), s).

(** [requests.get], [requests.post], ... : one exchange with the world. *)
Definition requests_call (m : Method) (url : string) (body : json)
    (headers : option (list (string * string))) (timeout : Z) : M Response :=
  fun s =>
    let rq := mkRequest m url body headers timeout in
    let (reply, w) := send rq (world s) in
    let s' := mkState (self s) w (issued s ++ [rq]) in
    match reply with
    | Received r => (Ok r, s')
    | Failed msg => (Raise (RequestException msg), s')
    end.

(** [APITester.log_result] (V1.py 20-28, V4.py 26-34). *)
Definition log_result (test_name status details : string) : M unit :=
  fun s =>
    let (stamp, w) := now (world s) in
    let result := mkOutcome test_name status details stamp in
    (Ok tt, mkState (mkTester (base_url (self s)) (results (self s) ++ [result])) w (issued s)).

Definition pass_details (response : Response) : string :=
  "Status: " ++ str_of_Z (status_code response) ++ ", Response time: "
    ++ format_2f (elapsed_seconds response) ++ "s".

(** [APITester.test_get] (V1.py 30-55). *)
Definition test_get (endpoint : string) (expected_status : Z)
    (headers : option (list (string * string))) : M (option Response) :=
  base <- get_base_url ;;
  let url := base ++ endpoint in
  let test_name := "GET " ++ url in
  try_except_RequestException
    (response <- requests_call GET url JNull headers 10 ;;
     if status_code response =? expected_status then
       log_result test_name "PASS" (pass_details response) ;;
       ret (Some response)
     else
       log_result test_name "FAIL"
         ("Expected status " ++ str_of_Z expected_status ++ ", got "
            ++ str_of_Z (status_code response)) ;;
       ret None)
    (fun e => log_result test_name "FAIL" ("Error: " ++ e) ;; ret None).

(** [APITester.test_post] (V1.py 57-85). *)
Definition test_post (endpoint : string) (data : json) (expected_status : Z)
    (headers : option (list (string * string))) : M (option Response) :=
  base <- get_base_url ;;
  let url := base ++ endpoint in
  let test_name := "POST " ++ url in
  let headers := match headers with None => json_headers | Some h => Some h end in
  try_except_RequestException
    (response <- requests_call POST url data headers 10 ;;
     if status_code response =? expected_status then
       log_result test_name "PASS" (pass_details response) ;;
       ret (Some response)
     else
       log_result test_name "FAIL"
         ("Expected status " ++ str_of_Z expected_status ++ ", got "
            ++ str_of_Z (status_code response) ++ ". Response: "
            ++ take 200 (text response)) ;;
       ret None)
    (fun e => log_result test_name "FAIL" ("Error: " ++ e) ;; ret None).

(** [APITester.test_put] (V1.py 87-115). *)
Definition test_put (endpoint : string) (data : json) (expected_status : Z)
    (headers : option (list (string * string))) : M (option Response) :=
  base <- get_base_url ;;
  let url := base ++ endpoint in
  let test_name := "PUT " ++ url in
  let headers := match headers with None => json_headers | Some h => Some h end in
  try_except_RequestException
    (response <- requests_call PUT url data headers 10 ;;
     if status_code response =? expected_status then
       log_result test_name "PASS" (pass_details response) ;;
       ret (Some response)
     else
       log_result test_name "FAIL"
         ("Expected status " ++ str_of_Z expected_status ++ ", got "
            ++ str_of_Z (status_code response) ++ ". Response: "
            ++ take 200 (text response)) ;;
       ret None)
    (fun e => log_result test_name "FAIL" ("Error: " ++ e) ;; ret None).

(** [APITester.test_patch] (V1.py 117-145). *)
Definition test_patch (endpoint : string) (data : json) (expected_status : Z)
    (headers : option (list (string * string))) : M (option Response) :=
  base <- get_base_url ;;
  let url := base ++ endpoint in
  let test_name := "PATCH " ++ url in
  let headers := match headers with None => json_headers | Some h => Some h end in
  try_except_RequestException
    (response <- requests_call PATCH url data headers 10 ;;
     if status_code response =? expected_status then
       log_result test_name "PASS" (pass_details response) ;;
       ret (Some response)
     else
       log_result test_name "FAIL"
         ("Expected status " ++ str_of_Z expected_status ++ ", got "
            ++ str_of_Z (status_code response) ++ ". Response: "
            ++ take 200 (text response)) ;;
       ret None)
    (fun e => log_result test_name "FAIL" ("Error: " ++ e) ;; ret None).

(** [APITester.test_delete] (V1.py 147-172). *)
Definition test_delete (endpoint : string) (expected_status : Z)
    (headers : option (list (string * string))) : M (option Response) :=
  base <- get_base_url ;;
  let url := base ++ endpoint in
  let test_name := "DELETE " ++ url in
  try_except_RequestException
    (response <- requests_call DELETE url JNull headers 10 ;;
     if status_code response =? expected_status then
       log_result test_name "PASS" (pass_details response) ;;
       ret (Some response)
     else
       log_result test_name "FAIL"
         ("Expected status " ++ str_of_Z expected_status ++ ", got "
            ++ str_of_Z (status_code response)) ;;
       ret None)
    (fun e => log_result test_name "FAIL" ("Error: " ++ e) ;; ret None).

(** [APITester.test_request] (V4.py 36-79). The arguments come from a
    test-case dict, so each is whatever value the dict holds. *)
Definition test_request (method endpoint data expected_status : json)
    (headers : option (list (string * string))) (test_name : option string)
    : M (option Response) :=
  base <- get_base_url ;;
  let url := base ++ py_str endpoint in
  let test_name :=
    match test_name with None => py_str method ++ " " ++ url | Some n => n end in
  let headers := match headers with None => json_headers | Some h => Some h end in
  let check := fun response : Response =>
    if int_eq (status_code response) expected_status then
      log_result test_name "PASS" (pass_details response) ;;
      ret (Some response)
    else
      log_result test_name "FAIL"
        ("Expected status " ++ py_str expected_status ++ ", got "
           ++ str_of_Z (status_code response) ++ ". Response: "
           ++ take 150 (text response)) ;;
      ret None in
  try_except_RequestException
    (if str_eq method "GET" then
       response <- requests_call GET url JNull headers 10 ;; check response
     else if str_eq method "POST" then
       response <- requests_call POST url data headers 10 ;; check response
     else if str_eq method "PUT" then
       response <- requests_call PUT url data headers 10 ;; check response
     else if str_eq method "PATCH" then
       response <- requests_call PATCH url data headers 10 ;; check response
     else if str_eq method "DELETE" then
       response <- requests_call DELETE url JNull headers 10 ;; check response
     else
       log_result test_name "FAIL" ("Unsupported method: " ++ py_str method) ;;
       ret None)
    (fun e => log_result test_name "FAIL" ("Error: " ++ e) ;; ret None).

(** The loop of [run_ai_generated_tests], [i] being the counter of
    [enumerate(test_cases, 1)]. *)
Fixpoint run_ai_generated_tests_from (i : Z) (test_cases : list (list (string * json)))
    : M unit :=
  match test_cases with
  | [] => ret tt
  | test_case :: rest =>
      let method := dict_get_default test_case "method" (JStr "GET") in
      let endpoint := dict_get_default test_case "endpoint" (JStr "") in
      let data := dict_get_default test_case "data" JNull in
      let expected_status := dict_get_default test_case "expected_status" (JInt 200) in
      let description :=
        dict_get_default test_case "description" (JStr ("Test " ++ str_of_Z i)) in
      let test_name := "[AI Test " ++ str_of_Z i ++ "] " ++ py_str description in
      test_request method endpoint data expected_status None (Some test_name) ;;
      run_ai_generated_tests_from (i + 1) rest
  end.

(** [APITester.run_ai_generated_tests] (V4.py 81-98), on a list of dicts. *)
Definition run_ai_generated_tests (test_cases : list (list (string * json))) : M unit :=
  run_ai_generated_tests_from 1 test_cases.

(** [if expected_fields:] *)
Definition fields_requested (expected_fields : option (list string)) : bool :=
  match expected_fields with
  | Some (_ :: _) => true
  | _ => false
  end.

(** The blocks of [run_full_crud_test] (V1.py 205-268), one per comment
    heading of the source. *)

(** [# CREATE (POST)]: returns the value of [resource_id] after the block. *)
Definition crud_create (create_data : json) (expected_fields : option (list string)) : M json :=
  post_response <- test_post "" create_data 201 None ;;
  match post_response with
  | Some response =>
      if response_ok response then
        (if fields_requested expected_fields
         then _ <- lift (validate_response_data response expected_fields) ;; ret tt
         else ret tt) ;;
        ret (extract_resource_id response)
      else ret JNull
  | None => ret JNull
  end.

(** [# READ (GET SINGLE)] *)
Definition crud_read_single (resource_id : json) (expected_fields : option (list string)) : M unit :=
  if truthy resource_id then
    get_response <- test_get ("/" ++ py_str resource_id) 200 None ;;
    match get_response with
    | Some response =>
        if response_ok response && fields_requested expected_fields
        then _ <- lift (validate_response_data response expected_fields) ;; ret tt
        else ret tt
    | None => ret tt
    end
  else ret tt.

(** [# UPDATE (PUT)] *)
Definition crud_update_put (resource_id update_data : json) : M unit :=
  if truthy resource_id then
    put_response <- test_put ("/" ++ py_str resource_id) update_data 200 None ;;
    if returned_truthy put_response
    then _ <- test_get ("/" ++ py_str resource_id) 200 None ;; ret tt
    else ret tt
  else ret tt.

(** [# UPDATE (PATCH)] *)
Definition crud_update_patch (resource_id patch_data : json) : M unit :=
  if truthy resource_id then
    patch_response <- test_patch ("/" ++ py_str resource_id) patch_data 200 None ;;
    if returned_truthy patch_response
    then _ <- test_get ("/" ++ py_str resource_id) 200 None ;; ret tt
    else ret tt
  else ret tt.

(** [# DELETE] *)
Definition crud_delete (resource_id : json) : M unit :=
  if truthy resource_id then
    test_delete ("/" ++ py_str resource_id) 200 None ;;
    test_get ("/" ++ py_str resource_id) 404 None ;;
    ret tt
  else ret tt.

(** [# EDGE CASES] *)
Definition crud_edge_cases : M unit :=
  test_get "/nonexistent-id-12345" 404 None ;;
  test_delete "/nonexistent-id-12345" 404 None ;;
  test_post "" (JDict []) 400 None ;;
  ret tt.

Definition default_create_data : json :=
  JDict [("name", JStr "Test Item"); ("description", JStr "Test"); ("value", JInt 123)].
Definition default_update_data : json :=
  JDict [("name", JStr "Updated Item"); ("description", JStr "Updated"); ("value", JInt 456)].
Definition default_patch_data : json :=
  JDict [("description", JStr "Partially updated")].

(** [x if x is not None else d], the defaulting of the data arguments. *)
Definition or_default (x d : json) : json :=
  match x with JNull => d | _ => x end.

(** [APITester.run_full_crud_test] (V1.py 205-268). *)
Definition run_full_crud_test (create_data update_data patch_data : json)
    (expected_fields : option (list string)) : M unit :=
  let create_data := or_default create_data default_create_data in
  let update_data := or_default update_data default_update_data in
  let patch_data := or_default patch_data default_patch_data in
  resource_id <- crud_create create_data expected_fields ;;
  test_get "" 200 None ;;
  crud_read_single resource_id expected_fields ;;
  crud_update_put resource_id update_data ;;
  crud_update_patch resource_id patch_data ;;
  crud_delete resource_id ;;
  crud_edge_cases.

End Engine.

(** ** A scripted world, for concrete runs *)

(** The world is the list of replies still to come; once it is used up the
    connection is refused.  The clock stands still. *)
Definition scripted_send (rq : Request) (w : list Reply) : Reply * list Reply :=
  match w with
  | [] => (Failed "Connection refused", [])
  | reply :: w' => (reply, w')
  end.

Definition scripted : Environment :=
  {| World := list Reply;
     send := scripted_send;
     now := fun w => ("2025-01-01 00:00:00", w);
     py_repr := fun _ => "<repr>";
     format_2f := fun _ => "0.25" |}.

(** A reply whose body the decoder reads as [parsed], or rejects. *)
Definition reply (code : Z) (body : string) (parsed : option json) : Reply :=
  Received (mkResponse code body parsed 0.25%float JSONDecodeError).

(** A fresh tester in front of a script. *)
Definition start (url : string) (script : list Reply) : @State scripted :=
  @mkState scripted (__init__ url) script [].

(** ** Vocabulary of the properties *)

(** What the specification says of the base URL: one trailing slash is
    trimmed, nothing else. *)
Definition trim_single_trailing_slash (url : string) : string :=
  match String.length url with
  | O => url
  | S n => if String.eqb (String.substring n 1 url) "/" then String.substring 0 n url else url
  end.

(** [repeat_slash n] is [n] slashes. *)
Fixpoint repeat_slash (n : nat) : string :=
  match n with
  | O => ""
  | S n' => String "/" (repeat_slash n')
  end.

(** [n] opening brackets. *)
Fixpoint brackets (n : nat) : string :=
  match n with
  | O => ""
  | S n' => String "[" (brackets n')
  end.

(** The last character of a string, if any. *)
Fixpoint last_char (s : string) : option ascii :=
  match s with
  | EmptyString => None
  | String a EmptyString => Some a
  | String _ s' => last_char s'
  end.

(** The method [test_request] calls [requests] with, if it supports it. *)
Definition method_of (method : json) : option Method :=
  if str_eq method "GET" then Some GET
  else if str_eq method "POST" then Some POST
  else if str_eq method "PUT" then Some PUT
  else if str_eq method "PATCH" then Some PATCH
  else if str_eq method "DELETE" then Some DELETE
  else None.

(** The body [test_request] passes as [json=]: none for GET and DELETE. *)
Definition body_of (m : Method) (data : json) : json :=
  match m with
  | GET | DELETE => JNull
  | _ => data
  end.

(** [headers] after [if headers is None: headers = {...}]. *)
Definition default_headers (headers : option (list (string * string)))
    : option (list (string * string)) :=
  match headers with
  | None => json_headers
  | Some h => Some h
  end.

(** A test case whose method [test_request] supports. *)
Definition supported (test_case : list (string * json)) : bool :=
  match method_of (dict_get_default test_case "method" (JStr "GET")) with
  | Some _ => true
  | None => false
  end.

Section Vocabulary.

Context {env : Environment}.

(** [test_name] after [if test_name is None: test_name = f"{method} {url}"]. *)
Definition name_of (test_name : option string) (method : json) (url : string) : string :=
  match test_name with
  | None => py_str method ++ " " ++ url
  | Some n => n
  end.

(** The label [run_ai_generated_tests] gives the [i]-th test case. *)
Definition ai_test_name (i : Z) (test_case : list (string * json)) : string :=
  "[AI Test " ++ str_of_Z i ++ "] "
    ++ py_str (dict_get_default test_case "description" (JStr ("Test " ++ str_of_Z i))).

(** The labels of a list of test cases numbered from [i]. *)
Fixpoint ai_test_names (i : Z) (test_cases : list (list (string * json))) : list string :=
  match test_cases with
  | [] => []
  | test_case :: rest => ai_test_name i test_case :: ai_test_names (i + 1) rest
  end.

(** What a test method makes of the reply to its request: the value it
    returns, and the status and details it logs. [matches] is its test of
    the status code, [mismatch] the details it writes when the test fails. *)
Definition verdict (matches : Response -> bool) (mismatch : Response -> string)
    (reply : Reply) : option Response * string * string :=
  match reply with
  | Received r =>
      if matches r then (Some r, "PASS", pass_details r)
      else (None, "FAIL", mismatch r)
  | Failed msg => (None, "FAIL", "Error: " ++ msg)
  end.

(** The state after [log_result]. *)
Definition logged (s : State) (o : TestOutcome) (w : World) (rqs : list Request) : State :=
  mkState (mkTester (base_url (self s)) (results (self s) ++ [o])) w (issued s ++ rqs).

(** One exchange of a test method with the world, end to end: the request
    [rq] goes out, the reply is judged, one outcome named [name] is logged. *)
Definition exchange (s : State) (rq : Request) (name : string)
    (judge : Reply -> option Response * string * string)
    : result (option Response) * State :=
  let (reply, w1) := send rq (world s) in
  let '(ret, st, det) := judge reply in
  let (stamp, w2) := now w1 in
  (Ok ret, logged s (mkOutcome name st det stamp) w2 [rq]).

(** [s'] is [s] after one more outcome [o] and the requests [rqs]. *)
Definition extends (s s' : State) (o : TestOutcome) (rqs : list Request) : Prop :=
  base_url (self s') = base_url (self s)
  /\ results (self s') = (results (self s) ++ [o])%list
  /\ issued s' = (issued s ++ rqs)%list.

(** A test method returns the response it received exactly when it logs
    PASS, and [None] exactly when it logs FAIL. *)
Definition returns_response_iff_pass (method : M (option Response)) : Prop :=
  forall s : State, exists ret o s' rqs,
    method s = (Ok ret, s')
    /\ extends s s' o rqs
    /\ ((exists r, ret = Some r) <-> status o = "PASS")
    /\ (ret = None <-> status o = "FAIL")
    /\ (forall r, ret = Some r ->
          exists rq, rqs = [rq] /\ fst (send rq (world s)) = Received r).

(** A test method makes one request and logs one outcome, whatever the
    reply. *)
Definition one_request_one_outcome (method : M (option Response)) : Prop :=
  forall s : State, exists ret o s' rq,
    method s = (Ok ret, s')
    /\ extends s s' o [rq]
    /\ (forall msg, fst (send rq (world s)) = Failed msg ->
          status o = "FAIL" /\ details o = "Error: " ++ msg).

End Vocabulary.

(** * The rest of the testers *)

(** ** The results file of auto_ap.py *)

(** [sum(1 for r in self.results if r['status'] == 'FAIL')]. *)
Definition count_fail (results : list TestOutcome) : Z :=
  fold_left (fun acc r => if String.eqb (status r) "FAIL" then acc + 1 else acc) results 0.

(** The ['summary'] entry [APITester.save_results_to_file] writes
    (auto_ap.py 383-399): total, passed, failed, the failed being counted on
    their own.  The timestamp and the writing of the file are left out. *)
Definition save_results_summary (self : APITester) : Z * Z * Z :=
  (Z.of_nat (List.length (results self)), count_pass (results self), count_fail (results self)).

(** The list comprehensions of the results page (V4.py 610-614):
    [[r for r in tester.results if r['status'] == 'PASS']] and the same
    with ['FAIL']. *)
Definition passed_only (results : list TestOutcome) : list TestOutcome :=
  filter (fun r => String.eqb (status r) "PASS") results.

Definition failed_only (results : list TestOutcome) : list TestOutcome :=
  filter (fun r => String.eqb (status r) "FAIL") results.

(** ** auto_api.py *)

Module AutoApi.

(** The number [APITester.print_summary] of auto_api.py (168-187) formats
    as its success rate, [passed/total*100], computed with no test on
    [total].  The console text is left out. *)
Definition print_summary (self : APITester) : result float :=
  let total := Z.of_nat (List.length (results self)) in
  let passed := count_pass (results self) in
  q <- true_div passed total ;;
  ret (PrimFloat.mul q (float_of_Z 100)).

(** The expression assigned to [resource_id] in [run_full_test_suite]
    (auto_api.py 139):
    [response_data.get('id') or response_data.get('_id') or
     response_data.get('uuid')]. *)
Definition resource_id_expr (response_data : json) : result json :=
  a <- py_get response_data "id" JNull ;;
  py_or a
    (b <- py_get response_data "_id" JNull ;;
     py_or b (py_get response_data "uuid" JNull)).

(** [resource_id] after the [try: ... except: pass] of lines 136-143. *)
Definition extract_resource_id (post_response : Response) : json :=
  match (response_data <- response_json post_response ;; resource_id_expr response_data) with
  | Ok v => v
  | Raise _ => JNull
  end.


Section Suite.

Context {env : Environment}.


End Suite.

End AutoApi.

(** ** auto_ap.py *)

Module AutoAp.

(** The default bodies of auto_ap.py (213-230). *)
Definition default_create_data : json :=
  JDict [("name", JStr "Test Item"); ("description", JStr "This is a test item");
         ("value", JInt 123)].
Definition default_update_data : json :=
  JDict [("name", JStr "Updated Test Item");
         ("description", JStr "This item has been updated"); ("value", JInt 456)].
Definition default_patch_data : json :=
  JDict [("description", JStr "Partially updated description")].

Section Script.

Context {env : Environment}.

(** [APITester.run_full_crud_test] of auto_ap.py (205-353).  Its test
    methods (28-171) and its [validate_response_data] (173-203) are those
    of V1.py statement for statement, apart from what [log_result] prints,
    and its blocks make the calls of the blocks of V1.py under the same
    tests: create (235-258), list (260-262), fetch (264-271), PUT
    (273-299), PATCH (301-327), DELETE (329-335), edge cases (337-350).
    What they add, the console output and the comparisons of the fetched
    resource with the update and patch data (284-299, 312-327), prints
    inside a [try] whose bare [except] swallows every exception, and leaves
    the tester as it is.  The default bodies are the script's own, and
    [print_summary] ends it (353). *)
Definition run_full_crud_test (create_data update_data patch_data : json)
    (expected_fields : option (list string)) : M unit :=
  let create_data := or_default create_data default_create_data in
  let update_data := or_default update_data default_update_data in
  let patch_data := or_default patch_data default_patch_data in
  resource_id <- crud_create create_data expected_fields ;;
  test_get "" 200 None ;;
  crud_read_single resource_id expected_fields ;;
  crud_update_put resource_id update_data ;;
  crud_update_patch resource_id patch_data ;;
  crud_delete resource_id ;;
  crud_edge_cases ;;
  (fun s => lift (_ <- print_summary (self s) ;; ret tt) s).

End Script.

End AutoAp.

(** ** The generator's check of what the model returned (V4.py) *)

(** [all(key in tc for key in keys)]: stops at the first key that is not
    in [tc]. *)
Fixpoint all_keys_in (keys : list string) (tc : json) : result bool :=
  match keys with
  | [] => Ok true
  | key :: rest =>
      present <- py_in key tc ;;
      if present : bool then all_keys_in rest tc else Ok false
  end.

(** [d.setdefault(key, default)], for its effect on the dict. *)
Definition dict_setdefault (d : list (string * json)) (key : string) (default : json)
    : list (string * json) :=
  match dict_get key d with
  | Some _ => d
  | None => d ++ [(key, default)]
  end.

(** [tc.setdefault(key, default)] on any value: only a dict has the
    method. *)
Definition py_setdefault (tc : json) (key : string) (default : json) : result json :=
  match tc with
  | JDict d => Ok (JDict (dict_setdefault d key default))
  | _ => Raise AttributeError
  end.

(** The loop [for tc in test_cases] of
    [GeminiTestGenerator.generate_test_cases] (V4.py 207-212) building
    [valid_cases]. *)
Fixpoint valid_cases (test_cases : list json) : result (list json) :=
  match test_cases with
  | [] => Ok []
  | tc :: rest =>
      complete <- all_keys_in ["method"; "expected_status"; "description"] tc ;;
      if complete : bool then
        tc <- py_setdefault tc "endpoint" (JStr "") ;;
        tc <- py_setdefault tc "data" JNull ;;
        tc <- py_setdefault tc "category" (JStr "other") ;;
        others <- valid_cases rest ;;
        ret (tc :: others)
      else valid_cases rest
  end.

(** The block [# Validate structure] (V4.py 204-215) on the value
    [json.loads] gave: [Some valid_cases] when the function returns them,
    [None] when it goes on to the next attempt.  An exception raised here
    is caught by the [except Exception] of the attempt. *)
Definition validate_structure (test_cases : json) : result (option (list json)) :=
  match test_cases with
  | JList ((_ :: _) as cases) =>
      valid <- valid_cases cases ;;
      match valid with
      | _ :: _ => ret (Some valid)
      | [] => ret None
      end
  | _ => Ok None
  end.

(** The test cases a list of values holds, for [run_ai_generated_tests]. *)
Fixpoint as_dicts (cases : list json) : option (list (list (string * json))) :=
  match cases with
  | [] => Some []
  | JDict d :: rest =>
      match as_dicts rest with
      | Some ds => Some (d :: ds)
      | None => None
      end
  | _ :: _ => None
  end.

(** ** Vocabulary of the properties of the runs *)

(** An outcome as the test methods log it. *)
Definition pass_or_fail (o : TestOutcome) : Prop :=
  status o = "PASS" \/ status o = "FAIL".

(** A request as the runs make it: the fixed timeout, and no header but
    the JSON content type. *)
Definition plain_request (rq : Request) : Prop :=
  rq_timeout rq = 10 /\ (rq_headers rq = None \/ rq_headers rq = json_headers).

Section RunVocabulary.

Context {env : Environment}.

(** [s'] is [s] after the outcomes [outs] and the requests [rqs], and
    nothing else changed in the tester. *)
Definition grows (s s' : State) (outs : list TestOutcome) (rqs : list Request) : Prop :=
  base_url (self s') = base_url (self s)
  /\ results (self s') = (results (self s) ++ outs)%list
  /\ issued s' = (issued s ++ rqs)%list.

(** Running [m] from [s] ends in [res] and [s']: the log has grown by
    [outs], each a PASS or a FAIL, and the requests made are [rqs], each
    plain, one per outcome at most. *)
Definition ran {A : Type} (m : M A) (s : State) (res : result A) (s' : State)
    (outs : list TestOutcome) (rqs : list Request) : Prop :=
  m s = (res, s')
  /\ grows s s' outs rqs
  /\ Forall pass_or_fail outs
  /\ Forall plain_request rqs
  /\ (List.length rqs <= List.length outs)%nat.

(** The reply the world [w] gives to the request [rq]. *)
Definition reply_to (rq : Request) (w : World) : Reply := fst (send rq w).

(** The world once a test method has sent [rq] and stamped its outcome,
    and after a sequence of test methods. *)
Definition world_after (rq : Request) (w : World) : World := snd (now (snd (send rq w))).

Definition world_after_all (rqs : list Request) (w : World) : World :=
  fold_left (fun w rq => world_after rq w) rqs w.

(** What a test method that expects the status [code] returns on a
    reply, and whether that is a response. *)
Definition returned (code : Z) (reply : Reply) : option Response :=
  match reply with
  | Received r => if status_code r =? code then Some r else None
  | Failed _ => None
  end.

Definition answered (code : Z) (reply : Reply) : bool :=
  match returned code reply with
  | Some _ => true
  | None => false
  end.

(** [ran], for test methods each making one request: the world reached
    is the one the requests [rqs] leave. *)
Definition replayed {A : Type} (m : M A) (s : State) (res : result A) (s' : State)
    (outs : list TestOutcome) (rqs : list Request) : Prop :=
  ran m s res s' outs rqs /\ world s' = world_after_all rqs (world s).

(** [res] is the exception the field check raised on the response that
    [reply] is; the check is made only when fields were asked for. *)
Definition raised_by_field_check {A : Type} (expected_fields : option (list string))
    (reply : Reply) (res : result A) : Prop :=
  fields_requested expected_fields = true
  /\ exists r e,
       reply = Received r /\ res = Raise e
       /\ validate_response_data r expected_fields = Raise e.

(** The steps of the lifecycle, once the bodies are settled. *)
Definition lifecycle_steps (create_data update_data patch_data : json)
    (expected_fields : option (list string)) : M unit :=
  resource_id <- crud_create create_data expected_fields ;;
  test_get "" 200 None ;;
  crud_read_single resource_id expected_fields ;;
  crud_update_put resource_id update_data ;;
  crud_update_patch resource_id patch_data ;;
  crud_delete resource_id ;;
  crud_edge_cases.


(** The resource id the create step leaves, read off the reply to the
    create request: none unless the reply is a 201. *)
Definition created_id (reply : Reply) : json :=
  match reply with
  | Received r => if status_code r =? 201 then extract_resource_id r else JNull
  | Failed _ => JNull
  end.

(** The requests of the lifecycle on the resource [resource_id], given
    whether the PUT and the PATCH were answered 200. *)
Definition identity_requests (base : string) (resource_id update_data patch_data : json)
    (put_ok patch_ok : bool) : list Request :=
  let url := base ++ "/" ++ py_str resource_id in
  let fetch := mkRequest GET url JNull None 10 in
  ([fetch; mkRequest PUT url update_data json_headers 10]
     ++ (if put_ok then [fetch] else [])
     ++ [mkRequest PATCH url patch_data json_headers 10]
     ++ (if patch_ok then [fetch] else [])
     ++ [mkRequest DELETE url JNull None 10; fetch])%list.

(** The three requests of the edge cases. *)
Definition edge_requests (base : string) : list Request :=
  [mkRequest GET (base ++ "/nonexistent-id-12345") JNull None 10;
   mkRequest DELETE (base ++ "/nonexistent-id-12345") JNull None 10;
   mkRequest POST base (JDict []) json_headers 10].

(** The requests of the lifecycle of a tester at [base] that starts in
    the world [w], in the order they are made.  The identity is read off
    the reply to the create; the PUT and the PATCH are each followed by a
    fetch exactly when the world answers them 200, the world being the one
    the requests made before have left. *)
Definition lifecycle_requests (base : string) (create_data update_data patch_data : json)
    (w : World) : list Request :=
  let create := mkRequest POST base create_data json_headers 10 in
  let list_all := mkRequest GET base JNull None 10 in
  let resource_id := created_id (reply_to create w) in
  let url := base ++ "/" ++ py_str resource_id in
  let fetch := mkRequest GET url JNull None 10 in
  let put := mkRequest PUT url update_data json_headers 10 in
  let patch := mkRequest PATCH url patch_data json_headers 10 in
  let put_ok :=
    answered 200 (reply_to put (world_after_all [create; list_all; fetch] w)) in
  let patch_ok :=
    answered 200
      (reply_to patch
         (world_after_all ([create; list_all; fetch; put] ++ (if put_ok then [fetch] else []))
            w)) in
  ([create; list_all]
     ++ (if truthy resource_id
         then identity_requests base resource_id update_data patch_data put_ok patch_ok
         else [])
     ++ edge_requests base)%list.

End RunVocabulary.

(** ** Vocabulary of the properties of the checks *)

(** Whether the field check finds [field] in [data], when it raises
    nothing: a dotted field by descent, another by its key. *)
Definition resolves (data : json) (field : string) : bool :=
  if contains "." field then descend data (split "." field)
  else match data with
       | JDict d => match dict_get field d with Some _ => true | None => false end
       | _ => false
       end.

(** A JSON value that is no container: [None], a bool or a number. *)
Definition scalar (data : json) : bool :=
  match data with
  | JNull | JBool _ | JInt _ | JFloat _ => true
  | _ => false
  end.

(** The keys a test case must have, and the three that get a default. *)
Definition required_keys : list string := ["method"; "expected_status"; "description"].

Definition has_required (tc : json) : bool :=
  match tc with
  | JDict d =>
      forallb (fun key => match dict_get key d with Some _ => true | None => false end)
        required_keys
  | _ => false
  end.

Definition with_defaults (d : list (string * json)) : list (string * json) :=
  dict_setdefault
    (dict_setdefault (dict_setdefault d "endpoint" (JStr "")) "data" JNull)
    "category" (JStr "other").

Definition completed (tc : json) : json :=
  match tc with
  | JDict d => JDict (with_defaults d)
  | other => other
  end.

(** The name of an HTTP method, as [test_request] compares it. *)
Definition method_name (m : Method) : string :=
  match m with
  | GET => "GET"
  | POST => "POST"
  | PUT => "PUT"
  | PATCH => "PATCH"
  | DELETE => "DELETE"
  end.

Section MethodVocabulary.

Context {env : Environment}.

(** The method of V1.py that tests the HTTP method [m], called with the
    headers [test_request] uses. *)
Definition v1_method (m : Method) (endpoint : string) (data : json) (expected_status : Z)
    : M (option Response) :=
  match m with
  | GET => test_get endpoint expected_status json_headers
  | POST => test_post endpoint data expected_status None
  | PUT => test_put endpoint data expected_status None
  | PATCH => test_patch endpoint data expected_status None
  | DELETE => test_delete endpoint expected_status json_headers
  end.

(** An outcome without its details. *)
Definition headline (o : TestOutcome) : string * string * string :=
  (test o, status o, timestamp o).

(** Two states that differ at most in the details of their outcomes. *)
Definition same_but_details (s1 s2 : State) : Prop :=
  base_url (self s1) = base_url (self s2)
  /\ map headline (results (self s1)) = map headline (results (self s2))
  /\ world s1 = world s2
  /\ issued s1 = issued s2.

End MethodVocabulary.

(** * The sample servers *)

(** The view functions of API's/one.py and API's/two.py, as functions of
    what Flask hands them: the id the route converter [<int:...>] parsed,
    the value [request.get_json()] returns, the text of
    [datetime.now().isoformat()], and the module's global store.  A view
    returns [jsonify(body), code]; an exception it does not catch is
    answered 500 by Flask and leaves the store as it was, since each view
    changes the store only after its last statement that can raise. *)

Module Flask.

Inductive error : Type :=
| KeyError (key : string)
| Builtin (e : exn).

Inductive outcome (A : Type) : Type :=
| Returns (a : A)
| Uncaught (e : error).
Arguments Returns {A} a.
Arguments Uncaught {A} e.

#[global] Instance Monad_outcome : Monad outcome :=
  {| ret := fun _ a => Returns a;
     bind := fun _ _ c k => match c with Returns a => k a | Uncaught e => Uncaught e end |}.

Definition of_result {A : Type} (c : result A) : outcome A :=
  match c with
  | Ok a => Returns a
  | Raise e => Uncaught (Builtin e)
  end.

(** [jsonify(body), code]. *)
Record response : Type := mkResponseOf {
  body : json;
  code : Z
}.

(** [obj[key]] for a string key: the value of a dict, a [KeyError] when
    the key is absent, a [TypeError] on anything else. *)
Definition py_getitem (obj : json) (key : string) : outcome json :=
  match obj with
  | JDict d =>
      match dict_get key d with
      | Some v => Returns v
      | None => Uncaught (KeyError key)
      end
  | _ => Uncaught (Builtin TypeError)
  end.

(** [d[key] = v] on a dict: in place when the key is there, at the end
    otherwise. *)
Fixpoint dict_set (d : list (string * json)) (key : string) (v : json)
    : list (string * json) :=
  match d with
  | [] => [(key, v)]
  | (k, x) :: d' =>
      if String.eqb key k then (k, v) :: d' else (k, x) :: dict_set d' key v
  end.

(** [key in d] on a dict. *)
Definition dict_has (d : list (string * json)) (key : string) : bool :=
  match dict_get key d with
  | Some _ => true
  | None => false
  end.

(** [d.items()]: each key once, with the value the dict gives it. *)
Fixpoint items_from (seen : list string) (d : list (string * json)) : list (string * json) :=
  match d with
  | [] => []
  | (k, v) :: d' =>
      if existsb (String.eqb k) seen then items_from seen d'
      else (k, v) :: items_from (k :: seen) d'
  end.

Definition dict_items (d : list (string * json)) : list (string * json) := items_from [] d.

(** [data.items()] on any value: only a dict has the method. *)
Definition py_items (data : json) : outcome (list (string * json)) :=
  match data with
  | JDict d => Returns (dict_items d)
  | _ => Uncaught (Builtin AttributeError)
  end.

End Flask.

(** ** API's/one.py: the employees *)

Module Employees.
Import Flask.

(** [employees], the global list of dicts. *)
Definition store : Type := list (list (string * json)).

Definition required_fields : list string :=
  ["name"; "place"; "email"; "designation"; "description"].

Definition not_found : response :=
  mkResponseOf (JDict [("error", JStr "Employee not found")]) 404.

(** [get_employees] (one.py 9-11). *)
Definition get_employees (employees : store) : response :=
  mkResponseOf (JList (map JDict employees)) 200.

(** [next((emp for emp in employees if emp["id"] == emp_id), None)]: the
    first employee with that id, and its place in the list, which stands
    for the object when a view updates it. *)
Fixpoint find_from (at_ : nat) (emp_id : Z) (employees : store)
    : outcome (option (nat * list (string * json))) :=
  match employees with
  | [] => Returns None
  | emp :: rest =>
      id <- py_getitem (JDict emp) "id" ;;
      if int_eq emp_id id then Returns (Some (at_, emp))
      else find_from (S at_) emp_id rest
  end.

Definition find_employee (emp_id : Z) (employees : store)
    : outcome (option (nat * list (string * json))) :=
  find_from 0 emp_id employees.

(** [get_employee] (one.py 14-19). *)
Definition get_employee (emp_id : Z) (employees : store) : outcome response :=
  employee <- find_employee emp_id employees ;;
  match employee with
  | Some (_, emp) =>
      if truthy (JDict emp) then ret (mkResponseOf (JDict emp) 200) else ret not_found
  | None => ret not_found
  end.

(** [add_employee] (one.py 22-40). *)
Definition add_employee (data : json) (employees : store) : outcome (response * store) :=
  complete <- of_result (all_keys_in required_fields data) ;;
  if negb complete then
    ret (mkResponseOf
           (JDict [("error",
                    JStr "Missing fields. Required: ['name', 'place', 'email', 'designation', 'description']")])
           400, employees)
  else
    name <- py_getitem data "name" ;;
    place <- py_getitem data "place" ;;
    email <- py_getitem data "email" ;;
    designation <- py_getitem data "designation" ;;
    description <- py_getitem data "description" ;;
    department <- of_result (py_get data "department" (JStr "General")) ;;
    phone <- of_result (py_get data "phone" (JStr "N/A")) ;;
    let new_employee :=
      [("id", JInt (Z.of_nat (List.length employees) + 1));
       ("name", name); ("place", place); ("email", email);
       ("designation", designation); ("description", description);
       ("department", department); ("phone", phone)] in
    ret (mkResponseOf (JDict new_employee) 201, (employees ++ [new_employee])%list).

(** The loop [for key, value in data.items(): if key in employee:
    employee[key] = value]. *)
Definition overwrite (employee : list (string * json)) (items : list (string * json))
    : list (string * json) :=
  fold_left (fun emp kv => if dict_has emp (fst kv) then dict_set emp (fst kv) (snd kv) else emp)
    items employee.

(** The list with the object at [at_] replaced by its updated self. *)
Fixpoint put_at (at_ : nat) (emp : list (string * json)) (employees : store) : store :=
  match employees, at_ with
  | [], _ => []
  | _ :: rest, O => emp :: rest
  | e :: rest, S n => e :: put_at n emp rest
  end.

(** [update_employee] (one.py 43-53). *)
Definition update_employee (emp_id : Z) (data : json) (employees : store)
    : outcome (response * store) :=
  employee <- find_employee emp_id employees ;;
  match employee with
  | Some (at_, emp) =>
      if truthy (JDict emp) then
        items <- py_items data ;;
        let emp := overwrite emp items in
        ret (mkResponseOf (JDict emp) 200, put_at at_ emp employees)
      else ret (not_found, employees)
  | None => ret (not_found, employees)
  end.

(** [[emp for emp in employees if emp["id"] != emp_id]]. *)
Fixpoint without (emp_id : Z) (employees : store) : outcome store :=
  match employees with
  | [] => Returns []
  | emp :: rest =>
      id <- py_getitem (JDict emp) "id" ;;
      rest <- without emp_id rest ;;
      ret (if int_eq emp_id id then rest else emp :: rest)
  end.

(** [delete_employee] (one.py 56-60). *)
Definition delete_employee (emp_id : Z) (employees : store) : outcome (response * store) :=
  employees <- without emp_id employees ;;
  ret (mkResponseOf
         (JDict [("message", JStr ("Employee " ++ str_of_Z emp_id ++ " deleted"))]) 200,
       employees).

End Employees.

(** ** API's/two.py: the products *)

Module Products.
Import Flask.

(** The globals [products], a dict from int ids to product dicts kept in
    insertion order, and [next_id]. *)
Record store : Type := mkStore {
  products : list (Z * list (string * json));
  next_id : Z
}.

(** [products.get(product_id)]. *)
Fixpoint products_get (product_id : Z) (ps : list (Z * list (string * json)))
    : option (list (string * json)) :=
  match ps with
  | [] => None
  | (k, p) :: rest => if product_id =? k then Some p else products_get product_id rest
  end.

(** [products[product_id] = product]. *)
Fixpoint products_set (ps : list (Z * list (string * json))) (product_id : Z)
    (product : list (string * json)) : list (Z * list (string * json)) :=
  match ps with
  | [] => [(product_id, product)]
  | (k, p) :: rest =>
      if product_id =? k then (k, product) :: rest
      else (k, p) :: products_set rest product_id product
  end.

(** [del products[product_id]]. *)
Definition products_del (ps : list (Z * list (string * json))) (product_id : Z)
    : list (Z * list (string * json)) :=
  filter (fun kp => negb (product_id =? fst kp)) ps.

(** [isinstance(v, int)]: a bool is an int. *)
Definition is_int (v : json) : bool :=
  match v with
  | JInt _ | JBool _ => true
  | _ => false
  end.

(** [isinstance(v, (int, float))]. *)
Definition is_number (v : json) : bool :=
  match v with
  | JInt _ | JBool _ | JFloat _ => true
  | _ => false
  end.

(** [v < 0] for a number. *)
Definition negative (v : json) : bool :=
  match v with
  | JInt n => n <? 0
  | JFloat f => PrimFloat.ltb f 0%float
  | _ => false
  end.

(** ['key' not in data or not data['key']]. *)
Definition absent_or_falsy (data : json) (key : string) : outcome bool :=
  present <- of_result (py_in key data) ;;
  if negb present then ret true
  else v <- py_getitem data key ;; ret (negb (truthy v)).

(** [validate_product] (two.py 11-30). *)
Definition validate_product (data : json) : outcome (list string) :=
  no_name <- absent_or_falsy data "name" ;;
  let errors : list string := if no_name : bool then ["Name is required"] else [] in
  no_description <- absent_or_falsy data "description" ;;
  let errors : list string :=
    if no_description : bool then (errors ++ ["Description is required"])%list
    else errors in
  has_stock <- of_result (py_in "stock" data) ;;
  errors <-
    (if negb has_stock then ret (errors ++ ["Stock is required"])%list
     else stock <- py_getitem data "stock" ;;
          if negb (is_int stock) || negative stock
          then ret (errors ++ ["Stock must be a non-negative integer"])%list
          else ret errors) ;;
  has_price <- of_result (py_in "price" data) ;;
  if negb has_price then ret (errors ++ ["Price is required"])%list
  else price <- py_getitem data "price" ;;
       if negb (is_number price) || negative price
       then ret (errors ++ ["Price must be a non-negative number"])%list
       else ret errors.

Definition validation_failed (errors : list string) : response :=
  mkResponseOf
    (JDict [("error", JStr "Validation failed"); ("details", JList (map JStr errors))]) 400.

Definition not_found : response :=
  mkResponseOf (JDict [("error", JStr "Product not found")]) 404.

(** [create_product] (two.py 33-57). *)
Definition create_product (data : json) (now : string) (st : store)
    : outcome (response * store) :=
  errors <- validate_product data ;;
  match errors with
  | _ :: _ => ret (validation_failed errors, st)
  | [] =>
      name <- py_getitem data "name" ;;
      description <- py_getitem data "description" ;;
      stock <- py_getitem data "stock" ;;
      price <- py_getitem data "price" ;;
      let product :=
        [("id", JInt (next_id st)); ("name", name); ("description", description);
         ("stock", stock); ("price", price); ("created_at", JStr now)] in
      ret (mkResponseOf (JDict product) 201,
           mkStore (products_set (products st) (next_id st) product) (next_id st + 1))
  end.

(** [get_products] (two.py 60-62). *)
Definition get_products (st : store) : response :=
  mkResponseOf (JList (map (fun kp => JDict (snd kp)) (products st))) 200.

(** [get_product] (two.py 65-72). *)
Definition get_product (product_id : Z) (st : store) : response :=
  match products_get product_id (products st) with
  | Some product =>
      if truthy (JDict product) then mkResponseOf (JDict product) 200 else not_found
  | None => not_found
  end.

(** [update_product] (two.py 75-96). *)
Definition update_product (product_id : Z) (data : json) (now : string) (st : store)
    : outcome (response * store) :=
  match products_get product_id (products st) with
  | Some product =>
      if negb (truthy (JDict product)) then ret (not_found, st)
      else
        errors <- validate_product data ;;
        match errors with
        | _ :: _ => ret (validation_failed errors, st)
        | [] =>
            name <- py_getitem data "name" ;;
            description <- py_getitem data "description" ;;
            stock <- py_getitem data "stock" ;;
            price <- py_getitem data "price" ;;
            let product := dict_set product "name" name in
            let product := dict_set product "description" description in
            let product := dict_set product "stock" stock in
            let product := dict_set product "price" price in
            let product := dict_set product "updated_at" (JStr now) in
            ret (mkResponseOf (JDict product) 200,
                 mkStore (products_set (products st) product_id product) (next_id st))
        end
  | None => ret (not_found, st)
  end.

(** [delete_product] (two.py 99-108). *)
Definition delete_product (product_id : Z) (st : store) : response * store :=
  match products_get product_id (products st) with
  | Some product =>
      if negb (truthy (JDict product)) then (not_found, st)
      else (mkResponseOf (JDict [("message", JStr "Product deleted successfully")]) 200,
            mkStore (products_del (products st) product_id) (next_id st))
  | None => (not_found, st)
  end.

(** The store at start-up. *)
Definition empty : store := mkStore [] 1.

End Products.

(** ** Vocabulary for the sample servers *)

(** The value under [key] is there and truthy. *)
Definition truthy_at (d : list (string * json)) (key : string) : bool :=
  match dict_get key d with
  | Some v => truthy v
  | None => false
  end.

(** The value under [key] is there, of the given kind and not below 0. *)
Definition acceptable (kind : json -> bool) (d : list (string * json)) (key : string) : bool :=
  match dict_get key d with
  | Some v => kind v && negb (Products.negative v)
  | None => false
  end.

(** What [validate_product] lets through. *)
Definition valid_product (d : list (string * json)) : bool :=
  truthy_at d "name" && truthy_at d "description"
  && acceptable Products.is_int d "stock" && acceptable Products.is_number d "price".

(** The product carries, under ["id"], the key it is stored under. *)
Definition filed_under (k : Z) (product : list (string * json)) : bool :=
  match dict_get "id" product with
  | Some (JInt n) => n =? k
  | _ => false
  end.

Fixpoint distinct (ks : list Z) : bool :=
  match ks with
  | [] => true
  | k :: rest => negb (existsb (Z.eqb k) rest) && distinct rest
  end.

(** A stored product: its key is below [limit] and it is filed under it. *)
Definition product_ok (limit : Z) (kp : Z * list (string * json)) : Prop :=
  fst kp < limit /\ filed_under (fst kp) (snd kp) = true.

(** The keys of [products] are distinct (it is a dict) and below
    [next_id], and each product is filed under its own id. *)
Definition well_formed (st : Products.store) : bool :=
  distinct (map fst (Products.products st))
  && forallb (fun kp => (fst kp <? Products.next_id st) && filed_under (fst kp) (snd kp))
       (Products.products st).

(** The calls a client can make on the products server, and the store
    after each: a view that raises leaves it as it was. *)
Inductive product_request : Type :=
| Create (data : json) (now : string)
| ReadAll
| Read (product_id : Z)
| Update (product_id : Z) (data : json) (now : string)
| Delete (product_id : Z).

Definition serve (st : Products.store) (rq : product_request) : Products.store :=
  match rq with
  | Create data now =>
      match Products.create_product data now st with
      | Flask.Returns (_, st') => st'
      | Flask.Uncaught _ => st
      end
  | ReadAll | Read _ => st
  | Update product_id data now =>
      match Products.update_product product_id data now st with
      | Flask.Returns (_, st') => st'
      | Flask.Uncaught _ => st
      end
  | Delete product_id => snd (Products.delete_product product_id st)
  end.

Definition serve_all (rqs : list product_request) (st : Products.store) : Products.store :=
  fold_left serve rqs st.

(** Every employee has an ["id"]. *)
Definition has_ids (employees : Employees.store) : bool :=
  forallb (fun emp => Flask.dict_has emp "id") employees.

(** [emp["id"] == emp_id], for an employee that has an id. *)
Definition has_id (emp_id : Z) (emp : list (string * json)) : bool :=
  match dict_get "id" emp with
  | Some v => int_eq emp_id v
  | None => false
  end.

(** ** Sample data for the servers *)

(** A request body for the products server, and the product a create at
    time [now] makes of it under [product_id]. *)
Definition product_body (name : string) (stock : Z) : json :=
  JDict [("name", JStr name); ("description", JStr "Ballpoint");
         ("stock", JInt stock); ("price", JInt 2)].

Definition product_of (product_id : Z) (name : string) (stock : Z) (now : string)
    : list (string * json) :=
  [("id", JInt product_id); ("name", JStr name); ("description", JStr "Ballpoint");
   ("stock", JInt stock); ("price", JInt 2); ("created_at", JStr now)].

(** A request body for the employees server, and the employee an add
    makes of it under [emp_id]. *)
Definition employee_body (name : string) : json :=
  JDict [("name", JStr name); ("place", JStr "Pune"); ("email", JStr "staff@example.org");
         ("designation", JStr "Engineer"); ("description", JStr "Backend")].

Definition employee_of (emp_id : Z) (name : string) : list (string * json) :=
  [("id", JInt emp_id); ("name", JStr name); ("place", JStr "Pune");
   ("email", JStr "staff@example.org"); ("designation", JStr "Engineer");
   ("description", JStr "Backend"); ("department", JStr "General"); ("phone", JStr "N/A")].

(** * Properties *)

(** ** The base URL *)

Lemma rstrip_decompose (c : ascii) (s : string) :
  c = "/"%char -> exists n, s = rstrip c s ++ repeat_slash n.
Proof.
  intros ->. induction s as [| a s' [n IH]].
  - exists 0%nat. reflexivity.
  - cbn [rstrip]. destruct (Ascii.eqb_spec a "/") as [-> | Hne]; cbn [andb].
    + destruct (String.eqb_spec (rstrip "/" s') "") as [He | Hn].
      * exists (S n). rewrite He in IH. cbn in IH |- *. rewrite <- IH. reflexivity.
      * exists n. cbn. rewrite <- IH. reflexivity.
    + exists n. cbn. rewrite <- IH. reflexivity.
Qed.

Lemma rstrip_last_char (c : ascii) (s : string) : last_char (rstrip c s) <> Some c.
Proof.
  induction s as [| a s' IH]; [discriminate |].
  cbn [rstrip]. destruct (Ascii.eqb_spec a c) as [-> | Hne]; cbn [andb].
  - destruct (String.eqb_spec (rstrip c s') "") as [He | Hn]; [discriminate |].
    cbn [last_char]. destruct (rstrip c s'); [contradiction | exact IH].
  - cbn [last_char]. destruct (rstrip c s'); [congruence | exact IH].
Qed.

Lemma rstrip_one_slash (c : ascii) (s : string) :
  last_char s <> Some c -> rstrip c (s ++ String c "") = s.
Proof.
  induction s as [| a s' IH]; intros Hlast.
  - cbn. rewrite Ascii.eqb_refl. reflexivity.
  - cbn [append rstrip]. destruct s' as [| b s''].
    + cbn. rewrite Ascii.eqb_refl. cbn.
      destruct (Ascii.eqb_spec a c) as [-> | _]; [contradiction Hlast |]; reflexivity.
    + rewrite IH by exact Hlast. cbn [String.eqb]. rewrite andb_false_r. reflexivity.
Qed.

(** ** The summary *)

Lemma count_pass_from (results : list TestOutcome) :
  forall acc,
    fold_left (fun acc r => if String.eqb (status r) "PASS" then acc + 1 else acc) results acc
    = acc + count_pass results.
Proof.
  unfold count_pass. induction results as [| r rest IH]; intros acc; cbn [fold_left].
  - lia.
  - rewrite IH, (IH (if String.eqb (status r) "PASS" then 0 + 1 else 0)).
    destruct (String.eqb (status r) "PASS"); lia.
Qed.

Lemma count_pass_bounds (results : list TestOutcome) :
  0 <= count_pass results <= Z.of_nat (List.length results).
Proof.
  induction results as [| r rest IH].
  - cbn. lia.
  - unfold count_pass in *. cbn [fold_left List.length]. rewrite count_pass_from.
    unfold count_pass. destruct (String.eqb (status r) "PASS"); lia.
Qed.

(** [get_summary] never raises; its pass rate is the float
    [passed/total*100] on a log with entries and the int 0 on an empty
    one. *)
Lemma get_summary_total (self : APITester) :
  exists sm, get_summary self = Ok sm
             /\ total sm = Z.of_nat (List.length (results self))
             /\ passed sm = count_pass (results self)
             /\ failed sm = total sm - passed sm
             /\ pass_rate sm =
                  if 0 <? total sm
                  then PyFloat (PrimFloat.mul
                                  (PrimFloat.div (float_of_Z (passed sm)) (float_of_Z (total sm)))
                                  (float_of_Z 100))
                  else PyInt 0.
Proof.
  unfold get_summary, true_div.
  destruct (Z.ltb_spec 0 (Z.of_nat (List.length (results self)))) as [Hpos | Hzero].
  - destruct (Z.eqb_spec (Z.of_nat (List.length (results self))) 0) as [He | _]; [lia |].
    cbn [bind ret Monad_result]. eexists. split; [reflexivity |].
    cbn [total passed failed pass_rate].
    destruct (Z.ltb_spec 0 (Z.of_nat (List.length (results self)))); [| lia].
    repeat split.
  - cbn [bind ret Monad_result]. eexists. split; [reflexivity |].
    cbn [total passed failed pass_rate].
    destruct (Z.ltb_spec 0 (Z.of_nat (List.length (results self)))); [lia |].
    repeat split.
Qed.

Lemma get_summary_empty_log (url : string) :
  get_summary (mkTester url []) = Ok (mkSummary 0 0 0 (PyInt 0)).
Proof. reflexivity. Qed.

Lemma get_summary_three_of_four (self : APITester) :
  List.length (results self) = 4%nat -> count_pass (results self) = 3 ->
  get_summary self = Ok (mkSummary 4 3 1 (PyFloat 75%float)).
Proof.
  intros Hlen Hpass. unfold get_summary. rewrite Hlen, Hpass. vm_compute. reflexivity.
Qed.

(** C4. On a log with no entry [get_summary] gives the pass rate 0, and
    [print_summary], which divides by the total without testing it, raises
    [ZeroDivisionError]. *)
Theorem summary_of_empty_log (url : string) :
  (exists sm, get_summary (mkTester url []) = Ok sm /\ pass_rate sm = PyInt 0)
  /\ print_summary (mkTester url []) = Raise ZeroDivisionError.
Proof.
  split; [| reflexivity].
  exists (mkSummary 0 0 0 (PyInt 0)). split; reflexivity.
Qed.

(** ** The field check *)

Lemma missing_fields_raises (data : json) (expected_fields : list string) (e : exn) :
  missing_fields data expected_fields = Raise e -> e = TypeError.
Proof.
  induction expected_fields as [| field rest IH]; cbn [missing_fields]; [discriminate |].
  destruct (contains "." field).
  - cbn. destruct (missing_fields data rest) as [others | e'].
    + cbn. discriminate.
    + cbn. intros H. inversion H; subst. apply IH. reflexivity.
  - unfold py_in. destruct data; cbn;
      try (intros H; inversion H; reflexivity);
      (destruct (missing_fields _ rest) as [others | e'];
       [cbn; discriminate | cbn; intros H; inversion H; subst; apply IH; reflexivity]).
Qed.

(** C7. On a response whose body [response.json()] does not decode, the
    field check returns the failure [(False, "Invalid JSON response")]
    only when the decoder raised [JSONDecodeError], the one exception the
    method catches; any other exception of the decoder leaves the method,
    whatever fields were asked for.  No response with a decoded body gets
    that diagnostic. *)
Theorem undecoded_body_is_reported_on_decode_error_only (response : Response)
    (expected_fields : option (list string)) :
  json_body response = None ->
  validate_response_data response expected_fields
  = match json_error response with
    | JSONDecodeError => Ok (false, "Invalid JSON response")
    | e => Raise e
    end
  /\ (forall parsed response' fields' verdict,
        json_body response' = Some parsed ->
        validate_response_data response' fields' = Ok verdict ->
        snd verdict <> "Invalid JSON response").
Proof.
  intros Hbody. split.
  - unfold validate_response_data, response_json. rewrite Hbody.
    destruct (json_error response); reflexivity.
  - intros parsed response' fields' verdict Hparsed.
    unfold validate_response_data, response_json. rewrite Hparsed.
    destruct fields' as [[| f fs] |];
      try (cbn; intros H; inversion H; subst; cbn; discriminate).
    pose proof (missing_fields_raises parsed (f :: fs)) as Hraise.
    cbn [bind ret Monad_result].
    destruct (missing_fields parsed (f :: fs)) as [[| miss rest] | e]; cbn.
    + intros H; inversion H; subst; cbn; discriminate.
    + intros H; inversion H; subst; cbn; discriminate.
    + rewrite (Hraise e eq_refl). discriminate.
Qed.

(** ** The resource identity *)

Lemma extract_from_dict (response : Response) (d : list (string * json)) :
  json_body response = Some (JDict d) ->
  extract_resource_id response =
    match resource_id_expr (JDict d) with Ok v => v | Raise _ => JNull end.
Proof.
  intros Hbody. unfold extract_resource_id, response_json. rewrite Hbody. reflexivity.
Qed.

(** C3, as amended. On a creation body that is a JSON object the identity
    is the value of the first of the keys id, _id, uuid whose value is
    truthy (present and not None, False, 0, an empty string, list or dict);
    when none is, it is the value under data.id. In particular a truthy
    value under id is the identity whatever else the body holds. *)
Theorem identity_is_first_truthy_candidate (response : Response) (d : list (string * json)) :
  json_body response = Some (JDict d) ->
  (forall before k after,
      ["id"; "_id"; "uuid"] = (before ++ k :: after)%list ->
      Forall (fun k' => truthy (dict_get_default d k' JNull) = false) before ->
      truthy (dict_get_default d k JNull) = true ->
      extract_resource_id response = dict_get_default d k JNull)
  /\ (forall nested,
      Forall (fun k' => truthy (dict_get_default d k' JNull) = false) ["id"; "_id"; "uuid"] ->
      dict_get_default d "data" (JDict []) = JDict nested ->
      extract_resource_id response = dict_get_default nested "id" JNull)
  /\ (forall v, dict_get "id" d = Some v -> truthy v = true ->
      extract_resource_id response = v).
Proof.
  intros Hbody. rewrite (extract_from_dict response d Hbody).
  unfold resource_id_expr, py_or. cbn [py_get bind ret Monad_result].
  split; [| split].
  - intros before k after Hkeys Hfalsy Htruthy.
    destruct before as [| k1 [| k2 [| k3 before]]]; cbn in Hkeys;
      inversion Hkeys; subst; clear Hkeys.
    + rewrite Htruthy. reflexivity.
    + inversion Hfalsy as [| ? ? H1 _]; subst. rewrite H1, Htruthy. reflexivity.
    + inversion Hfalsy as [| ? ? H1 Hrest]; subst.
      inversion Hrest as [| ? ? H2 _]; subst. rewrite H1, H2, Htruthy. reflexivity.
    + destruct before; discriminate.
  - intros nested Hfalsy Hdata.
    inversion Hfalsy as [| ? ? H1 Hrest]; subst.
    inversion Hrest as [| ? ? H2 Hrest']; subst.
    inversion Hrest' as [| ? ? H3 _]; subst.
    rewrite H1, H2, H3, Hdata. reflexivity.
  - intros v Hid Htruthy.
    unfold dict_get_default at 1 2. rewrite Hid, Htruthy. reflexivity.
Qed.


(** ** Strings *)

Lemma append_empty (x : string) : x ++ "" = x.
Proof. induction x as [| a x IH]; cbn; [| rewrite IH]; reflexivity. Qed.

Section Properties.

Context {env : Environment}.

(** ** Running a method: one exchange with the world *)

Lemma bind_Ok {A B : Type} (m : M A) (k : A -> M B) (s s' : State) (a : A) :
  m s = (Ok a, s') -> bind m k s = k a s'.
Proof. intros H. cbn. rewrite H. reflexivity. Qed.

Ltac run_exchange :=
  intros; unfold exchange, verdict, try_except_RequestException, requests_call,
    log_result, get_base_url, logged; cbn;
  repeat match goal with
         | |- context [send ?rq ?w] => destruct (send rq w) as [[?r | ?msg] ?w1]; cbn
         | |- context [if ?b then _ else _] => destruct b; cbn
         | |- context [now ?w] => destruct (now w) as [?stamp ?w2]; cbn
         end;
  reflexivity.

Lemma test_get_exchange (endpoint : string) (expected_status : Z) headers (s : State) :
  test_get endpoint expected_status headers s =
  exchange s (mkRequest GET (base_url (self s) ++ endpoint) JNull headers 10)
    ("GET " ++ base_url (self s) ++ endpoint)
    (verdict (fun r => status_code r =? expected_status)
       (fun r => "Expected status " ++ str_of_Z expected_status ++ ", got "
                   ++ str_of_Z (status_code r))).
Proof. unfold test_get. run_exchange. Qed.

Lemma test_delete_exchange (endpoint : string) (expected_status : Z) headers (s : State) :
  test_delete endpoint expected_status headers s =
  exchange s (mkRequest DELETE (base_url (self s) ++ endpoint) JNull headers 10)
    ("DELETE " ++ base_url (self s) ++ endpoint)
    (verdict (fun r => status_code r =? expected_status)
       (fun r => "Expected status " ++ str_of_Z expected_status ++ ", got "
                   ++ str_of_Z (status_code r))).
Proof. unfold test_delete. run_exchange. Qed.

Lemma test_post_exchange (endpoint : string) (data : json) (expected_status : Z) headers
    (s : State) :
  test_post endpoint data expected_status headers s =
  exchange s (mkRequest POST (base_url (self s) ++ endpoint) data (default_headers headers) 10)
    ("POST " ++ base_url (self s) ++ endpoint)
    (verdict (fun r => status_code r =? expected_status)
       (fun r => "Expected status " ++ str_of_Z expected_status ++ ", got "
                   ++ str_of_Z (status_code r) ++ ". Response: " ++ take 200 (text r))).
Proof. unfold test_post, default_headers. destruct headers; run_exchange. Qed.

Lemma test_put_exchange (endpoint : string) (data : json) (expected_status : Z) headers
    (s : State) :
  test_put endpoint data expected_status headers s =
  exchange s (mkRequest PUT (base_url (self s) ++ endpoint) data (default_headers headers) 10)
    ("PUT " ++ base_url (self s) ++ endpoint)
    (verdict (fun r => status_code r =? expected_status)
       (fun r => "Expected status " ++ str_of_Z expected_status ++ ", got "
                   ++ str_of_Z (status_code r) ++ ". Response: " ++ take 200 (text r))).
Proof. unfold test_put, default_headers. destruct headers; run_exchange. Qed.

Lemma test_patch_exchange (endpoint : string) (data : json) (expected_status : Z) headers
    (s : State) :
  test_patch endpoint data expected_status headers s =
  exchange s (mkRequest PATCH (base_url (self s) ++ endpoint) data (default_headers headers) 10)
    ("PATCH " ++ base_url (self s) ++ endpoint)
    (verdict (fun r => status_code r =? expected_status)
       (fun r => "Expected status " ++ str_of_Z expected_status ++ ", got "
                   ++ str_of_Z (status_code r) ++ ". Response: " ++ take 200 (text r))).
Proof. unfold test_patch, default_headers. destruct headers; run_exchange. Qed.

Lemma test_request_supported (method endpoint data expected_status : json) headers
    (test_name : option string) (m : Method) (s : State) :
  method_of method = Some m ->
  test_request method endpoint data expected_status headers test_name s =
  exchange s
    (mkRequest m (base_url (self s) ++ py_str endpoint) (body_of m data)
       (default_headers headers) 10)
    (name_of test_name method (base_url (self s) ++ py_str endpoint))
    (verdict (fun r => int_eq (status_code r) expected_status)
       (fun r => "Expected status " ++ py_str expected_status ++ ", got "
                   ++ str_of_Z (status_code r) ++ ". Response: " ++ take 150 (text r))).
Proof.
  unfold method_of, test_request, name_of, default_headers. intros Hm.
  destruct headers;
  repeat match type of Hm with
         | (if ?b then _ else _) = _ => destruct b
         end;
  inversion Hm; subst m; run_exchange.
Qed.

Lemma test_request_unsupported (method endpoint data expected_status : json) headers
    (test_name : option string) (s : State) :
  method_of method = None ->
  test_request method endpoint data expected_status headers test_name s =
  (Ok None,
   mkState
     (mkTester (base_url (self s))
        (results (self s) ++
           [mkOutcome (name_of test_name method (base_url (self s) ++ py_str endpoint))
              "FAIL" ("Unsupported method: " ++ py_str method) (fst (now (world s)))]))
     (snd (now (world s))) (issued s)).
Proof.
  unfold method_of, test_request, name_of. intros Hm.
  repeat match type of Hm with
         | (if ?b then _ else _) = _ => destruct b
         end;
  try discriminate Hm.
  unfold try_except_RequestException, log_result, get_base_url. cbn.
  destruct (now (world s)) as [stamp w]. reflexivity.
Qed.

(** What an exchange leaves behind. *)
Lemma exchange_extends (s : State) (rq : Request) (name : string) judge :
  exists ret o s',
    exchange s rq name judge = (Ok ret, s')
    /\ extends s s' o [rq]
    /\ test o = name
    /\ judge (fst (send rq (world s))) = (ret, status o, details o).
Proof.
  unfold exchange, extends, logged.
  destruct (send rq (world s)) as [reply w1]. cbn.
  destruct (judge reply) as [[ret st] det].
  destruct (now w1) as [stamp w2].
  eexists _, (mkOutcome name st det stamp), _. cbn. repeat split.
Qed.

Lemma verdict_pass matches mismatch reply ret st det :
  verdict matches mismatch reply = (ret, st, det) ->
  ((exists r, ret = Some r) <-> st = "PASS") /\ (ret = None <-> st = "FAIL")
  /\ (forall r, ret = Some r -> reply = Received r /\ matches r = true).
Proof.
  unfold verdict. destruct reply as [r | msg].
  - destruct (matches r) eqn:Hm; intros H; inversion H; subst; clear H.
    + split; [split; eauto | split; [split; discriminate |]].
      intros r' Hr. inversion Hr; subst. auto.
    + split; [split; [intros [r' Hr] |]; discriminate | split; [split; auto | discriminate]].
  - intros H; inversion H; subst; clear H.
    split; [split; [intros [r' Hr] |]; discriminate | split; [split; auto | discriminate]].
Qed.

Lemma verdict_received matches mismatch r ret st det :
  verdict matches mismatch (Received r) = (ret, st, det) ->
  (matches r = true -> ret = Some r /\ st = "PASS" /\ det = pass_details r)
  /\ (matches r = false -> ret = None /\ st = "FAIL" /\ det = mismatch r).
Proof.
  unfold verdict. destruct (matches r); intros H; inversion H; subst;
    split; intros; try discriminate; auto.
Qed.

Lemma verdict_failed matches mismatch msg ret st det :
  verdict matches mismatch (Failed msg) = (ret, st, det) ->
  ret = None /\ st = "FAIL" /\ det = "Error: " ++ msg.
Proof. unfold verdict. intros H; inversion H; auto. Qed.

Lemma exchange_returns_iff_pass (method : M (option Response)) :
  (forall s, exists rq name matches mismatch,
      method s = exchange s rq name (verdict matches mismatch)) ->
  returns_response_iff_pass method.
Proof.
  intros Hex s. destruct (Hex s) as (rq & name & matches & mismatch & ->).
  destruct (exchange_extends s rq name (verdict matches mismatch))
    as (ret & o & s' & Hrun & Hext & _ & Hj).
  apply verdict_pass in Hj. destruct Hj as (Hpass & Hfail & Hsome).
  exists ret, o, s', [rq].
  split; [exact Hrun |]. split; [exact Hext |].
  split; [exact Hpass |]. split; [exact Hfail |].
  intros r Hr. exists rq. split; [reflexivity |]. apply (Hsome r Hr).
Qed.

Lemma exchange_one_request_one_outcome (method : M (option Response)) :
  (forall s, exists rq name matches mismatch,
      method s = exchange s rq name (verdict matches mismatch)) ->
  one_request_one_outcome method.
Proof.
  intros Hex s. destruct (Hex s) as (rq & name & matches & mismatch & ->).
  destruct (exchange_extends s rq name (verdict matches mismatch))
    as (ret & o & s' & Hrun & Hext & _ & Hj).
  exists ret, o, s', rq. split; [exact Hrun |]. split; [exact Hext |].
  intros msg Hmsg. rewrite Hmsg in Hj. apply verdict_failed in Hj. tauto.
Qed.

(** The five methods of V1.py and, on a supported method, [test_request]
    each run as one exchange. *)
Lemma test_get_is_exchange endpoint expected_status headers :
  forall s, exists rq name matches mismatch,
    test_get endpoint expected_status headers s = exchange s rq name (verdict matches mismatch).
Proof. intros s. rewrite test_get_exchange. eauto. Qed.

Lemma test_post_is_exchange endpoint data expected_status headers :
  forall s, exists rq name matches mismatch,
    test_post endpoint data expected_status headers s
    = exchange s rq name (verdict matches mismatch).
Proof. intros s. rewrite test_post_exchange. eauto. Qed.

Lemma test_put_is_exchange endpoint data expected_status headers :
  forall s, exists rq name matches mismatch,
    test_put endpoint data expected_status headers s
    = exchange s rq name (verdict matches mismatch).
Proof. intros s. rewrite test_put_exchange. eauto. Qed.

Lemma test_patch_is_exchange endpoint data expected_status headers :
  forall s, exists rq name matches mismatch,
    test_patch endpoint data expected_status headers s
    = exchange s rq name (verdict matches mismatch).
Proof. intros s. rewrite test_patch_exchange. eauto. Qed.

Lemma test_delete_is_exchange endpoint expected_status headers :
  forall s, exists rq name matches mismatch,
    test_delete endpoint expected_status headers s
    = exchange s rq name (verdict matches mismatch).
Proof. intros s. rewrite test_delete_exchange. eauto. Qed.

Lemma test_request_is_exchange method endpoint data expected_status headers test_name m :
  method_of method = Some m ->
  forall s, exists rq name matches mismatch,
    test_request method endpoint data expected_status headers test_name s
    = exchange s rq name (verdict matches mismatch).
Proof. intros Hm s. rewrite (test_request_supported _ _ _ _ _ _ m s Hm). eauto. Qed.

Lemma method_of_none (method : json) :
  (forall m, In m ["GET"; "POST"; "PUT"; "PATCH"; "DELETE"] -> method <> JStr m) ->
  method_of method = None.
Proof.
  intros H. unfold method_of, str_eq.
  destruct method as [| | | | t | |]; try reflexivity.
  repeat match goal with
         | |- (if String.eqb t ?m then _ else _) = None =>
             destruct (String.eqb_spec t m) as [-> | _];
             [exfalso; apply (H m); [cbn; tauto | reflexivity] |]
         end.
  reflexivity.
Qed.

(** Whatever the method, [test_request] logs one outcome and makes at most
    one request: one when the method is supported, none otherwise. *)
Lemma test_request_extends (method endpoint data expected_status : json) headers
    (test_name : option string) (s : State) :
  exists ret o s' rqs,
    test_request method endpoint data expected_status headers test_name s = (Ok ret, s')
    /\ extends s s' o rqs
    /\ test o = name_of test_name method (base_url (self s) ++ py_str endpoint)
    /\ List.length rqs = match method_of method with Some _ => 1%nat | None => 0%nat end.
Proof.
  destruct (method_of method) as [m |] eqn:Hm.
  - rewrite (test_request_supported _ _ _ _ _ _ m s Hm).
    match goal with
    | |- context [exchange s ?rq ?name ?judge] =>
        destruct (exchange_extends s rq name judge)
          as (ret & o & s' & Hrun & Hext & Hname & _)
    end.
    exists ret, o, s'. eexists.
    split; [exact Hrun |]. split; [exact Hext |]. split; [exact Hname | reflexivity].
  - rewrite (test_request_unsupported _ _ _ _ _ _ s Hm).
    eexists _, _, _, []. split; [reflexivity |].
    unfold extends; cbn. rewrite app_nil_r. auto.
Qed.


(** ** The data-driven runner *)

Lemma run_from_log (test_cases : list (list (string * json))) :
  forall (i : Z) (s : State), exists s' outs rqs,
    run_ai_generated_tests_from i test_cases s = (Ok tt, s')
    /\ base_url (self s') = base_url (self s)
    /\ results (self s') = (results (self s) ++ outs)%list
    /\ issued s' = (issued s ++ rqs)%list
    /\ map test outs = ai_test_names i test_cases
    /\ List.length rqs = List.length (filter supported test_cases).
Proof.
  induction test_cases as [| test_case rest IH]; intros i s.
  - exists s, [], []. cbn. rewrite !app_nil_r. auto 6.
  - cbn [run_ai_generated_tests_from].
    set (name := "[AI Test " ++ str_of_Z i ++ "] " ++ _).
    destruct (test_request_extends
                (dict_get_default test_case "method" (JStr "GET"))
                (dict_get_default test_case "endpoint" (JStr ""))
                (dict_get_default test_case "data" JNull)
                (dict_get_default test_case "expected_status" (JInt 200))
                None (Some name) s)
      as (ret & o & s1 & rqs1 & Hrun & (Hbase & Hres & Hiss) & Hname & Hlen).
    destruct (IH (i + 1) s1) as (s' & outs & rqs & Hrest & Hbase' & Hres' & Hiss' & Hnames & Hlen').
    exists s', (o :: outs), (rqs1 ++ rqs)%list.
    rewrite (bind_Ok _ _ _ _ _ Hrun), Hrest.
    split; [reflexivity |]. split; [congruence |].
    split; [rewrite Hres', Hres, <- app_assoc; reflexivity |].
    split; [rewrite Hiss', Hiss, <- app_assoc; reflexivity |].
    split; [cbn; rewrite Hnames; f_equal; exact Hname |].
    rewrite length_app, Hlen, Hlen'. cbn [filter]. unfold supported at 2.
    destruct (method_of _); reflexivity.
Qed.

Lemma run_from_ok (test_cases : list (list (string * json))) (i : Z) (s : State) :
  fst (run_ai_generated_tests_from i test_cases s) = Ok tt.
Proof.
  destruct (run_from_log test_cases i s) as (s' & outs & rqs & Hrun & _).
  rewrite Hrun. reflexivity.
Qed.

Lemma ai_test_names_length (test_cases : list (list (string * json))) :
  forall i, List.length (ai_test_names i test_cases) = List.length test_cases.
Proof. induction test_cases as [| tc rest IH]; intros i; cbn; auto. Qed.

Lemma ai_test_names_nth (test_cases : list (list (string * json))) :
  forall i k test_case,
    nth_error test_cases k = Some test_case ->
    nth_error (ai_test_names i test_cases) k = Some (ai_test_name (i + Z.of_nat k) test_case).
Proof.
  induction test_cases as [| tc rest IH]; intros i k test_case Hk.
  - destruct k; discriminate.
  - destruct k as [| k]; cbn [nth_error ai_test_names] in Hk |- *.
    + inversion Hk. replace (i + Z.of_nat 0) with i by lia. reflexivity.
    + rewrite (IH (i + 1) k test_case Hk).
      replace (i + 1 + Z.of_nat k) with (i + Z.of_nat (S k)) by lia. reflexivity.
Qed.

(** C1. Running N test cases appends exactly N outcomes to the log, the
    k-th of them labelled for the k-th test case, whatever the world
    answers; no exception leaves the run. *)
Theorem run_ai_generated_tests_one_outcome_each
    (test_cases : list (list (string * json))) (s : State) :
  exists s' outs,
    run_ai_generated_tests test_cases s = (Ok tt, s')
    /\ results (self s') = (results (self s) ++ outs)%list
    /\ List.length outs = List.length test_cases
    /\ (forall k test_case, nth_error test_cases k = Some test_case ->
          exists o, nth_error outs k = Some o
                    /\ test o = ai_test_name (1 + Z.of_nat k) test_case).
Proof.
  destruct (run_from_log test_cases 1 s) as (s' & outs & rqs & Hrun & _ & Hres & _ & Hnames & _).
  exists s', outs. split; [exact Hrun |]. split; [exact Hres |]. split.
  - rewrite <- (length_map test outs), Hnames. apply ai_test_names_length.
  - intros k test_case Hk.
    pose proof (ai_test_names_nth test_cases 1 k test_case Hk) as Hnth.
    rewrite <- Hnames, nth_error_map in Hnth.
    destruct (nth_error outs k) as [o |]; [| discriminate].
    exists o. split; [reflexivity |]. cbn [option_map] in Hnth. congruence.
Qed.

(** C6. A test case whose method is none of GET, POST, PUT, PATCH, DELETE
    gets a FAIL outcome whose details name the method; nothing is raised and
    the run goes on with the next test case. *)
Theorem unsupported_method_fails_and_run_continues
    (i : Z) (test_case : list (string * json)) (rest : list (list (string * json)))
    (s : State) :
  let method := dict_get_default test_case "method" (JStr "GET") in
  let o := mkOutcome (ai_test_name i test_case) "FAIL"
             ("Unsupported method: " ++ py_str method) (fst (now (world s))) in
  (forall m, In m ["GET"; "POST"; "PUT"; "PATCH"; "DELETE"] -> method <> JStr m) ->
  run_ai_generated_tests_from i (test_case :: rest) s =
    run_ai_generated_tests_from (i + 1) rest
      (mkState (mkTester (base_url (self s)) (results (self s) ++ [o]))
         (snd (now (world s))) (issued s))
  /\ fst (run_ai_generated_tests_from i (test_case :: rest) s) = Ok tt.
Proof.
  intros method o Hm. apply method_of_none in Hm.
  split; [| apply run_from_ok].
  cbn [run_ai_generated_tests_from]. fold method.
  erewrite bind_Ok by (apply test_request_unsupported; exact Hm). reflexivity.
Qed.

(** ** The CRUD lifecycle *)

Lemma test_get_extends (endpoint : string) (expected_status : Z) (s : State) :
  exists ret o s',
    test_get endpoint expected_status None s = (Ok ret, s')
    /\ extends s s' o [mkRequest GET (base_url (self s) ++ endpoint) JNull None 10]
    /\ test o = "GET " ++ base_url (self s) ++ endpoint.
Proof.
  rewrite test_get_exchange.
  match goal with
  | |- context [exchange s ?rq ?name ?judge] =>
      destruct (exchange_extends s rq name judge) as (ret & o & s' & Hrun & Hext & Hname & _)
  end.
  exists ret, o, s'. auto.
Qed.

Lemma test_delete_extends (endpoint : string) (expected_status : Z) (s : State) :
  exists ret o s',
    test_delete endpoint expected_status None s = (Ok ret, s')
    /\ extends s s' o [mkRequest DELETE (base_url (self s) ++ endpoint) JNull None 10]
    /\ test o = "DELETE " ++ base_url (self s) ++ endpoint.
Proof.
  rewrite test_delete_exchange.
  match goal with
  | |- context [exchange s ?rq ?name ?judge] =>
      destruct (exchange_extends s rq name judge) as (ret & o & s' & Hrun & Hext & Hname & _)
  end.
  exists ret, o, s'. auto.
Qed.

Lemma test_post_extends (endpoint : string) (data : json) (expected_status : Z) (s : State) :
  exists ret o s',
    test_post endpoint data expected_status None s = (Ok ret, s')
    /\ extends s s' o [mkRequest POST (base_url (self s) ++ endpoint) data json_headers 10]
    /\ test o = "POST " ++ base_url (self s) ++ endpoint.
Proof.
  rewrite test_post_exchange.
  match goal with
  | |- context [exchange s ?rq ?name ?judge] =>
      destruct (exchange_extends s rq name judge) as (ret & o & s' & Hrun & Hext & Hname & _)
  end.
  exists ret, o, s'. auto.
Qed.

(** A method that runs as an exchange and does not meet its expected status
    returns [None] and logs FAIL. *)
Lemma exchange_not_met (s : State) (rq : Request) (name : string) matches mismatch :
  (forall r, fst (send rq (world s)) = Received r -> matches r = false) ->
  exists o s',
    exchange s rq name (verdict matches mismatch) = (Ok None, s')
    /\ extends s s' o [rq] /\ test o = name /\ status o = "FAIL".
Proof.
  intros Hnot.
  destruct (exchange_extends s rq name (verdict matches mismatch))
    as (ret & o & s' & Hrun & Hext & Hname & Hj).
  destruct (fst (send rq (world s))) as [r | msg].
  - apply verdict_received in Hj. destruct Hj as [_ Hj].
    destruct (Hj (Hnot r eq_refl)) as (-> & Hst & _). exists o, s'. auto.
  - apply verdict_failed in Hj. destruct Hj as (-> & Hst & _). exists o, s'. auto.
Qed.

Lemma eqb_false_of_neq (a b : Z) : a <> b -> (a =? b) = false.
Proof. intros H. apply Z.eqb_neq. exact H. Qed.

Lemma crud_create_failure (create_data : json) expected_fields (s : State) :
  (forall r, fst (send (mkRequest POST (base_url (self s)) create_data json_headers 10)
                       (world s)) = Received r -> status_code r <> 201) ->
  exists o s',
    crud_create create_data expected_fields s = (Ok JNull, s')
    /\ extends s s' o [mkRequest POST (base_url (self s)) create_data json_headers 10]
    /\ test o = "POST " ++ base_url (self s)
    /\ status o = "FAIL".
Proof.
  intros Hfail. unfold crud_create.
  pose proof (test_post_exchange "" create_data 201 None s) as Hpost.
  rewrite append_empty in Hpost. cbn [default_headers] in Hpost.
  match type of Hpost with
  | _ = exchange s ?rq ?name (verdict ?matches ?mismatch) =>
      destruct (exchange_not_met s rq name matches mismatch)
        as (o & s' & Hrun & Hext & Hname & Hst)
  end.
  { intros r Hr. apply eqb_false_of_neq. exact (Hfail r Hr). }
  rewrite Hrun in Hpost.
  exists o, s'. rewrite (bind_Ok _ _ _ _ _ Hpost). auto.
Qed.

Lemma crud_update_put_not_met (resource_id update_data : json) (s : State) :
  truthy resource_id = true ->
  (forall r, fst (send (mkRequest PUT (base_url (self s) ++ "/" ++ py_str resource_id)
                          update_data json_headers 10) (world s)) = Received r ->
             status_code r <> 200) ->
  exists o s',
    crud_update_put resource_id update_data s = (Ok tt, s')
    /\ extends s s' o [mkRequest PUT (base_url (self s) ++ "/" ++ py_str resource_id)
                         update_data json_headers 10]
    /\ status o = "FAIL".
Proof.
  intros Hid Hfail. unfold crud_update_put. rewrite Hid.
  pose proof (test_put_exchange ("/" ++ py_str resource_id) update_data 200 None s) as Hput.
  cbn [default_headers] in Hput.
  match type of Hput with
  | _ = exchange s ?rq ?name (verdict ?matches ?mismatch) =>
      destruct (exchange_not_met s rq name matches mismatch)
        as (o & s' & Hrun & Hext & Hname & Hst)
  end.
  { intros r Hr. apply eqb_false_of_neq. exact (Hfail r Hr). }
  rewrite Hrun in Hput.
  exists o, s'. rewrite (bind_Ok _ _ _ _ _ Hput). auto.
Qed.

Lemma crud_update_patch_not_met (resource_id patch_data : json) (s : State) :
  truthy resource_id = true ->
  (forall r, fst (send (mkRequest PATCH (base_url (self s) ++ "/" ++ py_str resource_id)
                          patch_data json_headers 10) (world s)) = Received r ->
             status_code r <> 200) ->
  exists o s',
    crud_update_patch resource_id patch_data s = (Ok tt, s')
    /\ extends s s' o [mkRequest PATCH (base_url (self s) ++ "/" ++ py_str resource_id)
                         patch_data json_headers 10]
    /\ status o = "FAIL".
Proof.
  intros Hid Hfail. unfold crud_update_patch. rewrite Hid.
  pose proof (test_patch_exchange ("/" ++ py_str resource_id) patch_data 200 None s) as Hpatch.
  cbn [default_headers] in Hpatch.
  match type of Hpatch with
  | _ = exchange s ?rq ?name (verdict ?matches ?mismatch) =>
      destruct (exchange_not_met s rq name matches mismatch)
        as (o & s' & Hrun & Hext & Hname & Hst)
  end.
  { intros r Hr. apply eqb_false_of_neq. exact (Hfail r Hr). }
  rewrite Hrun in Hpatch.
  exists o, s'. rewrite (bind_Ok _ _ _ _ _ Hpatch). auto.
Qed.

Lemma crud_edge_cases_log (s : State) :
  exists o3 o4 o5 s',
    crud_edge_cases s = (Ok tt, s')
    /\ base_url (self s') = base_url (self s)
    /\ results (self s') = (results (self s) ++ [o3; o4; o5])%list
    /\ issued s' =
         (issued s ++
            [mkRequest GET (base_url (self s) ++ "/nonexistent-id-12345") JNull None 10;
             mkRequest DELETE (base_url (self s) ++ "/nonexistent-id-12345") JNull None 10;
             mkRequest POST (base_url (self s)) (JDict []) json_headers 10])%list
    /\ test o3 = "GET " ++ base_url (self s) ++ "/nonexistent-id-12345"
    /\ test o4 = "DELETE " ++ base_url (self s) ++ "/nonexistent-id-12345"
    /\ test o5 = "POST " ++ base_url (self s).
Proof.
  unfold crud_edge_cases.
  destruct (test_get_extends "/nonexistent-id-12345" 404 s)
    as (r3 & o3 & s3 & Hrun3 & (Hb3 & Hres3 & Hiss3) & Hn3).
  destruct (test_delete_extends "/nonexistent-id-12345" 404 s3)
    as (r4 & o4 & s4 & Hrun4 & (Hb4 & Hres4 & Hiss4) & Hn4).
  destruct (test_post_extends "" (JDict []) 400 s4)
    as (r5 & o5 & s5 & Hrun5 & (Hb5 & Hres5 & Hiss5) & Hn5).
  rewrite append_empty in Hiss5, Hn5.
  exists o3, o4, o5, s5.
  rewrite (bind_Ok _ _ _ _ _ Hrun3), (bind_Ok _ _ _ _ _ Hrun4), (bind_Ok _ _ _ _ _ Hrun5).
  rewrite Hb4, Hb3 in *.
  split; [reflexivity |]. split; [congruence |].
  split; [rewrite Hres5, Hres4, Hres3, <- !app_assoc; reflexivity |].
  split; [rewrite Hiss5, Hiss4, Hiss3, <- !app_assoc; reflexivity |].
  auto.
Qed.

(** C2. When the create step fails (a status other than 201, or no
    response), the run makes exactly five requests (the create, the list-all
    and the three edge cases) and logs exactly their five outcomes, the
    first a FAIL: no request on the created resource is attempted. *)
Theorem failed_create_skips_identity_steps
    (create_data update_data patch_data : json) (expected_fields : option (list string))
    (s : State) :
  let base := base_url (self s) in
  let create := mkRequest POST base (or_default create_data default_create_data)
                  json_headers 10 in
  (forall r, fst (send create (world s)) = Received r -> status_code r <> 201) ->
  exists o1 o2 o3 o4 o5 s',
    run_full_crud_test create_data update_data patch_data expected_fields s = (Ok tt, s')
    /\ results (self s') = (results (self s) ++ [o1; o2; o3; o4; o5])%list
    /\ issued s' =
         (issued s ++
            [create;
             mkRequest GET base JNull None 10;
             mkRequest GET (base ++ "/nonexistent-id-12345") JNull None 10;
             mkRequest DELETE (base ++ "/nonexistent-id-12345") JNull None 10;
             mkRequest POST base (JDict []) json_headers 10])%list
    /\ (test o1 = "POST " ++ base /\ status o1 = "FAIL")
    /\ test o2 = "GET " ++ base
    /\ test o3 = "GET " ++ base ++ "/nonexistent-id-12345"
    /\ test o4 = "DELETE " ++ base ++ "/nonexistent-id-12345"
    /\ test o5 = "POST " ++ base.
Proof.
  intros base create Hfail. unfold run_full_crud_test.
  destruct (crud_create_failure _ expected_fields s Hfail)
    as (o1 & s1 & Hrun1 & (Hb1 & Hres1 & Hiss1) & Hn1 & Hst1).
  destruct (test_get_extends "" 200 s1)
    as (r2 & o2 & s2 & Hrun2 & (Hb2 & Hres2 & Hiss2) & Hn2).
  rewrite append_empty in Hiss2, Hn2.
  destruct (crud_edge_cases_log s2)
    as (o3 & o4 & o5 & s' & Hrun & Hb & Hres & Hiss & Hn3 & Hn4 & Hn5).
  exists o1, o2, o3, o4, o5, s'.
  rewrite (bind_Ok _ _ _ _ _ Hrun1), (bind_Ok _ _ _ _ _ Hrun2).
  unfold crud_read_single, crud_update_put, crud_update_patch, crud_delete.
  cbn [truthy]. cbn [bind ret Monad_M].
  rewrite Hrun. rewrite Hb2, Hb1 in *.
  fold base in Hiss1, Hn1, Hiss2, Hn2, Hiss, Hn3, Hn4, Hn5 |- *.
  split; [reflexivity |].
  split; [rewrite Hres, Hres2, Hres1, <- !app_assoc; reflexivity |].
  split; [rewrite Hiss, Hiss2, Hiss1, <- !app_assoc; reflexivity |].
  auto 10.
Qed.

Lemma received_unique (rq : Request) (s : State) (r : Response) (P : Response -> Prop) :
  fst (send rq (world s)) = Received r -> P r ->
  forall r', fst (send rq (world s)) = Received r' -> P r'.
Proof. intros Hr HP r' Hr'. rewrite Hr in Hr'. inversion Hr'; subst. exact HP. Qed.

Lemma test_request_returns_iff_pass method endpoint data expected_status headers test_name :
  returns_response_iff_pass
    (test_request method endpoint data expected_status headers test_name).
Proof.
  destruct (method_of method) as [m |] eqn:Hm.
  - apply exchange_returns_iff_pass. apply (test_request_is_exchange _ _ _ _ _ _ m Hm).
  - intros s. rewrite (test_request_unsupported _ _ _ _ _ _ s Hm).
    eexists None, _, _, []. split; [reflexivity |].
    split; [unfold extends; cbn; rewrite app_nil_r; auto |].
    cbn. split; [split; [intros [r Hr] |]; discriminate |].
    split; [tauto |]. discriminate.
Qed.

(** C10. Each test method returns the response it received exactly when it
    logs PASS and [None] exactly when it logs FAIL; so a create answered
    with a status other than 201 leaves no resource id, and an update or a
    patch answered with a status other than 200 is not followed by its
    verification GET. *)
Theorem response_returned_iff_pass_and_gates_downstream :
  (forall endpoint expected_status headers,
      returns_response_iff_pass (test_get endpoint expected_status headers))
  /\ (forall endpoint data expected_status headers,
      returns_response_iff_pass (test_post endpoint data expected_status headers))
  /\ (forall endpoint data expected_status headers,
      returns_response_iff_pass (test_put endpoint data expected_status headers))
  /\ (forall endpoint data expected_status headers,
      returns_response_iff_pass (test_patch endpoint data expected_status headers))
  /\ (forall endpoint expected_status headers,
      returns_response_iff_pass (test_delete endpoint expected_status headers))
  /\ (forall method endpoint data expected_status headers test_name,
      returns_response_iff_pass
        (test_request method endpoint data expected_status headers test_name))
  /\ (forall create_data expected_fields (s : State) r,
      let create := mkRequest POST (base_url (self s)) create_data json_headers 10 in
      fst (send create (world s)) = Received r -> status_code r <> 201 ->
      exists o s',
        crud_create create_data expected_fields s = (Ok JNull, s')
        /\ extends s s' o [create] /\ status o = "FAIL")
  /\ (forall resource_id update_data (s : State) r,
      let put := mkRequest PUT (base_url (self s) ++ "/" ++ py_str resource_id)
                   update_data json_headers 10 in
      truthy resource_id = true ->
      fst (send put (world s)) = Received r -> status_code r <> 200 ->
      exists o s',
        crud_update_put resource_id update_data s = (Ok tt, s')
        /\ extends s s' o [put] /\ status o = "FAIL")
  /\ (forall resource_id patch_data (s : State) r,
      let patch := mkRequest PATCH (base_url (self s) ++ "/" ++ py_str resource_id)
                     patch_data json_headers 10 in
      truthy resource_id = true ->
      fst (send patch (world s)) = Received r -> status_code r <> 200 ->
      exists o s',
        crud_update_patch resource_id patch_data s = (Ok tt, s')
        /\ extends s s' o [patch] /\ status o = "FAIL").
Proof.
  split; [intros; apply exchange_returns_iff_pass, test_get_is_exchange |].
  split; [intros; apply exchange_returns_iff_pass, test_post_is_exchange |].
  split; [intros; apply exchange_returns_iff_pass, test_put_is_exchange |].
  split; [intros; apply exchange_returns_iff_pass, test_patch_is_exchange |].
  split; [intros; apply exchange_returns_iff_pass, test_delete_is_exchange |].
  split; [intros; apply test_request_returns_iff_pass |].
  split; [| split].
  - intros create_data expected_fields s r create Hr Hne.
    destruct (crud_create_failure create_data expected_fields s)
      as (o & s' & Hrun & Hext & _ & Hst).
    { exact (received_unique _ s r (fun r => status_code r <> 201) Hr Hne). }
    exists o, s'. auto.
  - intros resource_id update_data s r put Hid Hr Hne.
    apply crud_update_put_not_met; [exact Hid |].
    exact (received_unique _ s r (fun r => status_code r <> 200) Hr Hne).
  - intros resource_id patch_data s r patch Hid Hr Hne.
    apply crud_update_patch_not_met; [exact Hid |].
    exact (received_unique _ s r (fun r => status_code r <> 200) Hr Hne).
Qed.

(** C5, as amended. A received response, whatever its status, is judged
    against the expected status: it is returned to the caller exactly when
    the two are equal and logged PASS; otherwise the caller gets [None] and
    the log a FAIL with the details "Expected status ..., got ...".  Only a
    failure of the network call itself is logged with "Error: ...". *)
Theorem response_returned_only_when_status_expected :
  (forall endpoint expected_status headers (s : State),
      let rq := mkRequest GET (base_url (self s) ++ endpoint) JNull headers 10 in
      exists ret o s',
        test_get endpoint expected_status headers s = (Ok ret, s')
        /\ extends s s' o [rq]
        /\ (forall r, fst (send rq (world s)) = Received r ->
              (status_code r = expected_status -> ret = Some r /\ status o = "PASS")
              /\ (status_code r <> expected_status ->
                    ret = None /\ status o = "FAIL"
                    /\ details o = "Expected status " ++ str_of_Z expected_status
                                     ++ ", got " ++ str_of_Z (status_code r)))
        /\ (forall msg, fst (send rq (world s)) = Failed msg ->
              ret = None /\ status o = "FAIL" /\ details o = "Error: " ++ msg))
  /\ (forall method endpoint data expected_status headers test_name m (s : State),
      let rq := mkRequest m (base_url (self s) ++ py_str endpoint) (body_of m data)
                  (default_headers headers) 10 in
      method_of method = Some m ->
      exists ret o s',
        test_request method endpoint data expected_status headers test_name s = (Ok ret, s')
        /\ extends s s' o [rq]
        /\ (forall r, fst (send rq (world s)) = Received r ->
              (int_eq (status_code r) expected_status = true ->
                 ret = Some r /\ status o = "PASS")
              /\ (int_eq (status_code r) expected_status = false ->
                    ret = None /\ status o = "FAIL"
                    /\ details o = "Expected status " ++ py_str expected_status
                                     ++ ", got " ++ str_of_Z (status_code r)
                                     ++ ". Response: " ++ take 150 (text r)))
        /\ (forall msg, fst (send rq (world s)) = Failed msg ->
              ret = None /\ status o = "FAIL" /\ details o = "Error: " ++ msg)).
Proof.
  split.
  - intros endpoint expected_status headers s rq. rewrite test_get_exchange. fold rq.
    match goal with
    | |- context [exchange s rq ?name ?judge] =>
        destruct (exchange_extends s rq name judge) as (ret & o & s' & Hrun & Hext & _ & Hj)
    end.
    exists ret, o, s'. split; [exact Hrun |]. split; [exact Hext |]. split.
    + intros r Hr. rewrite Hr in Hj. apply verdict_received in Hj. cbv beta in Hj.
      destruct Hj as [Hyes Hno]. split.
      * intros Heq. apply Z.eqb_eq in Heq. destruct (Hyes Heq) as (? & ? & _). auto.
      * intros Hne. apply Z.eqb_neq in Hne. exact (Hno Hne).
    + intros msg Hmsg. rewrite Hmsg in Hj. exact (verdict_failed _ _ _ _ _ _ Hj).
  - intros method endpoint data expected_status headers test_name m s rq Hm.
    rewrite (test_request_supported _ _ _ _ _ _ m s Hm). fold rq.
    match goal with
    | |- context [exchange s rq ?name ?judge] =>
        destruct (exchange_extends s rq name judge) as (ret & o & s' & Hrun & Hext & _ & Hj)
    end.
    exists ret, o, s'. split; [exact Hrun |]. split; [exact Hext |]. split.
    + intros r Hr. rewrite Hr in Hj. apply verdict_received in Hj. cbv beta in Hj.
      destruct Hj as [Hyes Hno]. split.
      * intros Heq. destruct (Hyes Heq) as (? & ? & _). auto.
      * exact Hno.
    + intros msg Hmsg. rewrite Hmsg in Hj. exact (verdict_failed _ _ _ _ _ _ Hj).
Qed.

(** C8, as amended. Each of the test methods makes exactly one request and
    logs exactly one outcome for it, a FAIL with "Error: ..." when the
    network call fails; the one outcome logged without a request is the FAIL
    [test_request] records for an unsupported method.  Over a data-driven
    run there are as many outcomes as test cases and as many requests as
    test cases with a supported method. *)
Theorem outcome_per_request_except_unsupported_method :
  (forall endpoint expected_status headers,
      one_request_one_outcome (test_get endpoint expected_status headers))
  /\ (forall endpoint data expected_status headers,
      one_request_one_outcome (test_post endpoint data expected_status headers))
  /\ (forall endpoint data expected_status headers,
      one_request_one_outcome (test_put endpoint data expected_status headers))
  /\ (forall endpoint data expected_status headers,
      one_request_one_outcome (test_patch endpoint data expected_status headers))
  /\ (forall endpoint expected_status headers,
      one_request_one_outcome (test_delete endpoint expected_status headers))
  /\ (forall method endpoint data expected_status headers test_name m,
      method_of method = Some m ->
      one_request_one_outcome
        (test_request method endpoint data expected_status headers test_name))
  /\ (forall method endpoint data expected_status headers test_name (s : State),
      method_of method = None ->
      exists o s',
        test_request method endpoint data expected_status headers test_name s = (Ok None, s')
        /\ extends s s' o []
        /\ status o = "FAIL"
        /\ details o = "Unsupported method: " ++ py_str method)
  /\ (forall test_cases (s : State),
      exists s' outs rqs,
        run_ai_generated_tests test_cases s = (Ok tt, s')
        /\ results (self s') = (results (self s) ++ outs)%list
        /\ issued s' = (issued s ++ rqs)%list
        /\ List.length outs = List.length test_cases
        /\ List.length rqs = List.length (filter supported test_cases)).
Proof.
  split; [intros; apply exchange_one_request_one_outcome, test_get_is_exchange |].
  split; [intros; apply exchange_one_request_one_outcome, test_post_is_exchange |].
  split; [intros; apply exchange_one_request_one_outcome, test_put_is_exchange |].
  split; [intros; apply exchange_one_request_one_outcome, test_patch_is_exchange |].
  split; [intros; apply exchange_one_request_one_outcome, test_delete_is_exchange |].
  split; [| split].
  - intros method endpoint data expected_status headers test_name m Hm.
    apply exchange_one_request_one_outcome.
    apply (test_request_is_exchange _ _ _ _ _ _ m Hm).
  - intros method endpoint data expected_status headers test_name s Hm.
    rewrite (test_request_unsupported _ _ _ _ _ _ s Hm).
    eexists _, _. split; [reflexivity |].
    unfold extends; cbn. rewrite app_nil_r. auto.
  - intros test_cases s.
    destruct (run_from_log test_cases 1 s)
      as (s' & outs & rqs & Hrun & _ & Hres & Hiss & Hnames & Hlen).
    exists s', outs, rqs. split; [exact Hrun |]. split; [exact Hres |].
    split; [exact Hiss |]. split; [| exact Hlen].
    rewrite <- (length_map test outs), Hnames. apply ai_test_names_length.
Qed.

(** C9, as amended. The stored base is the supplied URL without its whole
    run of trailing slashes, however many, and otherwise unchanged; a base
    with exactly one trailing slash loses that slash. The URL of a request
    is the stored base followed by the endpoint, nothing added or removed. *)
Theorem base_url_drops_every_trailing_slash (url : string) :
  (exists n, url = base_url (__init__ url) ++ repeat_slash n)
  /\ last_char (base_url (__init__ url)) <> Some "/"%char
  /\ (forall u, last_char u <> Some "/"%char -> base_url (__init__ (u ++ "/")) = u)
  /\ (forall method endpoint data expected_status headers test_name m (s : State),
        method_of method = Some m ->
        exists ret s' rq,
          test_request method endpoint data expected_status headers test_name s = (ret, s')
          /\ issued s' = (issued s ++ [rq])%list
          /\ rq_url rq = base_url (self s) ++ py_str endpoint).
Proof.
  split; [apply rstrip_decompose; reflexivity |].
  split; [apply rstrip_last_char |].
  split; [intros u Hu; apply rstrip_one_slash; exact Hu |].
  intros method endpoint data expected_status headers test_name m s Hm.
  rewrite (test_request_supported _ _ _ _ _ _ m s Hm).
  match goal with
  | |- context [exchange s ?rq ?name ?judge] =>
      destruct (exchange_extends s rq name judge) as (ret & o & s' & Hrun & (_ & _ & Hiss) & _)
  end.
  eexists _, s', _. split; [exact Hrun |]. split; [exact Hiss | reflexivity].
Qed.

End Properties.

(** * Concrete runs *)

(** C1 on two test cases, the second with no description and a server that
    no longer answers. *)
Example two_test_cases_two_outcomes :
  map test
    (results (self (snd (run_ai_generated_tests
       [[("method", JStr "GET"); ("endpoint", JStr "/1"); ("description", JStr "read one")];
        [("method", JStr "DELETE")]]
       (start "http://x/items/" [reply 200 "{}" (Some (JDict []))])))))
  = ["[AI Test 1] read one"; "[AI Test 2] Test 2"].
Proof. reflexivity. Qed.

(** The scenario of the specification: create answers 201 with id 7 and
    the single read goes to /7. *)
Example created_id_addresses_the_resource :
  map rq_url (firstn 3 (issued (snd (run_full_crud_test
     (JDict [("name", JStr "Apple")]) JNull JNull None
     (start "http://x/items"
        [reply 201 "" (Some (JDict [("id", JInt 7); ("name", JStr "Apple")]))])))))
  = ["http://x/items"; "http://x/items"; "http://x/items/7"].
Proof. reflexivity. Qed.

(** The scenario of the specification: PUT /9 expecting 200, answered 500. *)
Example put_answered_500_fails :
  map (fun o => (status o, details o))
    (results (self (snd (test_request (JStr "PUT") (JStr "/9") JNull (JInt 200) None None
       (start "http://x/items" [reply 500 "boom" None])))))
  = [("FAIL", "Expected status 200, got 500. Response: boom")].
Proof. reflexivity. Qed.

(** The field check on a JSON object: a dotted path is followed through
    nested objects, and what is absent is listed. *)
Example missing_fields_are_listed :
  validate_response_data
    (mkResponse 201 "" (Some (JDict [("id", JInt 7); ("data", JDict [("id", JInt 7)])]))
       0.25%float JSONDecodeError)
    (Some ["id"; "name"; "data.id"; "data.owner.id"])
  = Ok (false, "Missing fields: name, data.owner.id").
Proof. reflexivity. Qed.

(** The field check on a body that is valid JSON but a number: the test
    [field not in data] raises [TypeError], which the method does not
    catch. *)
Example number_body_raises_type_error :
  validate_response_data
    (mkResponse 201 "5" (Some (JInt 5)) 0.25%float JSONDecodeError) (Some ["id"])
  = Raise TypeError.
Proof. reflexivity. Qed.

(** Three PASS of four give the pass rate 75.0. *)
Example three_of_four_is_75 :
  get_summary
    (mkTester "http://x/items"
       [mkOutcome "a" "PASS" "" ""; mkOutcome "b" "FAIL" "" "";
        mkOutcome "c" "PASS" "" ""; mkOutcome "d" "PASS" "" ""])
  = Ok (mkSummary 4 3 1 (PyFloat 75%float)).
Proof. vm_compute. reflexivity. Qed.

(** C2 at a create answered 500. *)
Lemma failed_create_skips_identity_steps_witness :
  exists o1 o2 o3 o4 o5 s',
    run_full_crud_test JNull JNull JNull (Some ["id"])
      (start "http://x/items/" [reply 500 "boom" None]) = (Ok tt, s')
    /\ results (self s') = [o1; o2; o3; o4; o5]
    /\ List.length (issued s') = 5%nat
    /\ status o1 = "FAIL".
Proof.
  destruct (@failed_create_skips_identity_steps scripted JNull JNull JNull (Some ["id"])
              (start "http://x/items/" [reply 500 "boom" None]))
    as (o1 & o2 & o3 & o4 & o5 & s' & Hrun & Hres & Hiss & (_ & Hst) & _).
  - intros r Hr. vm_compute in Hr. inversion Hr. vm_compute. discriminate.
  - exists o1, o2, o3, o4, o5, s'.
    split; [exact Hrun |]. split; [exact Hres |]. split; [rewrite Hiss; reflexivity | exact Hst].
Defined.

(** C3: an id of 0 is passed over for the _id. *)
Lemma id_zero_is_passed_over :
  let body := [("id", JInt 0); ("_id", JStr "abc")] in
  dict_get "id" body = Some (JInt 0)
  /\ dict_get "_id" body = Some (JStr "abc")
  /\ extract_resource_id (mkResponse 201 "" (Some (JDict body)) 0.25%float JSONDecodeError) = JStr "abc"
  /\ extract_resource_id (mkResponse 201 "" (Some (JDict body)) 0.25%float JSONDecodeError) <> JInt 0.
Proof. cbn. repeat split; discriminate. Qed.

(** C3, as amended, at a body with a null id and a uuid. *)
Lemma identity_is_first_truthy_candidate_witness :
  extract_resource_id
    (mkResponse 201 "" (Some (JDict [("id", JNull); ("uuid", JStr "u-1")])) 0.25%float JSONDecodeError)
  = JStr "u-1".
Proof.
  destruct (identity_is_first_truthy_candidate
              (mkResponse 201 "" (Some (JDict [("id", JNull); ("uuid", JStr "u-1")])) 0.25%float JSONDecodeError)
              [("id", JNull); ("uuid", JStr "u-1")] eq_refl) as [Hfirst _].
  apply (Hfirst ["id"; "_id"] "uuid" []).
  - reflexivity.
  - repeat constructor.
  - reflexivity.
Defined.

(** C5: a 404 is received where 200 was expected, and the caller gets
    [None], not the response. *)
Lemma received_response_not_returned :
  let s := start "http://x/items" [reply 404 "Not found" None] in
  fst (send (mkRequest GET "http://x/items" JNull None 10) (world s))
    = reply 404 "Not found" None
  /\ fst (test_get "" 200 None s) = Ok None.
Proof. split; reflexivity. Qed.

(** C5, as amended, at the same run. *)
Lemma response_returned_only_when_status_expected_witness :
  exists o s',
    test_get "" 200 None (start "http://x/items" [reply 404 "Not found" None]) = (Ok None, s')
    /\ results (self s') = [o]
    /\ details o = "Expected status 200, got 404".
Proof.
  destruct (@response_returned_only_when_status_expected scripted) as [Hget _].
  destruct (Hget "" 200 None (start "http://x/items" [reply 404 "Not found" None]))
    as (ret & o & s' & Hrun & (_ & Hres & _) & Hrecv & _).
  destruct (Hrecv (mkResponse 404 "Not found" None 0.25%float JSONDecodeError) eq_refl) as [_ Hno].
  destruct Hno as (Hret & _ & Hdet); [vm_compute; discriminate |].
  exists o, s'. rewrite Hret in Hrun.
  split; [exact Hrun |]. split; [exact Hres | exact Hdet].
Defined.

(** C6 at a test case asking for FETCH, followed by a GET. *)
Lemma unsupported_method_fails_and_run_continues_witness :
  map (fun o => (test o, status o, details o))
    (results (self (snd (run_ai_generated_tests
       [[("method", JStr "FETCH"); ("description", JStr "bad verb")];
        [("method", JStr "GET")]]
       (start "http://x/items" [reply 200 "[]" (Some (JList []))])))))
  = [("[AI Test 1] bad verb", "FAIL", "Unsupported method: FETCH");
     ("[AI Test 2] Test 2", "PASS", "Status: 200, Response time: 0.25s")].
Proof.
  unfold run_ai_generated_tests.
  destruct (@unsupported_method_fails_and_run_continues scripted 1
              [("method", JStr "FETCH"); ("description", JStr "bad verb")]
              [[("method", JStr "GET")]]
              (start "http://x/items" [reply 200 "[]" (Some (JList []))])) as [Hrun _].
  - intros m Hm. cbn in Hm. vm_compute.
    destruct Hm as [<- | [<- | [<- | [<- | [<- | []]]]]]; discriminate.
  - rewrite Hrun. reflexivity.
Defined.

(** C7 at a body of a thousand opening brackets, which is not JSON: the
    decoder gives up with [RecursionError], and the field check raises
    it. *)
Lemma undecoded_body_is_reported_on_decode_error_only_witness :
  validate_response_data
    (mkResponse 200 (brackets 1000) None 0.25%float RecursionError) (Some ["id"])
  = Raise RecursionError.
Proof.
  apply (undecoded_body_is_reported_on_decode_error_only
           (mkResponse 200 (brackets 1000) None 0.25%float RecursionError)
           (Some ["id"]) eq_refl).
Defined.

(** An HTML error page, which the decoder rejects, is reported. *)
Example html_body_is_reported :
  validate_response_data
    (mkResponse 200 "<html>" None 0.25%float JSONDecodeError) (Some ["id"; "data.id"])
  = Ok (false, "Invalid JSON response").
Proof. reflexivity. Qed.

(** The body [NaN] is not JSON either, but the decoder reads it as a
    float, and the test [field not in data] then raises [TypeError]. *)
Example nan_body_raises_type_error :
  validate_response_data
    (mkResponse 200 "NaN" (Some (JFloat nan)) 0.25%float JSONDecodeError) (Some ["id"])
  = Raise TypeError.
Proof. reflexivity. Qed.

(** C8: an outcome is logged for a method [test_request] does not know,
    with no request made. *)
Lemma outcome_without_request :
  let s' := snd (test_request (JStr "FETCH") (JStr "/1") JNull (JInt 200) None None
                   (start "http://x/items" [])) in
  map status (results (self s')) = ["FAIL"]
  /\ map details (results (self s')) = ["Unsupported method: FETCH"]
  /\ issued s' = [].
Proof. repeat split. Qed.

(** C8, as amended, at a refused connection. *)
Lemma outcome_per_request_except_unsupported_method_witness :
  exists ret o s' rq,
    test_request (JStr "PUT") (JStr "/9") JNull (JInt 200) None None
      (start "http://x/items" []) = (Ok ret, s')
    /\ results (self s') = [o]
    /\ issued s' = [rq]
    /\ status o = "FAIL" /\ details o = "Error: Connection refused".
Proof.
  destruct (@outcome_per_request_except_unsupported_method scripted)
    as (_ & _ & _ & _ & _ & Hreq & _).
  destruct (Hreq (JStr "PUT") (JStr "/9") JNull (JInt 200) None None PUT eq_refl
              (start "http://x/items" []))
    as (ret & o & s' & rq & Hrun & (_ & Hres & Hiss) & Hfail).
  assert (rq = mkRequest PUT "http://x/items/9" JNull json_headers 10) as ->.
  { vm_compute in Hrun. inversion Hrun as [[Hret Hs]]. rewrite <- Hs in Hiss.
    vm_compute in Hiss. inversion Hiss. reflexivity. }
  destruct (Hfail "Connection refused" eq_refl) as [Hst Hdet].
  exists ret, o, s', (mkRequest PUT "http://x/items/9" JNull json_headers 10). auto.
Defined.

(** C9: two trailing slashes both go, where trimming one would leave
    one. *)
Lemma two_trailing_slashes_both_trimmed :
  base_url (__init__ "http://x/items//") = "http://x/items"
  /\ trim_single_trailing_slash "http://x/items//" = "http://x/items/"
  /\ base_url (__init__ "http://x/items//") <> trim_single_trailing_slash "http://x/items//".
Proof. repeat split. discriminate. Qed.

(** C9, as amended, at a base with one trailing slash. *)
Lemma base_url_drops_every_trailing_slash_witness :
  base_url (__init__ "http://x/items/") = "http://x/items".
Proof.
  destruct (@base_url_drops_every_trailing_slash scripted "") as (_ & _ & Hone & _).
  apply (Hone "http://x/items"). discriminate.
Defined.

(** C10 at an update answered 500: the verification GET is not made. *)
Lemma response_returned_iff_pass_and_gates_downstream_witness :
  exists o s',
    crud_update_put (JInt 7) default_update_data
      (start "http://x/items" [reply 500 "boom" None; reply 200 "{}" (Some (JDict []))])
    = (Ok tt, s')
    /\ List.length (issued s') = 1%nat /\ results (self s') = [o] /\ status o = "FAIL".
Proof.
  destruct (@response_returned_iff_pass_and_gates_downstream scripted)
    as (_ & _ & _ & _ & _ & _ & _ & Hput & _).
  destruct (Hput (JInt 7) default_update_data
              (start "http://x/items" [reply 500 "boom" None; reply 200 "{}" (Some (JDict []))])
              (mkResponse 500 "boom" None 0.25%float JSONDecodeError))
    as (o & s' & Hrun & (_ & Hres & Hiss) & Hst).
  - reflexivity.
  - reflexivity.
  - vm_compute. discriminate.
  - exists o, s'. split; [exact Hrun |]. split; [rewrite Hiss; reflexivity |].
    split; [exact Hres | exact Hst].
Defined.

(** * Properties of the summaries and the checks *)

(** ** Counting the log *)

Lemma count_fail_from (results : list TestOutcome) :
  forall acc,
    fold_left (fun acc r => if String.eqb (status r) "FAIL" then acc + 1 else acc) results acc
    = acc + count_fail results.
Proof.
  unfold count_fail. induction results as [| r rest IH]; intros acc; cbn [fold_left].
  - lia.
  - rewrite IH, (IH (if String.eqb (status r) "FAIL" then 0 + 1 else 0)).
    destruct (String.eqb (status r) "FAIL"); lia.
Qed.

Lemma count_pass_cons (r : TestOutcome) (rest : list TestOutcome) :
  count_pass (r :: rest)
  = (if String.eqb (status r) "PASS" then 1 else 0) + count_pass rest.
Proof.
  unfold count_pass at 1. cbn [fold_left]. rewrite count_pass_from.
  destruct (String.eqb (status r) "PASS"); lia.
Qed.

Lemma count_fail_cons (r : TestOutcome) (rest : list TestOutcome) :
  count_fail (r :: rest)
  = (if String.eqb (status r) "FAIL" then 1 else 0) + count_fail rest.
Proof.
  unfold count_fail at 1. cbn [fold_left]. rewrite count_fail_from.
  destruct (String.eqb (status r) "FAIL"); lia.
Qed.

Lemma count_pass_filter (results : list TestOutcome) :
  count_pass results = Z.of_nat (List.length (passed_only results)).
Proof.
  induction results as [| r rest IH]; [reflexivity |].
  rewrite count_pass_cons, IH. unfold passed_only. cbn [filter].
  destruct (String.eqb (status r) "PASS"); cbn [List.length]; lia.
Qed.

Lemma count_fail_filter (results : list TestOutcome) :
  count_fail results = Z.of_nat (List.length (failed_only results)).
Proof.
  induction results as [| r rest IH]; [reflexivity |].
  rewrite count_fail_cons, IH. unfold failed_only. cbn [filter].
  destruct (String.eqb (status r) "FAIL"); cbn [List.length]; lia.
Qed.

Lemma pass_fail_partition (results : list TestOutcome) :
  Forall pass_or_fail results ->
  count_pass results + count_fail results = Z.of_nat (List.length results).
Proof.
  induction 1 as [| r rest Hr _ IH]; [reflexivity |].
  rewrite count_pass_cons, count_fail_cons. cbn [List.length].
  rewrite Nat2Z.inj_succ.
  destruct Hr as [Hr | Hr]; rewrite Hr.
  - change (String.eqb "PASS" "PASS") with true.
    change (String.eqb "PASS" "FAIL") with false. lia.
  - change (String.eqb "FAIL" "PASS") with false.
    change (String.eqb "FAIL" "FAIL") with true. lia.
Qed.

(** X1.  On a log of PASS and FAIL entries the three ways the code counts
    failures agree: [get_summary]'s [total - passed], the count of FAIL
    entries written to the results file, and the "Failed Only" filter of
    the results page; the passed and the failed make up the whole log. *)
Theorem failure_counts_agree (self : APITester) :
  Forall pass_or_fail (results self) ->
  exists sm,
    get_summary self = Ok sm
    /\ save_results_summary self = (total sm, passed sm, failed sm)
    /\ failed sm = Z.of_nat (List.length (failed_only (results self)))
    /\ passed sm = Z.of_nat (List.length (passed_only (results self)))
    /\ (List.length (passed_only (results self)) + List.length (failed_only (results self))
        = List.length (results self))%nat.
Proof.
  intros Hlog. pose proof (pass_fail_partition _ Hlog) as Hsum.
  destruct (get_summary_total self) as (sm & Hsm & Htotal & Hpassed & Hfailed & _).
  exists sm. split; [exact Hsm |].
  assert (failed sm = count_fail (results self)) as Hf by lia.
  split; [unfold save_results_summary; congruence |].
  split; [rewrite Hf; apply count_fail_filter |].
  split; [rewrite Hpassed; apply count_pass_filter |].
  rewrite count_pass_filter, count_fail_filter in Hsum. lia.
Qed.

(** X2.  An entry logged with another status counts as failed for
    [get_summary] and for neither count of [save_results_to_file]: the
    passed and the failed of the results file then fall short of the
    total. *)
Theorem other_status_counts_as_failed_in_summary_only (self : APITester) (o : TestOutcome) :
  In o (results self) -> status o <> "PASS" -> status o <> "FAIL" ->
  exists sm,
    get_summary self = Ok sm
    /\ count_fail (results self) < failed sm
    /\ count_pass (results self) + count_fail (results self) < total sm.
Proof.
  intros Hin Hp Hf.
  destruct (get_summary_total self) as (sm & Hsm & Htotal & Hpassed & Hfailed & _).
  exists sm. split; [exact Hsm |].
  assert (count_pass (results self) + count_fail (results self)
          < Z.of_nat (List.length (results self))) as Hlt.
  { clear - Hin Hp Hf. induction (results self) as [| r rest IH]; [contradiction |].
    rewrite count_pass_cons, count_fail_cons. cbn [List.length].
    pose proof (count_pass_bounds rest) as Hb.
    assert (0 <= count_fail rest <= Z.of_nat (List.length rest) - count_pass rest) as Hb'.
    { clear. induction rest as [| r rest IH].
      - cbn. lia.
      - rewrite count_pass_cons, count_fail_cons. cbn [List.length].
        destruct (String.eqb_spec (status r) "PASS") as [Hp | _];
          destruct (String.eqb_spec (status r) "FAIL") as [Hf | _];
          try (rewrite Hp in Hf; discriminate); lia. }
    destruct Hin as [<- | Hin].
    - apply String.eqb_neq in Hp, Hf. rewrite Hp, Hf. lia.
    - specialize (IH Hin).
      destruct (String.eqb_spec (status r) "PASS") as [Hp' | _];
        destruct (String.eqb_spec (status r) "FAIL") as [Hf' | _];
        try (rewrite Hp' in Hf'; discriminate); lia. }
  lia.
Qed.

(** ** The summaries that divide *)




(** ** The field check, field by field *)

Lemma missing_fields_on_object (d : list (string * json)) (fields : list string) :
  missing_fields (JDict d) fields
  = Ok (filter (fun field => negb (resolves (JDict d) field)) fields).
Proof.
  induction fields as [| field rest IH]; [reflexivity |].
  cbn [missing_fields filter]. rewrite IH. unfold resolves at 2.
  destruct (contains "." field); cbn.
  - destruct (descend (JDict d) (split "." field)); reflexivity.
  - destruct (dict_get field d); reflexivity.
Qed.

(** X4.  On a body that is a JSON object the field check raises nothing and
    reports exactly the fields that do not resolve, in the order they were
    asked for; it succeeds when there is none. *)
Theorem field_check_on_object (response : Response) (d : list (string * json))
    (field : string) (rest : list string) :
  json_body response = Some (JDict d) ->
  validate_response_data response (Some (field :: rest))
  = Ok match filter (fun f => negb (resolves (JDict d) f)) (field :: rest) with
       | [] => (true, "All expected fields present")
       | missing => (false, "Missing fields: " ++ join ", " missing)
       end.
Proof.
  intros Hbody. unfold validate_response_data, response_json. rewrite Hbody.
  cbn [bind ret Monad_result]. rewrite missing_fields_on_object.
  destruct (filter _ (field :: rest)); reflexivity.
Qed.

Lemma missing_fields_on_scalar (data : json) (fields : list string) :
  scalar data = true ->
  (Exists (fun f => contains "." f = false) fields -> missing_fields data fields = Raise TypeError)
  /\ (Forall (fun f => contains "." f = true) fields ->
      exists missing, missing_fields data fields = Ok missing).
Proof.
  intros Hs. induction fields as [| field rest [IHe IHf]].
  - split; [intros H; inversion H | intros _; cbn; eauto].
  - cbn [missing_fields]. split.
    + intros Hex. destruct (contains "." field) eqn:Hdot.
      * inversion Hex as [? ? Hhd | ? ? Htl]; subst; [congruence |].
        rewrite (IHe Htl). reflexivity.
      * destruct data; try discriminate Hs; reflexivity.
    + intros Hall. inversion Hall as [| ? ? Hhd Htl]; subst. rewrite Hhd.
      destruct (IHf Htl) as (missing & ->). cbn. eauto.
Qed.

Lemma missing_fields_on_container (data : json) (fields : list string) :
  scalar data = false -> exists missing, missing_fields data fields = Ok missing.
Proof.
  intros Hs. induction fields as [| field rest (missing & IH)]; [cbn; eauto |].
  cbn [missing_fields]. rewrite IH.
  destruct (contains "." field); [cbn; eauto |].
  destruct data; try discriminate Hs; cbn; eauto.
Qed.

(** X5.  When the field check raises, and what: the exception of
    [response.json()] when that is not [JSONDecodeError], which alone is
    caught; or, the body being decoded, a [TypeError] when the body is
    [null], a bool or a number and one of the fields asked for has no dot.
    In every other case the check returns a verdict. *)
Theorem field_check_raises_exactly_when (response : Response)
    (expected_fields : option (list string)) (e : exn) :
  validate_response_data response expected_fields = Raise e
  <-> (json_body response = None /\ json_error response = e /\ e <> JSONDecodeError)
      \/ (e = TypeError
          /\ exists data fields,
               json_body response = Some data /\ expected_fields = Some fields
               /\ scalar data = true /\ Exists (fun f => contains "." f = false) fields).
Proof.
  split.
  - intros He. unfold validate_response_data, response_json in He.
    destruct (json_body response) as [data |] eqn:Hbody.
    + right. cbn [bind ret Monad_result] in He.
      destruct expected_fields as [[| f fs] |]; try (cbn in He; discriminate).
      destruct (missing_fields data (f :: fs)) as [missing | e'] eqn:Hm;
        [destruct missing; cbn in He; discriminate |].
      pose proof (missing_fields_raises _ _ _ Hm) as ->.
      cbn in He. inversion He; subst e. split; [reflexivity |].
      exists data, (f :: fs). split; [reflexivity |]. split; [reflexivity |].
      destruct (scalar data) eqn:Hs.
      * split; [reflexivity |].
        destruct (Forall_Exists_dec (fun f => contains "." f = true)
                    (fun f => bool_dec (contains "." f) true) (f :: fs)) as [Hall | Hex].
        -- destruct (proj2 (missing_fields_on_scalar data (f :: fs) Hs) Hall) as (missing & Hm').
           rewrite Hm' in Hm. discriminate.
        -- apply Exists_impl with (2 := Hex). intros a Ha.
           destruct (contains "." a); congruence.
      * destruct (missing_fields_on_container data (f :: fs) Hs) as (missing & Hm').
        rewrite Hm' in Hm. discriminate.
    + left. cbn [bind Monad_result] in He. split; [reflexivity |].
      destruct (json_error response); cbn in He; try discriminate;
        inversion He; subst e; (split; [reflexivity | discriminate]).
  - intros [(Hbody & Herr & Hne) | (-> & data & fields & Hbody & -> & Hs & Hex)].
    + unfold validate_response_data, response_json. rewrite Hbody, Herr.
      cbn [bind Monad_result]. destruct e; try reflexivity. contradiction Hne. reflexivity.
    + unfold validate_response_data, response_json. rewrite Hbody.
      cbn [bind ret Monad_result].
      destruct fields as [| f fs]; [inversion Hex |].
      rewrite (proj1 (missing_fields_on_scalar data (f :: fs) Hs) Hex). reflexivity.
Qed.

Lemma split_nonempty (sep : ascii) (s : string) :
  exists part rest, split sep s = part :: rest.
Proof.
  induction s as [| a s' (part & rest & IH)]; [cbn; eauto |].
  cbn [split]. destruct (Ascii.eqb a sep); [eauto |]. rewrite IH. eauto.
Qed.

(** X6.  A field name with a dot is always read as a path: a key of the body
    that itself contains a dot is reported missing, though it is there,
    unless the body also nests the path. *)
Theorem dotted_key_is_reported_missing (response : Response) (d : list (string * json))
    (field : string) (v : json) :
  json_body response = Some (JDict d) ->
  contains "." field = true ->
  dict_get field d = Some v ->
  dict_get (hd "" (split "." field)) d = None ->
  validate_response_data response (Some [field]) = Ok (false, "Missing fields: " ++ field).
Proof.
  intros Hbody Hdot _ Hfirst.
  unfold validate_response_data, response_json. rewrite Hbody.
  cbn [bind ret Monad_result]. rewrite missing_fields_on_object.
  cbn [filter]. unfold resolves. rewrite Hdot.
  destruct (split_nonempty "." field) as (part & rest & Hsplit).
  rewrite Hsplit in Hfirst |- *. cbn [hd] in Hfirst. cbn [descend]. rewrite Hfirst.
  reflexivity.
Qed.

(** ** The resource identity, at its edges *)

(** X7.  No identity comes out of a body that is not JSON or not a JSON
    object, nor, when id, _id and uuid give nothing, out of a body whose
    [data] is present but not an object: the error is swallowed and the
    dependent steps are skipped. *)
Theorem no_identity_without_object (response : Response) :
  (json_body response = None -> extract_resource_id response = JNull)
  /\ (forall data, json_body response = Some data ->
        (forall d, data <> JDict d) -> extract_resource_id response = JNull)
  /\ (forall d wrapped,
        json_body response = Some (JDict d) ->
        Forall (fun k => truthy (dict_get_default d k JNull) = false) ["id"; "_id"; "uuid"] ->
        dict_get "data" d = Some wrapped ->
        (forall nested, wrapped <> JDict nested) ->
        extract_resource_id response = JNull).
Proof.
  unfold extract_resource_id, response_json. split; [| split].
  - intros ->. reflexivity.
  - intros data -> Hnot. destruct data; try reflexivity. exfalso. exact (Hnot d eq_refl).
  - intros d wrapped -> Hfalsy Hdata Hnot.
    inversion Hfalsy as [| ? ? H1 Hrest]; subst.
    inversion Hrest as [| ? ? H2 Hrest']; subst.
    inversion Hrest' as [| ? ? H3 _]; subst.
    cbn [bind ret Monad_result]. unfold resource_id_expr, py_or.
    cbn [py_get bind ret Monad_result]. rewrite H1, H2, H3.
    unfold dict_get_default at 1. rewrite Hdata.
    destruct wrapped; try reflexivity. exfalso. exact (Hnot d0 eq_refl).
Qed.

(** X8.  The suite of auto_api.py finds the same identity as the lifecycle
    whenever it finds one, but it does not look under data.id: a creation
    body that only has its id there gives the lifecycle an identity and
    the suite none. *)
Theorem suite_identity_ignores_data_id (response : Response) (d : list (string * json)) :
  json_body response = Some (JDict d) ->
  (truthy (AutoApi.extract_resource_id response) = true ->
     extract_resource_id response = AutoApi.extract_resource_id response)
  /\ (forall nested v,
        Forall (fun k => truthy (dict_get_default d k JNull) = false) ["id"; "_id"; "uuid"] ->
        dict_get "data" d = Some (JDict nested) ->
        dict_get "id" nested = Some v -> truthy v = true ->
        extract_resource_id response = v
        /\ truthy (AutoApi.extract_resource_id response) = false).
Proof.
  intros Hbody.
  unfold extract_resource_id, AutoApi.extract_resource_id, response_json. rewrite Hbody.
  cbn [bind ret Monad_result].
  unfold resource_id_expr, AutoApi.resource_id_expr, py_or.
  cbn [py_get bind ret Monad_result]. split.
  - destruct (truthy (dict_get_default d "id" JNull)) eqn:H1; [reflexivity |].
    destruct (truthy (dict_get_default d "_id" JNull)) eqn:H2; [reflexivity |].
    destruct (truthy (dict_get_default d "uuid" JNull)) eqn:H3; [reflexivity |].
    intros Habs. congruence.
  - intros nested v Hfalsy Hdata Hid Hv.
    inversion Hfalsy as [| ? ? H1 Hrest]; subst.
    inversion Hrest as [| ? ? H2 Hrest']; subst.
    inversion Hrest' as [| ? ? H3 _]; subst.
    rewrite H1, H2, H3. unfold dict_get_default at 1. rewrite Hdata.
    cbn [py_get]. unfold dict_get_default at 1. rewrite Hid. auto.
Qed.

(** ** The generator's check of the test cases *)

Lemma all_keys_in_dict (keys : list string) (d : list (string * json)) :
  all_keys_in keys (JDict d)
  = Ok (forallb (fun key => match dict_get key d with Some _ => true | None => false end) keys).
Proof.
  induction keys as [| key rest IH]; [reflexivity |].
  cbn [all_keys_in py_in bind ret Monad_result forallb].
  destruct (dict_get key d); [exact IH | reflexivity].
Qed.

Lemma dict_get_setdefault_kept (d : list (string * json)) (key key' : string) (default v : json) :
  dict_get key' d = Some v -> dict_get key' (dict_setdefault d key default) = Some v.
Proof.
  intros Hget. unfold dict_setdefault. destruct (dict_get key d); [exact Hget |].
  induction d as [| [k x] d IH]; [discriminate |].
  cbn in Hget |- *. destruct (String.eqb key' k); [exact Hget | exact (IH Hget)].
Qed.

Lemma dict_get_setdefault_present (d : list (string * json)) (key : string) (default : json) :
  dict_get key (dict_setdefault d key default) <> None.
Proof.
  unfold dict_setdefault. destruct (dict_get key d) eqn:Hget; [congruence |].
  induction d as [| [k x] d IH].
  - cbn. rewrite String.eqb_refl. discriminate.
  - cbn in Hget |- *. destruct (String.eqb key k); [discriminate | exact (IH Hget)].
Qed.

Lemma dict_get_present_kept (d : list (string * json)) (key key' : string) (default : json) :
  dict_get key' d <> None -> dict_get key' (dict_setdefault d key default) <> None.
Proof.
  intros Hget. destruct (dict_get key' d) as [v |] eqn:Hv; [| contradiction].
  rewrite (dict_get_setdefault_kept d key key' default v Hv). discriminate.
Qed.

Lemma with_defaults_keeps (d : list (string * json)) (key : string) (v : json) :
  dict_get key d = Some v -> dict_get key (with_defaults d) = Some v.
Proof.
  intros H. unfold with_defaults. do 3 apply dict_get_setdefault_kept. exact H.
Qed.

Lemma with_defaults_complete (d : list (string * json)) (key : string) :
  has_required (JDict d) = true ->
  In key ["method"; "expected_status"; "description"; "endpoint"; "data"; "category"] ->
  dict_get key (with_defaults d) <> None.
Proof.
  intros Hreq Hin. unfold has_required, required_keys in Hreq. cbn [forallb] in Hreq.
  unfold with_defaults.
  destruct (dict_get "method" d) eqn:H1; [| discriminate].
  destruct (dict_get "expected_status" d) eqn:H2; [| discriminate].
  destruct (dict_get "description" d) eqn:H3; [| discriminate].
  destruct Hin as [<- | [<- | [<- | [<- | [<- | [<- | []]]]]]].
  - do 3 apply dict_get_present_kept. congruence.
  - do 3 apply dict_get_present_kept. congruence.
  - do 3 apply dict_get_present_kept. congruence.
  - do 2 apply dict_get_present_kept. apply dict_get_setdefault_present.
  - apply dict_get_present_kept. apply dict_get_setdefault_present.
  - apply dict_get_setdefault_present.
Qed.

Lemma valid_cases_kept (test_cases cases : list json) :
  valid_cases test_cases = Ok cases ->
  cases = map completed (filter has_required test_cases)
  /\ Forall (fun tc => has_required tc = true -> exists d, tc = JDict d) test_cases.
Proof.
  revert cases. induction test_cases as [| tc rest IH]; intros cases.
  - cbn. intros H. inversion H. auto.
  - cbn [valid_cases filter]. destruct tc as [| b | n | f | t | l | d].
    1-4: cbn; discriminate.
    + (* a string *)
      destruct (all_keys_in _ (JStr t)) as [[|] | e]; cbn [bind ret Monad_result].
      * cbn. discriminate.
      * intros H. destruct (IH cases H) as [-> Hall]. cbn. split; [reflexivity |].
        constructor; [discriminate | exact Hall].
      * discriminate.
    + (* a list *)
      destruct (all_keys_in _ (JList l)) as [[|] | e]; cbn [bind ret Monad_result].
      * cbn. discriminate.
      * intros H. destruct (IH cases H) as [-> Hall]. cbn. split; [reflexivity |].
        constructor; [discriminate | exact Hall].
      * discriminate.
    + (* a dict *)
      rewrite all_keys_in_dict. cbn [bind ret Monad_result].
      change (forallb _ ["method"; "expected_status"; "description"])
        with (has_required (JDict d)).
      destruct (has_required (JDict d)) eqn:Hreq.
      * cbn [py_setdefault bind ret Monad_result].
        destruct (valid_cases rest) as [others |]; [| discriminate].
        cbn. intros H. inversion H; subst. destruct (IH others eq_refl) as [-> Hall].
        split; [reflexivity |]. constructor; [eauto | exact Hall].
      * intros H. destruct (IH cases H) as [-> Hall].
        split; [reflexivity |]. constructor; [eauto | exact Hall].
Qed.

Lemma as_dicts_completed (test_cases : list json) :
  Forall (fun tc => has_required tc = true -> exists d, tc = JDict d) test_cases ->
  exists ds, as_dicts (map completed (filter has_required test_cases)) = Some ds
             /\ List.length ds = List.length (filter has_required test_cases).
Proof.
  induction 1 as [| tc rest Htc _ (ds & IH & Hlen)]; [cbn; eauto |].
  cbn [filter]. destruct (has_required tc) eqn:Hreq; [| eauto].
  destruct (Htc eq_refl) as (d & ->). cbn. rewrite IH.
  eexists. split; [reflexivity |]. cbn. rewrite Hlen. reflexivity.
Qed.

(** X9.  What the generator hands on after its check: the elements of the
    model's list that are dicts with method, expected_status and
    description, in their order, each with endpoint, data and category
    filled in when absent and every value it came with untouched; at least
    one, and each a dict [run_ai_generated_tests] can take. *)
Theorem generator_keeps_complete_cases (parsed : json) (cases : list json) :
  validate_structure parsed = Ok (Some cases) ->
  exists test_cases,
    parsed = JList test_cases
    /\ cases = map completed (filter has_required test_cases)
    /\ cases <> []
    /\ (exists ds, as_dicts cases = Some ds /\ List.length ds = List.length cases)
    /\ (forall d, In (JDict d) (filter has_required test_cases) ->
          (forall key, In key ["method"; "expected_status"; "description";
                               "endpoint"; "data"; "category"] ->
                       dict_get key (with_defaults d) <> None)
          /\ (forall key v, dict_get key d = Some v ->
                            dict_get key (with_defaults d) = Some v)).
Proof.
  unfold validate_structure. destruct parsed as [| | | | | [| tc rest] |]; try discriminate.
  destruct (valid_cases (tc :: rest)) as [[| c cs] | e] eqn:Hvalid; try (cbn; discriminate).
  cbn. intros H. inversion H; subst cases. clear H.
  destruct (valid_cases_kept _ _ Hvalid) as [Hcases Hall].
  exists (tc :: rest). split; [reflexivity |]. split; [exact Hcases |].
  split; [discriminate |]. split.
  - rewrite Hcases. destruct (as_dicts_completed _ Hall) as (ds & Hds & Hlen).
    exists ds. rewrite length_map. auto.
  - intros d Hin. apply filter_In in Hin. destruct Hin as [_ Hreq]. split.
    + intros key Hkey. exact (with_defaults_complete d key Hreq Hkey).
    + intros key v. apply with_defaults_keeps.
Qed.

(** X10.  One element that is [null], a bool or a number makes the check raise,
    so the whole list is lost to the attempt, the complete cases with
    it. *)
Theorem scalar_element_discards_the_list (test_cases : list json) (tc : json) :
  In tc test_cases -> scalar tc = true ->
  exists e, validate_structure (JList test_cases) = Raise e.
Proof.
  intros Hin Hs.
  assert (exists e, valid_cases test_cases = Raise e) as (e & He).
  { induction test_cases as [| hd rest IH]; [contradiction |].
    cbn [valid_cases]. destruct Hin as [-> | Hin].
    - destruct tc; try discriminate Hs; cbn; eauto.
    - destruct (IH Hin) as (e & He). rewrite He.
      destruct (all_keys_in _ hd) as [[|] | e']; cbn [bind ret Monad_result]; eauto.
      destruct (py_setdefault hd "endpoint" (JStr "")) as [t1 |]; cbn; eauto.
      destruct (py_setdefault t1 "data" JNull) as [t2 |]; cbn; eauto.
      destruct (py_setdefault t2 "category" (JStr "other")) as [t3 |]; cbn; eauto. }
  exists e. unfold validate_structure. destruct test_cases; [contradiction |].
  rewrite He. reflexivity.
Qed.

(** * Properties of the rest of the testers *)

Section RunProperties.

Context {env : Environment}.

(** ** Steps of a run *)

Lemma grows_refl (s : State) : grows s s [] [].
Proof. unfold grows. rewrite !app_nil_r. auto. Qed.

Lemma grows_trans (s s1 s2 : State) outs1 rqs1 outs2 rqs2 :
  grows s s1 outs1 rqs1 -> grows s1 s2 outs2 rqs2 ->
  grows s s2 (outs1 ++ outs2) (rqs1 ++ rqs2).
Proof.
  intros (Hb1 & Hr1 & Hi1) (Hb2 & Hr2 & Hi2). unfold grows.
  rewrite Hb2, Hb1, Hr2, Hr1, Hi2, Hi1, <- !app_assoc. auto.
Qed.

Lemma ran_ret {A : Type} (a : A) (s : State) : ran (ret a) s (Ok a) s [] [].
Proof.
  unfold ran. split; [reflexivity |]. split; [apply grows_refl |]. auto.
Qed.

Lemma ran_bind {A B : Type} (m : M A) (k : A -> M B) (s s1 s2 : State) (a : A)
    (res : result B) outs1 rqs1 outs2 rqs2 :
  ran m s (Ok a) s1 outs1 rqs1 -> ran (k a) s1 res s2 outs2 rqs2 ->
  ran (bind m k) s res s2 (outs1 ++ outs2) (rqs1 ++ rqs2).
Proof.
  intros (Hm & Hg1 & Ho1 & Hq1 & Hl1) (Hk & Hg2 & Ho2 & Hq2 & Hl2). unfold ran.
  split; [rewrite (bind_Ok _ _ _ _ _ Hm); exact Hk |].
  split; [exact (grows_trans _ _ _ _ _ _ _ Hg1 Hg2) |].
  split; [apply Forall_app; auto |]. split; [apply Forall_app; auto |].
  rewrite !length_app. lia.
Qed.

Lemma ran_bind_pure {A B : Type} (m : M A) (k : A -> M B) (s s1 s2 : State) (a : A)
    (res : result B) outs rqs :
  ran m s (Ok a) s1 [] [] -> ran (k a) s1 res s2 outs rqs ->
  ran (bind m k) s res s2 outs rqs.
Proof. intros Hm Hk. exact (ran_bind m k s s1 s2 a res [] [] outs rqs Hm Hk). Qed.

Lemma ran_bind_last {A B : Type} (m : M A) (k : A -> M B) (s s1 s2 : State) (a : A)
    (res : result B) outs rqs :
  ran m s (Ok a) s1 outs rqs -> ran (k a) s1 res s2 [] [] ->
  ran (bind m k) s res s2 outs rqs.
Proof.
  intros Hm Hk. rewrite <- (app_nil_r outs), <- (app_nil_r rqs).
  exact (ran_bind m k s s1 s2 a res outs rqs [] [] Hm Hk).
Qed.

Lemma ran_bind_one {A B : Type} (m : M A) (k : A -> M B) (s s1 s2 : State) (a : A)
    (res : result B) o rq outs rqs :
  ran m s (Ok a) s1 [o] [rq] -> ran (k a) s1 res s2 outs rqs ->
  ran (bind m k) s res s2 (o :: outs) (rq :: rqs).
Proof. intros Hm Hk. exact (ran_bind m k s s1 s2 a res [o] [rq] outs rqs Hm Hk). Qed.

Lemma ran_bind_raise {A B : Type} (m : M A) (k : A -> M B) (s s1 : State) (e : exn)
    outs rqs :
  ran m s (Raise e) s1 outs rqs -> ran (bind m k) s (Raise e) s1 outs rqs.
Proof.
  intros (Hm & Hrest). unfold ran. split; [| exact Hrest].
  cbn. rewrite Hm. reflexivity.
Qed.

Lemma ran_lift {A : Type} (c : result A) (s : State) : ran (lift c) s c s [] [].
Proof.
  unfold ran. split; [reflexivity |]. split; [apply grows_refl |]. auto.
Qed.

Lemma verdict_pass_or_fail matches mismatch reply ret st det :
  verdict matches mismatch reply = (ret, st, det) -> st = "PASS" \/ st = "FAIL".
Proof.
  unfold verdict. destruct reply as [r | msg]; [destruct (matches r) |];
    intros H; inversion H; auto.
Qed.

(** A method that runs as one exchange on a plain request. *)
Lemma exchange_ran (m : M (option Response)) (s : State) (rq : Request) (name : string)
    matches mismatch :
  m s = exchange s rq name (verdict matches mismatch) ->
  plain_request rq ->
  exists ret o s',
    ran m s (Ok ret) s' [o] [rq]
    /\ test o = name
    /\ (forall r, ret = Some r ->
          fst (send rq (world s)) = Received r /\ matches r = true /\ status o = "PASS")
    /\ (ret = None ->
          status o = "FAIL"
          /\ forall r, fst (send rq (world s)) = Received r -> matches r = false).
Proof.
  intros Hm Hplain.
  destruct (exchange_extends s rq name (verdict matches mismatch))
    as (ret & o & s' & Hrun & Hext & Hname & Hj).
  exists ret, o, s'. split; [| split; [exact Hname |]].
  - unfold ran. split; [rewrite Hm; exact Hrun |]. split; [exact Hext |].
    split; [constructor; [exact (verdict_pass_or_fail _ _ _ _ _ _ Hj) | constructor] |].
    split; [constructor; [exact Hplain | constructor] | cbn; lia].
  - pose proof (verdict_pass _ _ _ _ _ _ Hj) as (Hpass & Hfail & Hsome). split.
    + intros r Hr. destruct (Hsome r Hr) as [Hrecv Hmatch].
      split; [exact Hrecv |]. split; [exact Hmatch |]. apply Hpass. eauto.
    + intros Hnone. split; [apply Hfail; exact Hnone |].
      intros r Hr. rewrite Hr in Hj. apply verdict_received in Hj.
      destruct (matches r) eqn:Hmatch; [| reflexivity].
      destruct Hj as [Hyes _]. destruct (Hyes eq_refl) as (Hret & _). congruence.
Qed.

Lemma plain_none (m : Method) (url : string) (body : json) :
  plain_request (mkRequest m url body None 10).
Proof. unfold plain_request. cbn. auto. Qed.

Lemma plain_json (m : Method) (url : string) (body : json) :
  plain_request (mkRequest m url body json_headers 10).
Proof. unfold plain_request. cbn. auto. Qed.

Lemma ran_base {A : Type} (m : M A) (s s' : State) res outs rqs :
  ran m s res s' outs rqs -> base_url (self s') = base_url (self s).
Proof. intros (_ & (Hb & _) & _). exact Hb. Qed.

(** ** Steps that follow the world *)

Lemma world_after_all_app (rqs1 rqs2 : list Request) (w : World) :
  world_after_all (rqs1 ++ rqs2) w = world_after_all rqs2 (world_after_all rqs1 w).
Proof. apply fold_left_app. Qed.

Lemma replayed_ran {A : Type} (m : M A) (s s' : State) res outs rqs :
  replayed m s res s' outs rqs -> ran m s res s' outs rqs.
Proof. intros [H _]. exact H. Qed.

Lemma replayed_base {A : Type} (m : M A) (s s' : State) res outs rqs :
  replayed m s res s' outs rqs -> base_url (self s') = base_url (self s).
Proof. intros [H _]. exact (ran_base _ _ _ _ _ _ H). Qed.

Lemma replayed_world {A : Type} (m : M A) (s s' : State) res outs rqs :
  replayed m s res s' outs rqs -> world s' = world_after_all rqs (world s).
Proof. intros [_ H]. exact H. Qed.

Lemma replayed_ret {A : Type} (a : A) (s : State) : replayed (ret a) s (Ok a) s [] [].
Proof. split; [apply ran_ret | reflexivity]. Qed.

Lemma replayed_lift {A : Type} (c : result A) (s : State) : replayed (lift c) s c s [] [].
Proof. split; [apply ran_lift | reflexivity]. Qed.

Lemma replayed_bind {A B : Type} (m : M A) (k : A -> M B) (s s1 s2 : State) (a : A)
    (res : result B) outs1 rqs1 outs2 rqs2 :
  replayed m s (Ok a) s1 outs1 rqs1 -> replayed (k a) s1 res s2 outs2 rqs2 ->
  replayed (bind m k) s res s2 (outs1 ++ outs2) (rqs1 ++ rqs2).
Proof.
  intros [Hm Hw1] [Hk Hw2]. split; [exact (ran_bind _ _ _ _ _ _ _ _ _ _ _ Hm Hk) |].
  rewrite world_after_all_app, <- Hw1. exact Hw2.
Qed.

Lemma replayed_bind_pure {A B : Type} (m : M A) (k : A -> M B) (s s1 s2 : State) (a : A)
    (res : result B) outs rqs :
  replayed m s (Ok a) s1 [] [] -> replayed (k a) s1 res s2 outs rqs ->
  replayed (bind m k) s res s2 outs rqs.
Proof. intros Hm Hk. exact (replayed_bind m k s s1 s2 a res [] [] outs rqs Hm Hk). Qed.

Lemma replayed_bind_last {A B : Type} (m : M A) (k : A -> M B) (s s1 s2 : State) (a : A)
    (res : result B) outs rqs :
  replayed m s (Ok a) s1 outs rqs -> replayed (k a) s1 res s2 [] [] ->
  replayed (bind m k) s res s2 outs rqs.
Proof.
  intros Hm Hk. rewrite <- (app_nil_r outs), <- (app_nil_r rqs).
  exact (replayed_bind m k s s1 s2 a res outs rqs [] [] Hm Hk).
Qed.

Lemma replayed_bind_one {A B : Type} (m : M A) (k : A -> M B) (s s1 s2 : State) (a : A)
    (res : result B) o rq outs rqs :
  replayed m s (Ok a) s1 [o] [rq] -> replayed (k a) s1 res s2 outs rqs ->
  replayed (bind m k) s res s2 (o :: outs) (rq :: rqs).
Proof. intros Hm Hk. exact (replayed_bind m k s s1 s2 a res [o] [rq] outs rqs Hm Hk). Qed.

Lemma replayed_bind_raise {A B : Type} (m : M A) (k : A -> M B) (s s1 : State) (e : exn)
    outs rqs :
  replayed m s (Raise e) s1 outs rqs -> replayed (bind m k) s (Raise e) s1 outs rqs.
Proof. intros [Hm Hw]. split; [apply ran_bind_raise; exact Hm | exact Hw]. Qed.

(** What one exchange returns, and the world it leaves. *)
Lemma exchange_result (s : State) (rq : Request) (name : string) matches mismatch :
  fst (exchange s rq name (verdict matches mismatch))
  = Ok match reply_to rq (world s) with
       | Received r => if matches r then Some r else None
       | Failed _ => None
       end
  /\ world (snd (exchange s rq name (verdict matches mismatch))) = world_after rq (world s).
Proof.
  unfold exchange, reply_to, world_after, verdict.
  destruct (send rq (world s)) as [reply w1]. cbn [fst snd].
  destruct reply as [r | msg]; [destruct (matches r) |];
    destruct (now w1) as [stamp w2]; split; reflexivity.
Qed.

Lemma exchange_replayed (m : M (option Response)) (s : State) (rq : Request) (name : string)
    matches mismatch :
  m s = exchange s rq name (verdict matches mismatch) ->
  plain_request rq ->
  exists o s',
    replayed m s
      (Ok match reply_to rq (world s) with
          | Received r => if matches r then Some r else None
          | Failed _ => None
          end) s' [o] [rq]
    /\ test o = name.
Proof.
  intros Hm Hplain.
  destruct (exchange_ran m s rq name matches mismatch Hm Hplain)
    as (ret & o & s' & Hran & Hname & _).
  destruct (exchange_result s rq name matches mismatch) as [Hres Hw].
  pose proof Hran as (Hrun & _). rewrite Hm in Hrun. rewrite Hrun in Hres, Hw.
  cbn [fst snd] in Hres, Hw. rewrite <- Hres.
  exists o, s'. split; [split; [exact Hran | exact Hw] | exact Hname].
Qed.

Lemma test_get_replayed (endpoint : string) (expected_status : Z) (s : State) :
  let rq := mkRequest GET (base_url (self s) ++ endpoint) JNull None 10 in
  exists o s',
    replayed (test_get endpoint expected_status None) s
      (Ok (returned expected_status (reply_to rq (world s)))) s' [o] [rq]
    /\ test o = "GET " ++ base_url (self s) ++ endpoint.
Proof.
  intros rq.
  exact (exchange_replayed _ s _ _ _ _ (test_get_exchange endpoint expected_status None s)
           (plain_none _ _ _)).
Qed.

Lemma test_delete_replayed (endpoint : string) (expected_status : Z) (s : State) :
  let rq := mkRequest DELETE (base_url (self s) ++ endpoint) JNull None 10 in
  exists o s',
    replayed (test_delete endpoint expected_status None) s
      (Ok (returned expected_status (reply_to rq (world s)))) s' [o] [rq]
    /\ test o = "DELETE " ++ base_url (self s) ++ endpoint.
Proof.
  intros rq.
  exact (exchange_replayed _ s _ _ _ _ (test_delete_exchange endpoint expected_status None s)
           (plain_none _ _ _)).
Qed.

Lemma test_post_replayed (endpoint : string) (data : json) (expected_status : Z) (s : State) :
  let rq := mkRequest POST (base_url (self s) ++ endpoint) data json_headers 10 in
  exists o s',
    replayed (test_post endpoint data expected_status None) s
      (Ok (returned expected_status (reply_to rq (world s)))) s' [o] [rq]
    /\ test o = "POST " ++ base_url (self s) ++ endpoint.
Proof.
  intros rq.
  exact (exchange_replayed _ s _ _ _ _ (test_post_exchange endpoint data expected_status None s)
           (plain_json _ _ _)).
Qed.

Lemma test_put_replayed (endpoint : string) (data : json) (expected_status : Z) (s : State) :
  let rq := mkRequest PUT (base_url (self s) ++ endpoint) data json_headers 10 in
  exists o s',
    replayed (test_put endpoint data expected_status None) s
      (Ok (returned expected_status (reply_to rq (world s)))) s' [o] [rq]
    /\ test o = "PUT " ++ base_url (self s) ++ endpoint.
Proof.
  intros rq.
  exact (exchange_replayed _ s _ _ _ _ (test_put_exchange endpoint data expected_status None s)
           (plain_json _ _ _)).
Qed.

Lemma test_patch_replayed (endpoint : string) (data : json) (expected_status : Z) (s : State) :
  let rq := mkRequest PATCH (base_url (self s) ++ endpoint) data json_headers 10 in
  exists o s',
    replayed (test_patch endpoint data expected_status None) s
      (Ok (returned expected_status (reply_to rq (world s)))) s' [o] [rq]
    /\ test o = "PATCH " ++ base_url (self s) ++ endpoint.
Proof.
  intros rq.
  exact (exchange_replayed _ s _ _ _ _ (test_patch_exchange endpoint data expected_status None s)
           (plain_json _ _ _)).
Qed.

(** ** The blocks of the lifecycle *)

Lemma response_ok_below_400 (r : Response) : status_code r < 400 -> response_ok r = true.
Proof.
  intros H. unfold response_ok. destruct (Z.leb_spec 400 (status_code r)); [lia | reflexivity].
Qed.

Lemma returned_status (code : Z) (reply : Reply) (r : Response) :
  returned code reply = Some r -> status_code r = code.
Proof.
  unfold returned. destruct reply as [r' | msg]; [| discriminate].
  destruct (Z.eqb_spec (status_code r') code) as [He |]; [| discriminate].
  intros H. injection H as <-. exact He.
Qed.

Lemma created_id_returned (reply : Reply) :
  created_id reply
  = match returned 201 reply with Some r => extract_resource_id r | None => JNull end.
Proof.
  unfold created_id, returned.
  destruct reply as [r |]; [destruct (status_code r =? 201) |]; reflexivity.
Qed.

Lemma returned_received (code : Z) (reply : Reply) (r : Response) :
  returned code reply = Some r -> reply = Received r.
Proof.
  unfold returned. destruct reply as [r' | msg]; [| discriminate].
  destruct (status_code r' =? code); [| discriminate].
  intros H. inversion H. reflexivity.
Qed.

Lemma crud_create_replayed (create_data : json) expected_fields (s : State) :
  let rq := mkRequest POST (base_url (self s)) create_data json_headers 10 in
  exists res o s',
    replayed (crud_create create_data expected_fields) s res s' [o] [rq]
    /\ (res = Ok (created_id (reply_to rq (world s)))
        \/ raised_by_field_check expected_fields (reply_to rq (world s)) res).
Proof.
  intros rq. unfold crud_create.
  destruct (test_post_replayed "" create_data 201 s) as (o & s1 & Hran & _).
  rewrite append_empty in Hran. fold rq in Hran.
  rewrite created_id_returned.
  destruct (returned 201 (reply_to rq (world s))) as [r |] eqn:Hret.
  - assert (response_ok r = true) as Hok
      by (apply response_ok_below_400; rewrite (returned_status _ _ _ Hret); lia).
    destruct (fields_requested expected_fields) eqn:Hreq.
    + destruct (validate_response_data r expected_fields) as [v | e] eqn:Hv.
      * exists (Ok (extract_resource_id r)), o, s1. split; [| left; reflexivity].
        eapply replayed_bind_last; [exact Hran |]. cbv beta iota. rewrite Hok.
        eapply replayed_bind_pure; [| apply replayed_ret].
        eapply replayed_bind_pure; [rewrite <- Hv; apply replayed_lift |].
        apply replayed_ret.
      * exists (Raise e), o, s1. split.
        -- eapply replayed_bind_last; [exact Hran |]. cbv beta iota. rewrite Hok.
           apply replayed_bind_raise, replayed_bind_raise. rewrite <- Hv. apply replayed_lift.
        -- right. split; [exact Hreq |]. exists r, e.
           split; [exact (returned_received _ _ _ Hret) |]. split; [reflexivity | exact Hv].
    + exists (Ok (extract_resource_id r)), o, s1. split; [| left; reflexivity].
      eapply replayed_bind_last; [exact Hran |]. cbv beta iota. rewrite Hok.
      eapply replayed_bind_pure; apply replayed_ret.
  - exists (Ok JNull), o, s1. split; [| left; reflexivity].
    eapply replayed_bind_last; [exact Hran | apply replayed_ret].
Qed.

Lemma crud_read_single_replayed (resource_id : json) expected_fields (s : State) :
  let rq := mkRequest GET (base_url (self s) ++ "/" ++ py_str resource_id) JNull None 10 in
  exists res s' outs,
    replayed (crud_read_single resource_id expected_fields) s res s' outs
      (if truthy resource_id then [rq] else [])
    /\ List.length outs = (if truthy resource_id then 1 else 0)%nat
    /\ (res = Ok tt
        \/ (truthy resource_id = true
            /\ raised_by_field_check expected_fields (reply_to rq (world s)) res)).
Proof.
  intros rq. unfold crud_read_single. destruct (truthy resource_id).
  - destruct (test_get_replayed ("/" ++ py_str resource_id) 200 s) as (o & s1 & Hran & _).
    fold rq in Hran.
    destruct (returned 200 (reply_to rq (world s))) as [r |] eqn:Hret.
    + assert (response_ok r = true) as Hok
        by (apply response_ok_below_400; rewrite (returned_status _ _ _ Hret); lia).
      destruct (fields_requested expected_fields) eqn:Hreq.
      * destruct (validate_response_data r expected_fields) as [v | e] eqn:Hv.
        -- exists (Ok tt), s1, [o]. split; [| auto].
           eapply replayed_bind_last; [exact Hran |]. cbv beta iota. rewrite Hok. cbn [andb].
           eapply replayed_bind_pure; [rewrite <- Hv; apply replayed_lift |].
           apply replayed_ret.
        -- exists (Raise e), s1, [o]. split; [| split; [reflexivity |]].
           ++ eapply replayed_bind_last; [exact Hran |]. cbv beta iota. rewrite Hok.
              cbn [andb]. apply replayed_bind_raise. rewrite <- Hv. apply replayed_lift.
           ++ right. split; [reflexivity |]. split; [exact Hreq |]. exists r, e.
              split; [exact (returned_received _ _ _ Hret) |].
              split; [reflexivity | exact Hv].
      * exists (Ok tt), s1, [o]. split; [| auto].
        eapply replayed_bind_last; [exact Hran |]. cbv beta iota. rewrite Hok. cbn [andb].
        apply replayed_ret.
    + exists (Ok tt), s1, [o]. split; [| auto].
      eapply replayed_bind_last; [exact Hran | apply replayed_ret].
  - exists (Ok tt), s, []. split; [apply replayed_ret | auto].
Qed.

(** A PUT or a PATCH, and the fetch that follows it when it was answered
    200. *)
Lemma update_then_fetch_replayed (update : M (option Response)) (rq : Request)
    (resource_id : json) (s : State) :
  (exists o s1,
     replayed update s (Ok (returned 200 (reply_to rq (world s)))) s1 [o] [rq]) ->
  let fetch := mkRequest GET (base_url (self s) ++ "/" ++ py_str resource_id) JNull None 10 in
  let rqs := rq :: (if answered 200 (reply_to rq (world s)) then [fetch] else []) in
  exists s' outs,
    replayed
      (put_response <- update ;;
       if returned_truthy put_response
       then _ <- test_get ("/" ++ py_str resource_id) 200 None ;; ret tt
       else ret tt) s (Ok tt) s' outs rqs
    /\ List.length outs = List.length rqs.
Proof.
  intros (o & s1 & Hran) fetch rqs. subst rqs. unfold answered.
  pose proof (replayed_base _ _ _ _ _ _ Hran) as Hb.
  destruct (returned 200 (reply_to rq (world s))) as [r |] eqn:Hret.
  - assert (response_ok r = true) as Hok
      by (apply response_ok_below_400; rewrite (returned_status _ _ _ Hret); lia).
    destruct (test_get_replayed ("/" ++ py_str resource_id) 200 s1) as (o2 & s2 & Hran2 & _).
    rewrite Hb in Hran2. fold fetch in Hran2.
    exists s2, [o; o2]. split; [| reflexivity].
    eapply replayed_bind_one; [exact Hran |]. cbv beta iota. cbn [returned_truthy].
    rewrite Hok. eapply replayed_bind_last; [exact Hran2 | apply replayed_ret].
  - exists s1, [o]. split; [| reflexivity].
    eapply replayed_bind_last; [exact Hran | apply replayed_ret].
Qed.

Lemma crud_update_put_replayed (resource_id update_data : json) (s : State) :
  let url := base_url (self s) ++ "/" ++ py_str resource_id in
  let put := mkRequest PUT url update_data json_headers 10 in
  let rqs := if truthy resource_id
             then put :: (if answered 200 (reply_to put (world s))
                          then [mkRequest GET url JNull None 10] else [])
             else [] in
  exists s' outs,
    replayed (crud_update_put resource_id update_data) s (Ok tt) s' outs rqs
    /\ List.length outs = List.length rqs.
Proof.
  intros url put rqs. subst rqs. unfold crud_update_put. destruct (truthy resource_id).
  - apply (update_then_fetch_replayed _ put resource_id s).
    destruct (test_put_replayed ("/" ++ py_str resource_id) update_data 200 s)
      as (o & s1 & Hran & _).
    exists o, s1. exact Hran.
  - exists s, []. split; [apply replayed_ret | reflexivity].
Qed.

Lemma crud_update_patch_replayed (resource_id patch_data : json) (s : State) :
  let url := base_url (self s) ++ "/" ++ py_str resource_id in
  let patch := mkRequest PATCH url patch_data json_headers 10 in
  let rqs := if truthy resource_id
             then patch :: (if answered 200 (reply_to patch (world s))
                            then [mkRequest GET url JNull None 10] else [])
             else [] in
  exists s' outs,
    replayed (crud_update_patch resource_id patch_data) s (Ok tt) s' outs rqs
    /\ List.length outs = List.length rqs.
Proof.
  intros url patch rqs. subst rqs. unfold crud_update_patch. destruct (truthy resource_id).
  - apply (update_then_fetch_replayed _ patch resource_id s).
    destruct (test_patch_replayed ("/" ++ py_str resource_id) patch_data 200 s)
      as (o & s1 & Hran & _).
    exists o, s1. exact Hran.
  - exists s, []. split; [apply replayed_ret | reflexivity].
Qed.

Lemma crud_delete_replayed (resource_id : json) (s : State) :
  let url := base_url (self s) ++ "/" ++ py_str resource_id in
  let rqs := if truthy resource_id
             then [mkRequest DELETE url JNull None 10; mkRequest GET url JNull None 10]
             else [] in
  exists s' outs,
    replayed (crud_delete resource_id) s (Ok tt) s' outs rqs
    /\ List.length outs = List.length rqs.
Proof.
  intros url rqs. subst rqs. unfold crud_delete. destruct (truthy resource_id).
  - destruct (test_delete_replayed ("/" ++ py_str resource_id) 200 s) as (o1 & s1 & Hran1 & _).
    destruct (test_get_replayed ("/" ++ py_str resource_id) 404 s1) as (o2 & s2 & Hran2 & _).
    rewrite (replayed_base _ _ _ _ _ _ Hran1) in Hran2.
    exists s2, [o1; o2]. split; [| reflexivity].
    eapply replayed_bind_one; [exact Hran1 |].
    eapply replayed_bind_one; [exact Hran2 | apply replayed_ret].
  - exists s, []. split; [apply replayed_ret | reflexivity].
Qed.

Lemma crud_edge_cases_replayed (s : State) :
  exists s' outs,
    replayed crud_edge_cases s (Ok tt) s' outs (edge_requests (base_url (self s)))
    /\ List.length outs = 3%nat.
Proof.
  unfold crud_edge_cases, edge_requests.
  destruct (test_get_replayed "/nonexistent-id-12345" 404 s) as (o1 & s1 & Hran1 & _).
  destruct (test_delete_replayed "/nonexistent-id-12345" 404 s1) as (o2 & s2 & Hran2 & _).
  destruct (test_post_replayed "" (JDict []) 400 s2) as (o3 & s3 & Hran3 & _).
  pose proof (replayed_base _ _ _ _ _ _ Hran1) as Hb1.
  pose proof (replayed_base _ _ _ _ _ _ Hran2) as Hb2.
  rewrite append_empty, Hb2, Hb1 in Hran3. rewrite Hb1 in Hran2.
  exists s3, [o1; o2; o3]. split; [| reflexivity].
  eapply replayed_bind_one; [exact Hran1 |].
  eapply replayed_bind_one; [exact Hran2 |].
  eapply replayed_bind_one; [exact Hran3 | apply replayed_ret].
Qed.

(** ** The whole lifecycle *)

Lemma lifecycle_steps_trace (create_data update_data patch_data : json)
    (expected_fields : option (list string)) (s : State) :
  exists res s' outs rqs,
    replayed (lifecycle_steps create_data update_data patch_data expected_fields) s res s'
      outs rqs
    /\ List.length outs = List.length rqs
    /\ (res = Ok tt ->
        rqs = lifecycle_requests (base_url (self s)) create_data update_data patch_data
                (world s))
    /\ (fields_requested expected_fields = false -> res = Ok tt)
    /\ (forall e, res = Raise e ->
          (List.length outs <= 3)%nat
          /\ exists before rq r,
               rqs = (before ++ [rq])%list
               /\ reply_to rq (world_after_all before (world s)) = Received r
               /\ validate_response_data r expected_fields = Raise e).
Proof.
  unfold lifecycle_steps, lifecycle_requests.
  set (base := base_url (self s)).
  set (create := mkRequest POST base create_data json_headers 10).
  set (list_all := mkRequest GET base JNull None 10).
  set (resource_id := created_id (reply_to create (world s))).
  set (url := base ++ "/" ++ py_str resource_id).
  set (fetch := mkRequest GET url JNull None 10).
  set (put := mkRequest PUT url update_data json_headers 10).
  set (patch := mkRequest PATCH url patch_data json_headers 10).
  destruct (crud_create_replayed create_data expected_fields s)
    as (res1 & o1 & s1 & Hran1 & Hres1).
  fold base in Hran1, Hres1. fold create in Hran1, Hres1. fold resource_id in Hres1.
  destruct Hres1 as [-> | (Hreq & r & e & Hrecv & -> & Hv)].
  2: { exists (Raise e), s1, [o1], [create].
       split; [apply replayed_bind_raise; exact Hran1 |]. split; [reflexivity |].
       split; [discriminate |]. split; [congruence |].
       intros e' He. inversion He; subst e'. cbn. split; [lia |].
       exists [], create, r. split; [reflexivity |]. split; [exact Hrecv | exact Hv]. }
  pose proof (replayed_base _ _ _ _ _ _ Hran1) as Hb1.
  pose proof (replayed_world _ _ _ _ _ _ Hran1) as Hw1.
  destruct (test_get_replayed "" 200 s1) as (o2 & s2 & Hran2 & _).
  rewrite append_empty, Hb1 in Hran2. fold base in Hran2. fold list_all in Hran2.
  pose proof (replayed_base _ _ _ _ _ _ Hran2) as Hb2. rewrite Hb1 in Hb2.
  pose proof (replayed_world _ _ _ _ _ _ Hran2) as Hw2. rewrite Hw1 in Hw2.
  destruct (crud_read_single_replayed resource_id expected_fields s2)
    as (res3 & s3 & outs3 & Hran3 & Hlen3 & Hres3).
  rewrite Hb2 in Hran3. fold base in Hran3. fold url in Hran3. fold fetch in Hran3.
  destruct Hres3 as [-> | (Ht & Hreq & r & e & Hrecv & -> & Hv)].
  2: { rewrite Ht in Hran3, Hlen3. rewrite Hb2, Hw2 in Hrecv.
       fold base in Hrecv. fold url in Hrecv. fold fetch in Hrecv.
       exists (Raise e), s3, (o1 :: o2 :: outs3), [create; list_all; fetch].
       split; [eapply replayed_bind_one; [exact Hran1 |];
               eapply replayed_bind_one; [exact Hran2 |];
               apply replayed_bind_raise; exact Hran3 |].
       split; [cbn; rewrite Hlen3; reflexivity |].
       split; [discriminate |]. split; [congruence |].
       intros e' He. inversion He; subst e'. cbn [List.length]. rewrite Hlen3.
       split; [lia |].
       exists [create; list_all], fetch, r.
       split; [reflexivity |]. split; [exact Hrecv | exact Hv]. }
  pose proof (replayed_base _ _ _ _ _ _ Hran3) as Hb3. rewrite Hb2 in Hb3.
  pose proof (replayed_world _ _ _ _ _ _ Hran3) as Hw3. rewrite Hw2 in Hw3.
  destruct (crud_update_put_replayed resource_id update_data s3)
    as (s4 & outs4 & Hran4 & Hlen4).
  rewrite Hb3, Hw3 in Hran4, Hlen4. fold base in Hran4, Hlen4. fold url in Hran4, Hlen4.
  fold put in Hran4, Hlen4. fold fetch in Hran4, Hlen4.
  pose proof (replayed_base _ _ _ _ _ _ Hran4) as Hb4. rewrite Hb3 in Hb4.
  pose proof (replayed_world _ _ _ _ _ _ Hran4) as Hw4. rewrite Hw3 in Hw4.
  destruct (crud_update_patch_replayed resource_id patch_data s4)
    as (s5 & outs5 & Hran5 & Hlen5).
  rewrite Hb4, Hw4 in Hran5, Hlen5. fold base in Hran5, Hlen5. fold url in Hran5, Hlen5.
  fold patch in Hran5, Hlen5. fold fetch in Hran5, Hlen5.
  pose proof (replayed_base _ _ _ _ _ _ Hran5) as Hb5. rewrite Hb4 in Hb5.
  destruct (crud_delete_replayed resource_id s5) as (s6 & outs6 & Hran6 & Hlen6).
  rewrite Hb5 in Hran6, Hlen6. fold base in Hran6, Hlen6. fold url in Hran6, Hlen6.
  fold fetch in Hran6, Hlen6.
  pose proof (replayed_base _ _ _ _ _ _ Hran6) as Hb6. rewrite Hb5 in Hb6.
  destruct (crud_edge_cases_replayed s6) as (s7 & outs7 & Hran7 & Hlen7).
  rewrite Hb6 in Hran7. fold base in Hran7.
  exists (Ok tt), s7, (o1 :: o2 :: outs3 ++ outs4 ++ outs5 ++ outs6 ++ outs7)%list.
  eexists.
  split.
  { eapply replayed_bind_one; [exact Hran1 |].
    eapply replayed_bind_one; [exact Hran2 |].
    eapply replayed_bind; [exact Hran3 |].
    eapply replayed_bind; [exact Hran4 |].
    eapply replayed_bind; [exact Hran5 |].
    eapply replayed_bind; [exact Hran6 |].
    exact Hran7. }
  split.
  { cbn [List.length]. rewrite !length_app, Hlen3, Hlen4, Hlen5, Hlen6, Hlen7.
    unfold edge_requests. destruct (truthy resource_id); reflexivity. }
  split; [| split; [reflexivity | discriminate]].
  intros _. unfold identity_requests. fold url. fold fetch. fold put. fold patch.
  destruct (truthy resource_id); [| reflexivity].
  cbn [world_after_all fold_left app].
  destruct (answered 200 (reply_to put _));
    cbn [world_after_all fold_left app];
    destruct (answered 200 (reply_to patch _)); reflexivity.
Qed.

Lemma run_full_crud_test_steps (create_data update_data patch_data : json)
    (expected_fields : option (list string)) :
  run_full_crud_test create_data update_data patch_data expected_fields
  = lifecycle_steps (or_default create_data default_create_data)
      (or_default update_data default_update_data)
      (or_default patch_data default_patch_data) expected_fields.
Proof. reflexivity. Qed.

Lemma lifecycle_requests_length (base : string) (create_data update_data patch_data : json)
    (w : World) :
  (5 <= List.length (lifecycle_requests base create_data update_data patch_data w) <= 12)%nat.
Proof.
  unfold lifecycle_requests, identity_requests, edge_requests.
  destruct (truthy _); [| cbn; lia].
  destruct (answered 200 _); destruct (answered 200 _); cbn; lia.
Qed.

(** X11.  The lifecycle always ends.  When it returns it has logged
    between 5 and 12 outcomes, one per request, after the ones that were
    there, and without a field check it always returns.  An exception can
    leave it at one place only, the field check, which no [try] encloses:
    it is then the exception [validate_response_data] raises on the
    response to the last request made, the create or the fetch, after at
    most 3 outcomes. *)
Theorem lifecycle_appends_five_to_twelve
    (create_data update_data patch_data : json) (expected_fields : option (list string))
    (s : State) :
  exists res s' outs rqs,
    run_full_crud_test create_data update_data patch_data expected_fields s = (res, s')
    /\ grows s s' outs rqs
    /\ List.length outs = List.length rqs
    /\ (res = Ok tt -> (5 <= List.length outs <= 12)%nat)
    /\ (fields_requested expected_fields = false -> res = Ok tt)
    /\ (forall e, res = Raise e ->
          (List.length outs <= 3)%nat
          /\ fields_requested expected_fields = true
          /\ exists before rq r,
               rqs = (before ++ [rq])%list
               /\ reply_to rq (world_after_all before (world s)) = Received r
               /\ validate_response_data r expected_fields = Raise e).
Proof.
  rewrite run_full_crud_test_steps.
  destruct (lifecycle_steps_trace (or_default create_data default_create_data)
              (or_default update_data default_update_data)
              (or_default patch_data default_patch_data) expected_fields s)
    as (res & s' & outs & rqs & ((Hrun & Hg & _) & _) & Hlen & Hok & Hreq & He).
  exists res, s', outs, rqs.
  split; [exact Hrun |]. split; [exact Hg |]. split; [exact Hlen |].
  split; [| split; [exact Hreq |]].
  - intros Hres. rewrite Hlen, (Hok Hres). apply lifecycle_requests_length.
  - intros e Hres. destruct (He e Hres) as [Hthree Hfrom].
    split; [exact Hthree |]. split; [| exact Hfrom].
    destruct (fields_requested expected_fields); [reflexivity |].
    rewrite (Hreq eq_refl) in Hres. discriminate Hres.
Qed.

(** X12.  With no field check the lifecycle returns, having logged one
    outcome per request, and the requests it has made are those of
    [lifecycle_requests], in their order: the create and the list-all;
    when the create was answered 201 with a truthy id, the fetch, the PUT,
    a fetch if and only if the PUT was answered 200, the PATCH, a fetch if
    and only if the PATCH was answered 200, the DELETE and a last fetch,
    all on base/id; then the three edge cases. *)
Theorem lifecycle_requests_in_order
    (create_data update_data patch_data : json) (expected_fields : option (list string))
    (s : State) :
  fields_requested expected_fields = false ->
  exists s' outs,
    run_full_crud_test create_data update_data patch_data expected_fields s = (Ok tt, s')
    /\ results (self s') = (results (self s) ++ outs)%list
    /\ List.length (issued s') = (List.length (issued s) + List.length outs)%nat
    /\ issued s' =
         (issued s
            ++ lifecycle_requests (base_url (self s))
                 (or_default create_data default_create_data)
                 (or_default update_data default_update_data)
                 (or_default patch_data default_patch_data) (world s))%list.
Proof.
  intros Hreq. rewrite run_full_crud_test_steps.
  destruct (lifecycle_steps_trace (or_default create_data default_create_data)
              (or_default update_data default_update_data)
              (or_default patch_data default_patch_data) expected_fields s)
    as (res & s' & outs & rqs & ((Hrun & (_ & Hres & Hiss) & _) & _) & Hlen & Hok & Hret & _).
  rewrite (Hret Hreq) in Hrun, Hok.
  exists s', outs.
  split; [exact Hrun |]. split; [exact Hres |].
  rewrite Hiss. split; [rewrite length_app, Hlen; reflexivity |].
  rewrite (Hok eq_refl). reflexivity.
Qed.

(** ** The data-driven runner, again *)

Lemma test_request_ran (method endpoint data expected_status : json)
    (test_name : option string) (s : State) :
  exists ret o s' rqs,
    ran (test_request method endpoint data expected_status None test_name) s (Ok ret) s'
      [o] rqs
    /\ test o = name_of test_name method (base_url (self s) ++ py_str endpoint).
Proof.
  destruct (method_of method) as [m |] eqn:Hm.
  - destruct (exchange_ran _ s _ _ _ _
                (test_request_supported method endpoint data expected_status None test_name
                   m s Hm) (plain_json _ _ _))
      as (ret & o & s' & Hran & Hname & _).
    exists ret, o, s'. eexists. split; [exact Hran | exact Hname].
  - pose proof (test_request_unsupported method endpoint data expected_status None test_name
                  s Hm) as Hrun.
    eexists None, _, _, []. split.
    + unfold ran. split; [exact Hrun |].
      split; [unfold grows; cbn; rewrite app_nil_r; auto |].
      split; [constructor; [right; reflexivity | constructor] |].
      split; [constructor | cbn; lia].
    + reflexivity.
Qed.

Lemma run_from_ran (test_cases : list (list (string * json))) :
  forall (i : Z) (s : State), exists s' outs rqs,
    ran (run_ai_generated_tests_from i test_cases) s (Ok tt) s' outs rqs
    /\ map test outs = ai_test_names i test_cases.
Proof.
  induction test_cases as [| test_case rest IH]; intros i s.
  - exists s, [], []. split; [apply ran_ret | reflexivity].
  - cbn [run_ai_generated_tests_from].
    set (name := "[AI Test " ++ str_of_Z i ++ "] " ++ _).
    destruct (test_request_ran
                (dict_get_default test_case "method" (JStr "GET"))
                (dict_get_default test_case "endpoint" (JStr ""))
                (dict_get_default test_case "data" JNull)
                (dict_get_default test_case "expected_status" (JInt 200))
                (Some name) s)
      as (ret & o & s1 & rqs1 & Hran & Hname).
    destruct (IH (i + 1) s1) as (s' & outs & rqs & Hrest & Hnames).
    exists s', ([o] ++ outs)%list, (rqs1 ++ rqs)%list.
    split; [eapply ran_bind; [exact Hran | exact Hrest] |].
    cbn. rewrite Hnames. f_equal. exact Hname.
Qed.

(** X13.  Every outcome a run logs is a PASS or a FAIL, and every request it
    makes has the timeout 10 and no header other than the JSON content
    type: what was there before is kept, and no run sends a header of the
    caller's. *)
Theorem runs_log_pass_or_fail_on_plain_requests :
  (forall test_cases (s : State), exists s' outs rqs,
      run_ai_generated_tests test_cases s = (Ok tt, s')
      /\ grows s s' outs rqs
      /\ Forall pass_or_fail outs /\ Forall plain_request rqs)
  /\ (forall create_data update_data patch_data expected_fields (s : State),
      exists res s' outs rqs,
        run_full_crud_test create_data update_data patch_data expected_fields s = (res, s')
        /\ grows s s' outs rqs
        /\ Forall pass_or_fail outs /\ Forall plain_request rqs).
Proof.
  split.
  - intros test_cases s.
    destruct (run_from_ran test_cases 1 s) as (s' & outs & rqs & (Hrun & Hg & Ho & Hq & _) & _).
    exists s', outs, rqs. auto.
  - intros create_data update_data patch_data expected_fields s.
    rewrite run_full_crud_test_steps.
    destruct (lifecycle_steps_trace (or_default create_data default_create_data)
                (or_default update_data default_update_data)
                (or_default patch_data default_patch_data) expected_fields s)
      as (res & s' & outs & rqs & ((Hrun & Hg & Ho & Hq & _) & _) & _).
    exists res, s', outs, rqs. auto.
Qed.


(** ** The scripts *)





(** ** Runs after runs *)

Lemma run_from_app (first second : list (list (string * json))) :
  forall (i : Z) (s : State),
    run_ai_generated_tests_from i (first ++ second) s
    = bind (run_ai_generated_tests_from i first)
        (fun _ => run_ai_generated_tests_from (i + Z.of_nat (List.length first)) second) s.
Proof.
  induction first as [| test_case rest IH]; intros i s.
  - cbn. replace (i + 0) with i by lia. reflexivity.
  - cbn [app run_ai_generated_tests_from List.length].
    replace (i + Z.of_nat (S (List.length rest))) with (i + 1 + Z.of_nat (List.length rest))
      by lia.
    cbn [bind Monad_M].
    destruct (test_request _ _ _ _ None _ s) as [[ret | e] s1]; [| reflexivity].
    rewrite IH. reflexivity.
Qed.

(** X16.  Running one list of test cases is running its first part and then
    the rest with the numbering carried on.  A second call of
    [run_ai_generated_tests] on the same tester, as the results page makes
    for the additional tests, appends to the same log but numbers from 1
    again, so its labels repeat the numbers of the first call. *)
Theorem second_run_restarts_numbering (first second : list (list (string * json)))
    (s : State) :
  run_ai_generated_tests (first ++ second) s
  = bind (run_ai_generated_tests first)
      (fun _ => run_ai_generated_tests_from (1 + Z.of_nat (List.length first)) second) s
  /\ exists s' outs1 outs2,
      bind (run_ai_generated_tests first) (fun _ => run_ai_generated_tests second) s
      = (Ok tt, s')
      /\ results (self s') = (results (self s) ++ outs1 ++ outs2)%list
      /\ map test outs1 = ai_test_names 1 first
      /\ map test outs2 = ai_test_names 1 second.
Proof.
  split; [apply run_from_app |].
  destruct (run_from_ran first 1 s) as (s1 & outs1 & rqs1 & Hran1 & Hnames1).
  destruct (run_from_ran second 1 s1) as (s2 & outs2 & rqs2 & Hran2 & Hnames2).
  destruct (ran_bind _ (fun _ => run_ai_generated_tests second) _ _ _ _ _ _ _ _ _ Hran1 Hran2)
    as (Hrun & (_ & Hres & _) & _).
  exists s2, outs1, outs2. auto.
Qed.

(** ** [test_request] and the five methods *)

Lemma method_of_name (method : json) (m : Method) :
  method_of method = Some m -> method = JStr (method_name m).
Proof.
  unfold method_of, str_eq. destruct method as [| | | | t | |]; try discriminate.
  repeat match goal with
         | |- (if String.eqb t ?x then _ else _) = _ -> _ =>
             destruct (String.eqb_spec t x) as [-> | _];
             [intros H; inversion H; reflexivity |]
         end.
  discriminate.
Qed.

Lemma exchange_same_but_details (s : State) (rq : Request) (name : string)
    matches mismatch1 mismatch2 :
  fst (exchange s rq name (verdict matches mismatch1))
  = fst (exchange s rq name (verdict matches mismatch2))
  /\ same_but_details (snd (exchange s rq name (verdict matches mismatch1)))
       (snd (exchange s rq name (verdict matches mismatch2))).
Proof.
  unfold exchange, verdict, same_but_details, logged, headline.
  destruct (send rq (world s)) as [[r | msg] w1]; [destruct (matches r) |];
    destruct (now w1) as [stamp w2]; cbn; rewrite !map_app; cbn; auto.
Qed.

(** X17.  On a supported method, an endpoint that is a string and an expected
    status that is an int, [test_request] with no label does what the
    method of V1.py for that HTTP method does: the same request (with the
    JSON content type), the same returned value, the same label, status
    and timestamp logged; only the details of an outcome can differ. *)
Theorem test_request_agrees_with_v1_methods (method data : json) (endpoint : string)
    (expected_status : Z) (m : Method) (s : State) :
  method_of method = Some m ->
  let generic :=
    test_request method (JStr endpoint) data (JInt expected_status) None None s in
  let specific := v1_method m endpoint (body_of m data) expected_status s in
  fst generic = fst specific /\ same_but_details (snd generic) (snd specific).
Proof.
  intros Hm generic specific. subst generic specific.
  rewrite (test_request_supported _ _ _ _ None None m s Hm).
  rewrite (method_of_name method m Hm).
  destruct m; cbn [v1_method body_of method_name name_of py_str default_headers int_eq].
  - rewrite test_get_exchange. apply exchange_same_but_details.
  - rewrite test_post_exchange. apply exchange_same_but_details.
  - rewrite test_put_exchange. apply exchange_same_but_details.
  - rewrite test_patch_exchange. apply exchange_same_but_details.
  - rewrite test_delete_exchange. apply exchange_same_but_details.
Qed.

End RunProperties.

(** ** The products server (API's/two.py) *)

Section ProductsProperties.
Import Flask.
Import Products.

Lemma products_get_set (ps : list (Z * list (string * json))) (k k' : Z)
    (p : list (string * json)) :
  products_get k (products_set ps k' p) = if k =? k' then Some p else products_get k ps.
Proof.
  induction ps as [|[k0 p0] ps IH]; cbn.
  - destruct (k =? k'); reflexivity.
  - destruct (k' =? k0) eqn:E0; cbn.
    + destruct (k =? k0) eqn:E1, (k =? k') eqn:E2; try reflexivity; lia.
    + rewrite IH. destruct (k =? k0) eqn:E1, (k =? k') eqn:E2; try reflexivity; lia.
Qed.

Lemma products_get_del (ps : list (Z * list (string * json))) (k k' : Z) :
  products_get k (products_del ps k') = if k =? k' then None else products_get k ps.
Proof.
  unfold products_del.
  induction ps as [|[k0 p0] ps IH]; cbn [filter products_get fst].
  - destruct (k =? k'); reflexivity.
  - destruct (k' =? k0) eqn:E0; cbn [negb products_get].
    + rewrite IH. destruct (k =? k0) eqn:E1, (k =? k') eqn:E2; try reflexivity; lia.
    + rewrite IH. destruct (k =? k0) eqn:E1, (k =? k') eqn:E2; try reflexivity; lia.
Qed.

Lemma dict_get_set (d : list (string * json)) (k k' : string) (v : json) :
  dict_get k (dict_set d k' v) = if String.eqb k k' then Some v else dict_get k d.
Proof.
  induction d as [|[k0 v0] d IH]; cbn.
  - reflexivity.
  - destruct (String.eqb k' k0) eqn:E0; cbn.
    + apply String.eqb_eq in E0. subst k0.
      destruct (String.eqb k k'); reflexivity.
    + rewrite IH. destruct (String.eqb k k') eqn:E1; [|reflexivity].
      apply String.eqb_eq in E1. subst k'. rewrite E0. reflexivity.
Qed.

(** X18.  On a JSON object [validate_product] never raises, and it
    returns no error exactly when name and description are there and
    truthy, stock is there, an int (a bool counts as one) and not below
    0, and price is there, a number (a bool counts, so does NaN) and not
    below 0. *)
Theorem validation_accepts_exactly_valid_objects (d : list (string * json)) :
  exists errors,
    validate_product (JDict d) = Returns errors /\
    (errors = [] <-> valid_product d = true).
Proof.
  unfold validate_product, absent_or_falsy, valid_product, truthy_at, acceptable.
  cbn [py_in py_getitem of_result bind ret Monad_outcome].
  destruct (dict_get "name" d) as [name|]; [destruct (truthy name)|];
  (destruct (dict_get "description" d) as [description|]; [destruct (truthy description)|]);
  (destruct (dict_get "stock" d) as [stock|];
     [destruct (is_int stock); [destruct (negative stock)|]|]);
  (destruct (dict_get "price" d) as [price|];
     [destruct (is_number price); [destruct (negative price)|]|]);
  cbn; eexists; (split; [reflexivity|]); split; intro H; try reflexivity; discriminate H.
Qed.

Lemma distinct_NoDup (ks : list Z) : distinct ks = true <-> NoDup ks.
Proof.
  induction ks as [|k ks IH]; cbn.
  - split; [constructor | reflexivity].
  - rewrite andb_true_iff, negb_true_iff, IH. split.
    + intros [Hk Hks]. constructor; [|exact Hks].
      intro Hin. assert (existsb (Z.eqb k) ks = true) as E; [|congruence].
      apply existsb_exists. exists k. split; [exact Hin | apply Z.eqb_refl].
    + intro H. inversion H as [|? ? Hk Hks]; subst. split; [|exact Hks].
      destruct (existsb (Z.eqb k) ks) eqn:E; [|reflexivity].
      apply existsb_exists in E. destruct E as [k' [Hin Hk']].
      apply Z.eqb_eq in Hk'. subst k'. contradiction.
Qed.

Lemma well_formed_spec (st : store) :
  well_formed st = true <->
  NoDup (map fst (products st)) /\ Forall (product_ok (next_id st)) (products st).
Proof.
  unfold well_formed. rewrite andb_true_iff, distinct_NoDup, forallb_forall, Forall_forall.
  unfold product_ok. split; intros [Hd Hf]; (split; [exact Hd|]); intros kp Hin.
  - specialize (Hf kp Hin). apply andb_true_iff in Hf. destruct Hf as [Hlt Hid].
    split; [lia | exact Hid].
  - destruct (Hf kp Hin) as [Hlt Hid]. apply andb_true_iff. split; [lia | exact Hid].
Qed.

Lemma products_get_None (ps : list (Z * list (string * json))) (k : Z) :
  products_get k ps = None <-> ~ In k (map fst ps).
Proof.
  induction ps as [|[k0 p0] ps IH]; cbn.
  - split; [intros _ [] | reflexivity].
  - destruct (k =? k0) eqn:E.
    + split; [discriminate | intro H; exfalso; apply H; left; lia].
    + rewrite IH. split; [intros H [H0|H0]; [lia | exact (H H0)] | intros H H0; apply H; right; exact H0].
Qed.

Lemma products_set_present (ps : list (Z * list (string * json))) (k : Z)
    (p : list (string * json)) :
  products_get k ps <> None -> map fst (products_set ps k p) = map fst ps.
Proof.
  induction ps as [|[k0 p0] ps IH]; cbn.
  - intro H. contradiction H. reflexivity.
  - destruct (k =? k0) eqn:E; cbn; intro H; [reflexivity|]. rewrite (IH H). reflexivity.
Qed.

Lemma products_set_absent (ps : list (Z * list (string * json))) (k : Z)
    (p : list (string * json)) :
  products_get k ps = None -> products_set ps k p = (ps ++ [(k, p)])%list.
Proof.
  induction ps as [|[k0 p0] ps IH]; cbn.
  - reflexivity.
  - destruct (k =? k0) eqn:E; [discriminate|]. intro H. rewrite (IH H). reflexivity.
Qed.

Lemma Forall_products_set (P : Z * list (string * json) -> Prop)
    (ps : list (Z * list (string * json))) (k : Z) (p : list (string * json)) :
  Forall P ps -> (forall k0, k0 = k -> P (k0, p)) -> Forall P (products_set ps k p).
Proof.
  intros Hps Hp. induction Hps as [|[k0 p0] ps H0 Hps IH]; cbn.
  - constructor; [apply Hp; reflexivity | constructor].
  - destruct (k =? k0) eqn:E.
    + constructor; [apply Hp; lia | exact Hps].
    + constructor; [exact H0 | exact IH].
Qed.

Lemma below_next_id_absent (st : store) :
  Forall (product_ok (next_id st)) (products st) ->
  forall k, next_id st <= k -> products_get k (products st) = None.
Proof.
  intros Hf k Hk. apply products_get_None. intro Hin.
  apply in_map_iff in Hin. destruct Hin as [kp [Hkp Hin]].
  rewrite Forall_forall in Hf. destruct (Hf kp Hin) as [Hlt _]. lia.
Qed.

Lemma dict_set_truthy (d : list (string * json)) (k : string) (v : json) :
  truthy (JDict (dict_set d k v)) = true.
Proof.
  destruct d as [|[k0 v0] d]; cbn; [reflexivity|]. destruct (String.eqb k k0); reflexivity.
Qed.

(** What a call of [create_product] that returns has done. *)
Lemma create_product_inv (data : json) (now : string) (st : store)
    (resp : response) (st' : store) :
  create_product data now st = Returns (resp, st') ->
  (exists name description stock price,
     py_getitem data "name" = Returns name /\
     py_getitem data "description" = Returns description /\
     py_getitem data "stock" = Returns stock /\
     py_getitem data "price" = Returns price /\
     let product :=
       [("id", JInt (next_id st)); ("name", name); ("description", description);
        ("stock", stock); ("price", price); ("created_at", JStr now)] in
     resp = mkResponseOf (JDict product) 201 /\
     st' = mkStore (products_set (products st) (next_id st) product) (next_id st + 1))
  \/ (exists errors, errors <> [] /\ validate_product data = Returns errors /\
        resp = validation_failed errors /\ st' = st).
Proof.
  unfold create_product.
  destruct (validate_product data) as [[|e errors]|]; cbn [bind ret Monad_outcome];
    [| intro H; inversion H; subst; right; eexists; repeat split; discriminate
     | discriminate].
  destruct (py_getitem data "name") as [name|]; [|discriminate].
  destruct (py_getitem data "description") as [description|]; [|discriminate].
  destruct (py_getitem data "stock") as [stock|]; [|discriminate].
  destruct (py_getitem data "price") as [price|]; [|discriminate].
  intro H. inversion H; subst. left. exists name, description, stock, price.
  repeat split.
Qed.

(** What a call of [update_product] that returns has done. *)
Lemma update_product_inv (product_id : Z) (data : json) (now : string) (st : store)
    (resp : response) (st' : store) :
  update_product product_id data now st = Returns (resp, st') ->
  (exists old name description stock price,
     products_get product_id (products st) = Some old /\ old <> [] /\
     py_getitem data "name" = Returns name /\
     py_getitem data "description" = Returns description /\
     py_getitem data "stock" = Returns stock /\
     py_getitem data "price" = Returns price /\
     let product :=
       dict_set (dict_set (dict_set (dict_set (dict_set old "name" name)
         "description" description) "stock" stock) "price" price) "updated_at" (JStr now) in
     resp = mkResponseOf (JDict product) 200 /\
     st' = mkStore (products_set (products st) product_id product) (next_id st))
  \/ (exists errors, errors <> [] /\ validate_product data = Returns errors /\
        resp = validation_failed errors /\ st' = st)
  \/ (resp = not_found /\ st' = st).
Proof.
  unfold update_product.
  destruct (products_get product_id (products st)) as [old|];
    [| intro H; inversion H; subst; right; right; split; reflexivity].
  destruct old as [|kv old];
    [intro H; inversion H; subst; right; right; split; reflexivity|].
  cbn [truthy negb].
  destruct (validate_product data) as [[|e errors]|]; cbn [bind ret Monad_outcome];
    [| intro H; inversion H; subst; right; left; eexists; repeat split; discriminate
     | discriminate].
  destruct (py_getitem data "name") as [name|]; [|discriminate].
  destruct (py_getitem data "description") as [description|]; [|discriminate].
  destruct (py_getitem data "stock") as [stock|]; [|discriminate].
  destruct (py_getitem data "price") as [price|]; [|discriminate].
  intro H. inversion H; subst. left. exists (kv :: old), name, description, stock, price.
  repeat split. discriminate.
Qed.

(** What [delete_product] does. *)
Lemma delete_product_inv (product_id : Z) (st : store) :
  (exists old, products_get product_id (products st) = Some old /\ old <> [] /\
     delete_product product_id st =
       (mkResponseOf (JDict [("message", JStr "Product deleted successfully")]) 200,
        mkStore (products_del (products st) product_id) (next_id st)))
  \/ delete_product product_id st = (not_found, st).
Proof.
  unfold delete_product.
  destruct (products_get product_id (products st)) as [[|kv old]|]; cbn [truthy negb].
  - right. reflexivity.
  - left. eexists. repeat split. discriminate.
  - right. reflexivity.
Qed.

Lemma filed_under_set (k : Z) (p : list (string * json)) (key : string) (v : json) :
  String.eqb "id" key = false ->
  filed_under k (dict_set p key v) = filed_under k p.
Proof.
  intro H. unfold filed_under. rewrite dict_get_set, H. reflexivity.
Qed.

Lemma NoDup_filter_map (ps : list (Z * list (string * json)))
    (f : Z * list (string * json) -> bool) :
  NoDup (map fst ps) -> NoDup (map fst (filter f ps)).
Proof.
  induction ps as [|kp ps IH]; cbn; intro H; [constructor|].
  inversion H as [|? ? Hk Hps]; subst.
  destruct (f kp); cbn; [|apply IH; exact Hps].
  constructor; [|apply IH; exact Hps].
  intro Hin. apply Hk. apply in_map_iff in Hin. destruct Hin as [x [Hx Hin]].
  apply filter_In in Hin. apply in_map_iff. exists x. split; [exact Hx | apply Hin].
Qed.

Lemma serve_well_formed (st : store) (rq : product_request) :
  well_formed st = true -> well_formed (serve st rq) = true.
Proof.
  intro H. pose proof H as H0. apply well_formed_spec in H0. destruct H0 as [Hd Hf].
  destruct rq as [data now| |product_id|product_id data now|product_id]; cbn [serve];
    try exact H.
  - destruct (create_product data now st) as [[resp st']|] eqn:E; [|exact H].
    apply create_product_inv in E.
    destruct E as [(name & description & stock & price & _ & _ & _ & _ & _ & Hst)
                  |(errors & _ & _ & _ & Hst)]; [|subst st'; exact H].
    cbv zeta in Hst. subst st'. apply well_formed_spec. cbn [products next_id].
    pose proof (below_next_id_absent st Hf (next_id st) (Z.le_refl _)) as Habs.
    split.
    + rewrite (products_set_absent _ _ _ Habs), map_app. cbn [map fst].
      apply products_get_None in Habs.
      clear - Hd Habs. induction (map fst (products st)) as [|k ks IH]; cbn.
      * constructor; [intros [] | constructor].
      * inversion Hd as [|? ? Hk Hks]; subst. constructor.
        -- rewrite in_app_iff. intros [Hin|[Hin|[]]]; [exact (Hk Hin)|].
           apply Habs. left. symmetry. exact Hin.
        -- apply IH; [exact Hks | intro Hin; apply Habs; right; exact Hin].
    + apply Forall_products_set.
      * eapply Forall_impl; [|exact Hf]. intros kp [Hlt Hid]. split; [lia | exact Hid].
      * intros k0 Hk0. subst k0. split; cbn [fst snd]; [lia|].
        unfold filed_under. cbn. apply Z.eqb_refl.
  - destruct (update_product product_id data now st) as [[resp st']|] eqn:E; [|exact H].
    apply update_product_inv in E.
    destruct E as [(old & name & description & stock & price & Hold & _ & _ & _ & _ & _ & _ & Hst)
                  |[(errors & _ & _ & _ & Hst)|[_ Hst]]]; try (subst st'; exact H).
    cbv zeta in Hst. subst st'. apply well_formed_spec. cbn [products next_id].
    split.
    + rewrite products_set_present; [exact Hd | congruence].
    + apply Forall_products_set; [exact Hf|].
      intros k0 Hk0. subst k0.
      assert (In (product_id, old) (products st)) as Hin.
      { clear - Hold. induction (products st) as [|[k p] ps IH]; cbn in *; [discriminate|].
        destruct (product_id =? k) eqn:E.
        - left. inversion Hold. f_equal. lia.
        - right. apply IH. exact Hold. }
      rewrite Forall_forall in Hf. destruct (Hf _ Hin) as [Hlt Hid].
      unfold product_ok in *. cbn [fst snd] in *.
      split; [exact Hlt|]. rewrite !filed_under_set by reflexivity. exact Hid.
  - destruct (delete_product_inv product_id st) as [(old & _ & _ & E)|E]; rewrite E;
      cbn [snd]; [|exact H].
    apply well_formed_spec. cbn [products next_id]. unfold products_del. split.
    + apply NoDup_filter_map. exact Hd.
    + rewrite Forall_forall in *. intros kp Hin. apply filter_In in Hin. apply Hf, Hin.
Qed.

Lemma serve_all_well_formed (rqs : list product_request) (st : store) :
  well_formed st = true -> well_formed (serve_all rqs st) = true.
Proof.
  unfold serve_all. revert st. induction rqs as [|rq rqs IH]; intros st H; cbn.
  - exact H.
  - apply IH, serve_well_formed, H.
Qed.

Lemma products_get_In (ps : list (Z * list (string * json))) (k : Z)
    (p : list (string * json)) :
  products_get k ps = Some p -> In (k, p) ps.
Proof.
  induction ps as [|[k0 p0] ps IH]; cbn; [discriminate|].
  destruct (k =? k0) eqn:E; intro H.
  - left. inversion H. f_equal. lia.
  - right. apply IH, H.
Qed.

(** X19.  Whatever requests the products server has answered since it
    started, its store is well formed: the ids in use are distinct and
    below [next_id], every product that GET /products/<id> serves carries
    that very id, and the id the next create will use is free. *)
Theorem products_store_always_well_formed (rqs : list product_request) :
  let st := serve_all rqs empty in
  well_formed st = true /\
  (forall product_id, code (get_product product_id st) = 200 ->
     exists product, body (get_product product_id st) = JDict product /\
                     dict_get "id" product = Some (JInt product_id)) /\
  get_product (next_id st) st = not_found.
Proof.
  intro st. assert (well_formed st = true) as H by (apply serve_all_well_formed; reflexivity).
  split; [exact H|]. apply well_formed_spec in H. destruct H as [_ Hf]. split.
  - intros product_id. unfold get_product.
    destruct (products_get product_id (products st)) as [[|kv p]|] eqn:E; cbn;
      try discriminate.
    intros _. eexists. split; [reflexivity|].
    apply products_get_In in E. rewrite Forall_forall in Hf.
    destruct (Hf _ E) as [_ Hid]. unfold filed_under in Hid. cbn [fst snd] in Hid.
    destruct (dict_get "id" (kv :: p)) as [[]|]; try discriminate.
    f_equal. f_equal. lia.
  - unfold get_product.
    rewrite (below_next_id_absent st Hf (next_id st) (Z.le_refl _)). reflexivity.
Qed.

(** X20.  A create that returns either answers 400 and leaves the store
    alone, or answers 201 with a product that has the id [next_id], the
    four fields of the request and the creation time; that product is
    then served under its id, [next_id] has moved on by one, and every
    other id is served as before. *)
Theorem created_product_is_served (data : json) (now : string) (st : store)
    (resp : response) (st' : store) :
  create_product data now st = Returns (resp, st') ->
  (code resp = 201 /\
   (exists product,
      body resp = JDict product /\
      dict_get "id" product = Some (JInt (next_id st)) /\
      dict_get "created_at" product = Some (JStr now) /\
      Forall (fun key => py_getitem (JDict product) key = py_getitem data key)
        ["name"; "description"; "stock"; "price"]) /\
   get_product (next_id st) st' = mkResponseOf (body resp) 200 /\
   next_id st' = next_id st + 1 /\
   forall other, other <> next_id st -> get_product other st' = get_product other st)
  \/ (code resp = 400 /\ st' = st).
Proof.
  intro H. apply create_product_inv in H.
  destruct H as [(name & description & stock & price & Hn & Hd & Hs & Hp & Hresp & Hst)
                |(errors & _ & _ & Hresp & Hst)];
    [left | right; subst; split; reflexivity].
  cbv zeta in Hresp, Hst. subst resp st'. cbn [code body next_id products].
  split; [reflexivity|]. split.
  - eexists. split; [reflexivity|]. split; [reflexivity|]. split; [reflexivity|].
    repeat constructor; cbv beta;
      first [rewrite Hn | rewrite Hd | rewrite Hs | rewrite Hp]; reflexivity.
  - split; [|split; [reflexivity|]].
    + unfold get_product. cbn [products]. rewrite products_get_set, Z.eqb_refl. reflexivity.
    + intros other Hother. unfold get_product. cbn [products].
      rewrite products_get_set. destruct (other =? next_id st) eqn:E; [lia | reflexivity].
Qed.

(** X21.  An update that returns either answers 404 or 400 and leaves
    the store alone, or answers 200 with the stored product changed in
    exactly this way: name, description, stock and price are the
    request's, [updated_at] is the time of the update, and every other
    field, [id] and [created_at] among them, is as it was.  The result is
    what the id then serves; other ids and [next_id] are untouched. *)
Theorem update_replaces_the_four_fields_only (product_id : Z) (data : json) (now : string)
    (st : store) (resp : response) (st' : store) :
  update_product product_id data now st = Returns (resp, st') ->
  (code resp = 200 /\
   (exists old new,
      products_get product_id (products st) = Some old /\
      body resp = JDict new /\
      Forall (fun key => py_getitem (JDict new) key = py_getitem data key)
        ["name"; "description"; "stock"; "price"] /\
      dict_get "updated_at" new = Some (JStr now) /\
      forall key, ~ In key ["name"; "description"; "stock"; "price"; "updated_at"] ->
                  dict_get key new = dict_get key old) /\
   get_product product_id st' = resp /\
   next_id st' = next_id st /\
   forall other, other <> product_id -> get_product other st' = get_product other st)
  \/ ((code resp = 400 \/ code resp = 404) /\ st' = st).
Proof.
  intro H. apply update_product_inv in H.
  destruct H as [(old & name & description & stock & price & Hold & Hne & Hn & Hd & Hs & Hp
                   & Hresp & Hst)
                |[(errors & _ & _ & Hresp & Hst)|[Hresp Hst]]];
    [left
    | right; subst; split; [left|]; reflexivity
    | right; subst; split; [right|]; reflexivity].
  cbv zeta in Hresp, Hst. subst resp st'. cbn [code body next_id products].
  split; [reflexivity|]. split.
  - eexists old, _. split; [exact Hold|]. split; [reflexivity|]. split; [|split].
    + repeat constructor; cbv beta;
        first [rewrite Hn | rewrite Hd | rewrite Hs | rewrite Hp];
        unfold py_getitem; rewrite !dict_get_set; reflexivity.
    + rewrite !dict_get_set. reflexivity.
    + intros key Hkey. rewrite !dict_get_set.
      destruct (String.eqb key "updated_at") eqn:E1;
        [apply String.eqb_eq in E1; subst; exfalso; apply Hkey; cbn; tauto|].
      destruct (String.eqb key "price") eqn:E2;
        [apply String.eqb_eq in E2; subst; exfalso; apply Hkey; cbn; tauto|].
      destruct (String.eqb key "stock") eqn:E3;
        [apply String.eqb_eq in E3; subst; exfalso; apply Hkey; cbn; tauto|].
      destruct (String.eqb key "description") eqn:E4;
        [apply String.eqb_eq in E4; subst; exfalso; apply Hkey; cbn; tauto|].
      destruct (String.eqb key "name") eqn:E5;
        [apply String.eqb_eq in E5; subst; exfalso; apply Hkey; cbn; tauto|].
      reflexivity.
  - split; [|split; [reflexivity|]].
    + unfold get_product. cbn [products].
      rewrite products_get_set, Z.eqb_refl, dict_set_truthy. reflexivity.
    + intros other Hother. unfold get_product. cbn [products].
      rewrite products_get_set. destruct (other =? product_id) eqn:E; [lia | reflexivity].
Qed.

(** The id is below [next_id] and not in use. *)
Lemma gone_serve (product_id : Z) (st : store) (rq : product_request) :
  product_id < next_id st -> products_get product_id (products st) = None ->
  product_id < next_id (serve st rq) /\
  products_get product_id (products (serve st rq)) = None.
Proof.
  intros Hlt Hnone.
  destruct rq as [data now| |other|other data now|other]; cbn [serve];
    try (split; assumption).
  - destruct (create_product data now st) as [[resp st']|] eqn:E; [|split; assumption].
    apply create_product_inv in E.
    destruct E as [(name & description & stock & price & _ & _ & _ & _ & _ & Hst)
                  |(errors & _ & _ & _ & Hst)]; [|subst st'; split; assumption].
    cbv zeta in Hst. subst st'. cbn [products next_id]. split; [lia|].
    rewrite products_get_set. destruct (product_id =? next_id st) eqn:E; [lia | exact Hnone].
  - destruct (update_product other data now st) as [[resp st']|] eqn:E; [|split; assumption].
    apply update_product_inv in E.
    destruct E as [(old & name & description & stock & price & Hold & _ & _ & _ & _ & _ & _ & Hst)
                  |[(errors & _ & _ & _ & Hst)|[_ Hst]]]; try (subst st'; split; assumption).
    cbv zeta in Hst. subst st'. cbn [products next_id]. split; [exact Hlt|].
    rewrite products_get_set. destruct (product_id =? other) eqn:E; [|exact Hnone].
    assert (product_id = other) by lia. subst other. congruence.
  - destruct (delete_product_inv other st) as [(old & _ & _ & E)|E]; rewrite E; cbn [snd];
      [|split; assumption].
    cbn [products next_id]. split; [exact Hlt|].
    rewrite products_get_del. destruct (product_id =? other); [reflexivity | exact Hnone].
Qed.

(** X22.  A product id that has been deleted is never handed out
    again: after a delete answered 200, whatever requests follow, GET,
    PUT and DELETE on that id answer 404. *)
Theorem deleted_product_never_comes_back (product_id : Z) (st : store)
    (rqs : list product_request) :
  well_formed st = true ->
  code (fst (delete_product product_id st)) = 200 ->
  let st' := serve_all rqs (snd (delete_product product_id st)) in
  get_product product_id st' = not_found /\
  delete_product product_id st' = (not_found, st') /\
  forall data now, update_product product_id data now st' = Returns (not_found, st').
Proof.
  intros Hwf H200 st'.
  assert (product_id < next_id st' /\ products_get product_id (products st') = None) as [_ Hnone].
  { subst st'. unfold serve_all.
    assert (product_id < next_id (snd (delete_product product_id st)) /\
            products_get product_id (products (snd (delete_product product_id st))) = None)
      as Hstart.
    { destruct (delete_product_inv product_id st) as [(old & Hold & _ & E)|E];
        rewrite E in *; cbn [fst snd code not_found] in *; [|discriminate].
      cbn [products next_id]. split.
      - apply well_formed_spec in Hwf. destruct Hwf as [_ Hf].
        apply products_get_In in Hold. rewrite Forall_forall in Hf.
        destruct (Hf _ Hold) as [Hlt _]. exact Hlt.
      - rewrite products_get_del, Z.eqb_refl. reflexivity. }
    revert Hstart. generalize (snd (delete_product product_id st)).
    induction rqs as [|rq rqs IH]; intros s Hs; cbn [fold_left]; [exact Hs|].
    apply IH. destruct Hs as [Hlt Hn]. apply gone_serve; assumption. }
  unfold get_product, delete_product, update_product. rewrite Hnone.
  repeat split.
Qed.

(** X23.  The body of a create or an update is validated as the JSON
    object it is taken to be: when it is [null], a bool or a number the
    check ['name' not in data] raises [TypeError], so the view raises
    instead of answering 400, and the store is left as it was.  An update
    looks up the id first: for an id not in use it answers 404 whatever
    the body is. *)
Theorem scalar_body_is_not_answered_400 (data : json) (now : string) (product_id : Z)
    (st : store) :
  scalar data = true ->
  create_product data now st = Uncaught (Builtin TypeError) /\
  update_product product_id data now st =
    (if Z.eqb (code (get_product product_id st)) 200
     then Uncaught (Builtin TypeError)
     else Returns (not_found, st)).
Proof.
  intro H. unfold create_product, update_product, get_product.
  assert (validate_product data = Uncaught (Builtin TypeError)) as E
    by (destruct data; try discriminate H; reflexivity).
  rewrite E. split; [reflexivity|].
  destruct (products_get product_id (products st)) as [[|kv p]|]; reflexivity.
Qed.

End ProductsProperties.

(** ** The employees server (API's/one.py) *)

Section EmployeesProperties.
Import Flask.
Import Employees.

Lemma all_keys_in_container (keys : list string) (data : json) :
  scalar data = false -> exists b, all_keys_in keys data = Ok b.
Proof.
  intro H. induction keys as [|key rest IH]; [exists true; reflexivity|].
  cbn [all_keys_in]. destruct data; try discriminate H;
    cbn [py_in bind ret Monad_result];
    match goal with |- context [if ?c then _ else _] => destruct c end;
    first [exact IH | exists false; reflexivity].
Qed.

(** What [add_employee] does, by the kind of body. *)
Lemma add_employee_cases (data : json) (employees : store) :
  match add_employee data employees with
  | Returns (resp, employees') =>
      (code resp = 400 /\ employees' = employees) \/
      (exists d name place email designation description,
         data = JDict d /\
         dict_get "name" d = Some name /\ dict_get "place" d = Some place /\
         dict_get "email" d = Some email /\ dict_get "designation" d = Some designation /\
         dict_get "description" d = Some description /\
         let new_employee :=
           [("id", JInt (Z.of_nat (List.length employees) + 1));
            ("name", name); ("place", place); ("email", email);
            ("designation", designation); ("description", description);
            ("department", dict_get_default d "department" (JStr "General"));
            ("phone", dict_get_default d "phone" (JStr "N/A"))] in
         resp = mkResponseOf (JDict new_employee) 201 /\
         employees' = (employees ++ [new_employee])%list)
  | Uncaught e => e = Builtin TypeError /\ forall d, data <> JDict d
  end.
Proof.
  unfold add_employee.
  destruct (scalar data) eqn:Hs.
  - destruct data; try discriminate Hs; (split; [reflexivity | discriminate]).
  - destruct (all_keys_in_container required_fields data Hs) as [b Hb].
    destruct data; try discriminate Hs.
    + rewrite Hb. destruct b; cbn;
        [split; [reflexivity | discriminate] | left; split; reflexivity].
    + rewrite Hb. destruct b; cbn;
        [split; [reflexivity | discriminate] | left; split; reflexivity].
    + clear Hb. rewrite all_keys_in_dict.
      cbn [forallb required_fields of_result bind ret Monad_outcome py_getitem py_get].
      destruct (dict_get "name" d) as [name|] eqn:En; [|cbn; left; split; reflexivity].
      destruct (dict_get "place" d) as [place|] eqn:Ep; [|cbn; left; split; reflexivity].
      destruct (dict_get "email" d) as [email|] eqn:Ee; [|cbn; left; split; reflexivity].
      destruct (dict_get "designation" d) as [designation|] eqn:Eg; [|cbn; left; split; reflexivity].
      destruct (dict_get "description" d) as [description|] eqn:Ed; [|cbn; left; split; reflexivity].
      cbn [andb negb dict_get_default]. right.
      exists d, name, place, email, designation, description.
      cbv zeta. unfold dict_get_default. repeat split; first [assumption | reflexivity].
Qed.

Lemma py_getitem_id (emp : list (string * json)) :
  dict_has emp "id" = true ->
  exists v, py_getitem (JDict emp) "id" = Returns v /\ dict_get "id" emp = Some v.
Proof.
  unfold dict_has, py_getitem. destruct (dict_get "id" emp) as [v|]; [|discriminate].
  intros _. exists v. split; reflexivity.
Qed.

(** The search, on a store where every employee has an id. *)
Lemma find_from_spec (at_ : nat) (emp_id : Z) (employees : store) :
  has_ids employees = true ->
  (find_from at_ emp_id employees = Returns None /\
   filter (fun emp => negb (has_id emp_id emp)) employees = employees) \/
  (exists i emp, find_from at_ emp_id employees = Returns (Some ((at_ + i)%nat, emp)) /\
                 nth_error employees i = Some emp /\ has_id emp_id emp = true).
Proof.
  revert at_. induction employees as [|e rest IH]; intros at_ H.
  - left. split; reflexivity.
  - cbn [has_ids forallb] in H. apply andb_true_iff in H. destruct H as [He Hrest].
    destruct (py_getitem_id e He) as [v [Hv Hget]].
    assert (has_id emp_id e = int_eq emp_id v) as Hh
      by (unfold has_id; rewrite Hget; reflexivity).
    cbn [find_from filter]. rewrite Hv, Hh. cbn [bind Monad_outcome].
    destruct (int_eq emp_id v) eqn:E.
    + right. exists 0%nat, e. rewrite Nat.add_0_r. repeat split. exact Hh.
    + cbn [negb]. destruct (IH (S at_) Hrest) as [[Hf Hfilter]|(i & emp & Hf & Hnth & Hid)].
      * left. split; [exact Hf|]. unfold has_ids in Hfilter. rewrite Hfilter. reflexivity.
      * right. exists (S i), emp. rewrite Nat.add_succ_r. repeat split; assumption.
Qed.

Lemma without_spec (emp_id : Z) (employees : store) :
  has_ids employees = true ->
  without emp_id employees = Returns (filter (fun emp => negb (has_id emp_id emp)) employees).
Proof.
  induction employees as [|e rest IH]; intro H; [reflexivity|].
  cbn [has_ids forallb] in H. apply andb_true_iff in H. destruct H as [He Hrest].
  destruct (py_getitem_id e He) as [v [Hv Hget]].
  assert (has_id emp_id e = int_eq emp_id v) as Hh
    by (unfold has_id; rewrite Hget; reflexivity).
  cbn [without filter]. rewrite Hv, (IH Hrest), Hh. cbn [bind ret Monad_outcome].
  destruct (int_eq emp_id v); reflexivity.
Qed.

Lemma has_ids_filter (f : list (string * json) -> bool) (employees : store) :
  has_ids employees = true -> has_ids (filter f employees) = true.
Proof.
  unfold has_ids. rewrite !forallb_forall. intros H e Hin.
  apply filter_In in Hin. apply H, Hin.
Qed.

Lemma filter_twice (f : list (string * json) -> bool) (employees : store) :
  filter f (filter f employees) = filter f employees.
Proof.
  induction employees as [|e rest IH]; [reflexivity|]. cbn.
  destruct (f e) eqn:E; cbn; [rewrite E, IH; reflexivity | exact IH].
Qed.

Lemma find_from_filtered (at_ : nat) (emp_id : Z) (employees : store) :
  has_ids employees = true ->
  find_from at_ emp_id (filter (fun emp => negb (has_id emp_id emp)) employees)
  = Returns None.
Proof.
  intro H.
  destruct (find_from_spec at_ emp_id _ (has_ids_filter (fun emp => negb (has_id emp_id emp)) _ H))
    as [[Hf _]|(i & emp & _ & Hnth & Hid)]; [exact Hf|].
  apply nth_error_In, filter_In in Hnth. destruct Hnth as [_ Hn].
  rewrite Hid in Hn. discriminate Hn.
Qed.

Lemma dict_has_keys (d d' : list (string * json)) (k : string) :
  map fst d = map fst d' -> dict_has d k = dict_has d' k.
Proof.
  unfold dict_has. revert d'. induction d as [|[k0 v0] d IH]; intros [|[k1 v1] d'] H;
    try discriminate H; [reflexivity|].
  cbn in H. inversion H; subst. cbn. destruct (String.eqb k k1); [reflexivity|].
  apply IH. assumption.
Qed.

Lemma dict_set_keys (d : list (string * json)) (k : string) (v : json) :
  dict_has d k = true -> map fst (dict_set d k v) = map fst d.
Proof.
  unfold dict_has. induction d as [|[k0 v0] d IH]; cbn; [discriminate|].
  destruct (String.eqb k k0) eqn:E; cbn; intro H; [reflexivity|].
  rewrite (IH H). reflexivity.
Qed.

Lemma overwrite_keys (items emp : list (string * json)) :
  map fst (overwrite emp items) = map fst emp.
Proof.
  unfold overwrite. revert emp. induction items as [|[k v] items IH]; intro emp; cbn;
    [reflexivity|].
  rewrite IH. destruct (dict_has emp k) eqn:E; [apply dict_set_keys, E | reflexivity].
Qed.

(** The loop of [update_employee] over the items of the body. *)
Lemma overwrite_items_from (d : list (string * json)) (seen : list string)
    (emp : list (string * json)) (k : string) :
  dict_get k (overwrite emp (items_from seen d)) =
  match dict_get k emp with
  | Some v => Some (if existsb (String.eqb k) seen then v else dict_get_default d k v)
  | None => None
  end.
Proof.
  revert seen emp. induction d as [|[k0 v0] d IH]; intros seen emp.
  - cbn. destruct (dict_get k emp); [|reflexivity].
    destruct (existsb (String.eqb k) seen); reflexivity.
  - cbn [items_from]. destruct (existsb (String.eqb k0) seen) eqn:Eseen.
    + rewrite IH. destruct (dict_get k emp) as [v|]; [|reflexivity].
      destruct (existsb (String.eqb k) seen) eqn:Ek; [reflexivity|].
      unfold dict_get_default. cbn [dict_get].
      destruct (String.eqb k k0) eqn:E; [|reflexivity].
      apply String.eqb_eq in E. subst k0. congruence.
    + unfold overwrite. cbn [fold_left fst snd]. fold (overwrite
        (if dict_has emp k0 then dict_set emp k0 v0 else emp) (items_from (k0 :: seen) d)).
      rewrite IH. cbn [existsb]. unfold dict_get_default at 2. cbn [dict_get].
      destruct (String.eqb k k0) eqn:E.
      * apply String.eqb_eq in E. subst k0. cbn [orb]. rewrite Eseen.
        unfold dict_has. destruct (dict_get k emp) as [v|] eqn:Eget.
        -- rewrite dict_get_set, String.eqb_refl. reflexivity.
        -- rewrite Eget. reflexivity.
      * cbn [orb].
        assert (dict_get k (if dict_has emp k0 then dict_set emp k0 v0 else emp)
                = dict_get k emp) as ->.
        { destruct (dict_has emp k0); [|reflexivity].
          rewrite dict_get_set, E. reflexivity. }
        reflexivity.
Qed.

Lemma put_at_spec (employees : store) (i : nat) (old new : list (string * json)) :
  nth_error employees i = Some old ->
  List.length (put_at i new employees) = List.length employees /\
  nth_error (put_at i new employees) i = Some new /\
  forall j, j <> i -> nth_error (put_at i new employees) j = nth_error employees j.
Proof.
  revert i. induction employees as [|e rest IH]; intros [|i] H; try discriminate H.
  - cbn. repeat split. intros [|j] Hj; [contradiction Hj; reflexivity | reflexivity].
  - cbn in H. destruct (IH i H) as (Hlen & Hnth & Hother). cbn [put_at].
    split; [cbn; rewrite Hlen; reflexivity|]. split; [exact Hnth|].
    intros [|j] Hj; [reflexivity|]. cbn. apply Hother. intro. apply Hj. subst; reflexivity.
Qed.

Lemma has_ids_put_at (employees : store) (i : nat) (new : list (string * json)) :
  has_ids employees = true -> dict_has new "id" = true ->
  has_ids (put_at i new employees) = true.
Proof.
  revert i. induction employees as [|e rest IH]; intros i H Hnew;
    [destruct i; reflexivity|].
  cbn [has_ids forallb] in H. apply andb_true_iff in H. destruct H as [He Hrest].
  destruct i as [|i]; cbn [put_at has_ids forallb]; apply andb_true_iff; split;
    try assumption.
  - apply IH; assumption.
Qed.

Lemma has_ids_nth (employees : store) (i : nat) (emp : list (string * json)) :
  has_ids employees = true -> nth_error employees i = Some emp -> dict_has emp "id" = true.
Proof.
  unfold has_ids. rewrite forallb_forall. intros H Hnth. apply H.
  apply nth_error_In in Hnth. exact Hnth.
Qed.

Lemma dict_has_truthy (emp : list (string * json)) (k : string) :
  dict_has emp k = true -> truthy (JDict emp) = true.
Proof.
  destruct emp; [discriminate | reflexivity].
Qed.

Lemma has_id_has (emp_id : Z) (emp : list (string * json)) :
  has_id emp_id emp = true -> dict_has emp "id" = true.
Proof.
  unfold has_id, dict_has. destruct (dict_get "id" emp); [reflexivity | discriminate].
Qed.

(** What a search that finds an employee has found. *)
Lemma find_from_some (at_ : nat) (emp_id : Z) (employees : store) (i : nat)
    (emp : list (string * json)) :
  find_from at_ emp_id employees = Returns (Some (i, emp)) ->
  truthy (JDict emp) = true /\
  exists j, i = (at_ + j)%nat /\ nth_error employees j = Some emp.
Proof.
  revert at_. induction employees as [|e rest IH]; intros at_ H; [discriminate H|].
  cbn [find_from] in H. unfold py_getitem in H.
  destruct (dict_get "id" e) as [v|] eqn:Hget; [|discriminate H].
  cbn [bind Monad_outcome] in H. destruct (int_eq emp_id v).
  - inversion H; subst. split; [destruct emp; [discriminate Hget | reflexivity]|].
    exists 0%nat. split; [lia | reflexivity].
  - destruct (IH _ H) as [Ht [j [Hi Hnth]]]. split; [exact Ht|].
    exists (S j). split; [lia | exact Hnth].
Qed.

Lemma find_from_app (at_ : nat) (emp_id : Z) (employees later : store)
    (found : nat * list (string * json)) :
  find_from at_ emp_id employees = Returns (Some found) ->
  find_from at_ emp_id (employees ++ later)%list = Returns (Some found).
Proof.
  revert at_. induction employees as [|e rest IH]; intros at_ H; [discriminate H|].
  cbn [find_from app] in *. destruct (py_getitem (JDict e) "id") as [v|]; [|discriminate H].
  cbn [bind Monad_outcome] in *. destruct (int_eq emp_id v); [exact H | apply IH, H].
Qed.

Lemma has_ids_app (employees later : store) :
  has_ids (employees ++ later)%list = has_ids employees && has_ids later.
Proof.
  apply forallb_app.
Qed.

(** X24.  On a store where every employee has an id, as every store the
    views build has, reading and deleting always answer; adding raises
    nothing but [TypeError] and updating nothing but [AttributeError],
    both on a body that is no JSON object; in particular no view raises
    [KeyError], and each leaves every employee with an id. *)
Theorem employee_views_fail_only_on_the_body (emp_id : Z) (employees : store) :
  has_ids employees = true ->
  (exists resp, get_employee emp_id employees = Returns resp) /\
  (exists resp employees',
     delete_employee emp_id employees = Returns (resp, employees') /\
     has_ids employees' = true) /\
  (forall data,
     match add_employee data employees with
     | Returns (_, employees') => has_ids employees' = true
     | Uncaught e => e = Builtin TypeError /\ forall d, data <> JDict d
     end) /\
  (forall data,
     match update_employee emp_id data employees with
     | Returns (_, employees') => has_ids employees' = true
     | Uncaught e => e = Builtin AttributeError /\ forall d, data <> JDict d
     end).
Proof.
  intro H. split; [|split; [|split]].
  - unfold get_employee, find_employee.
    destruct (find_from_spec 0 emp_id employees H) as [[Hf _]|(i & emp & Hf & Hnth & Hid)];
      rewrite Hf; cbn [bind ret Monad_outcome]; [eexists; reflexivity|].
    destruct (truthy (JDict emp)); eexists; reflexivity.
  - unfold delete_employee. rewrite (without_spec emp_id employees H).
    cbn [bind ret Monad_outcome]. eexists _, _. split; [reflexivity|].
    apply has_ids_filter, H.
  - intro data. pose proof (add_employee_cases data employees) as Hc.
    destruct (add_employee data employees) as [[resp employees']|e].
    + destruct Hc as [[_ ->]|(d & name & place & email & designation & description & _ & _ & _
                              & _ & _ & _ & _ & ->)]; [exact H|].
      rewrite has_ids_app, H. reflexivity.
    + exact Hc.
  - intro data. unfold update_employee, find_employee.
    destruct (find_from_spec 0 emp_id employees H) as [[Hf _]|(i & emp & Hf & Hnth & Hid)];
      rewrite Hf; cbn [bind ret Monad_outcome]; [exact H|].
    rewrite (dict_has_truthy emp "id" (has_id_has _ _ Hid)).
    destruct data; cbn [py_items bind ret Monad_outcome];
      try (split; [reflexivity | discriminate]).
    apply has_ids_put_at; [exact H|].
    rewrite (dict_has_keys _ emp "id" (overwrite_keys _ _)). apply has_id_has in Hid. exact Hid.
Qed.

(** X25.  A new employee gets the id [len(employees) + 1], whether or
    not that id is in use.  When it is in use (after a delete it can be),
    the add still answers 201 and appends the new employee, but the id
    keeps finding the employee that had it, who comes earlier in the
    list: GET by id does not reach the new one. *)
Theorem new_employee_can_be_shadowed (data : json) (employees : store)
    (resp : response) (employees' : store) (at_ : nat) (old : list (string * json)) :
  let new_id := Z.of_nat (List.length employees) + 1 in
  find_employee new_id employees = Returns (Some (at_, old)) ->
  add_employee data employees = Returns (resp, employees') ->
  code resp = 201 ->
  (exists new,
     body resp = JDict new /\ dict_get "id" new = Some (JInt new_id) /\
     employees' = (employees ++ [new])%list) /\
  find_employee new_id employees' = Returns (Some (at_, old)) /\
  (at_ < List.length employees)%nat /\
  get_employee new_id employees' = Returns (mkResponseOf (JDict old) 200).
Proof.
  intros new_id Hfind Hadd H201.
  pose proof (add_employee_cases data employees) as Hc. rewrite Hadd in Hc.
  destruct Hc as [[H400 _]|(d & name & place & email & designation & description & _ & _ & _
                           & _ & _ & _ & Hresp & Hst)]; [rewrite H400 in H201; discriminate|].
  cbv zeta in Hresp, Hst. subst resp employees'. cbn [body].
  unfold find_employee in *.
  destruct (find_from_some _ _ _ _ _ Hfind) as [Htruthy [j [Hj Hnth]]].
  split; [|split; [|split]].
  - eexists. split; [reflexivity|]. split; reflexivity.
  - apply find_from_app, Hfind.
  - cbn in Hj. subst j. apply nth_error_Some. congruence.
  - unfold get_employee, find_employee.
    rewrite (find_from_app _ _ _ _ _ Hfind). cbn [bind ret Monad_outcome].
    rewrite Htruthy. reflexivity.
Qed.

(** X26.  On a store where every employee has an id, a delete answers
    200 whether or not an employee has the id (there is no 404); it
    removes every employee with the id and no other, so that the id is
    not found afterwards, a second delete changes nothing, and a delete of
    an id no employee has leaves the list as it was. *)
Theorem delete_employee_always_answers_200 (emp_id : Z) (employees : store) :
  has_ids employees = true ->
  exists resp employees',
    delete_employee emp_id employees = Returns (resp, employees') /\
    code resp = 200 /\
    employees' = filter (fun emp => negb (has_id emp_id emp)) employees /\
    get_employee emp_id employees' = Returns not_found /\
    delete_employee emp_id employees' = Returns (resp, employees') /\
    (find_employee emp_id employees = Returns None -> employees' = employees).
Proof.
  intro H. unfold delete_employee. rewrite (without_spec emp_id employees H).
  cbn [bind ret Monad_outcome]. eexists _, _. split; [reflexivity|].
  split; [reflexivity|]. split; [reflexivity|]. split; [|split].
  - unfold get_employee, find_employee. rewrite (find_from_filtered 0 emp_id employees H).
    reflexivity.
  - rewrite (without_spec emp_id _ (has_ids_filter _ _ H)), filter_twice. reflexivity.
  - unfold find_employee. intro Hnone.
    destruct (find_from_spec 0 emp_id employees H) as [[_ Hfilter]|(i & emp & Hf & _ & _)];
      [exact Hfilter | congruence].
Qed.

(** X27.  An update with a JSON object that returns either answers 404
    and leaves the list alone, or answers 200 with the first employee of
    that id changed in place: it has the same keys in the same order, each
    with the value the body gives that key, or its old value when the
    body has no such key.  Keys of the body the employee does not have are
    ignored; [id] is a key like any other and is overwritten too.  The
    other employees are untouched. *)
Theorem update_employee_overwrites_existing_fields_only (emp_id : Z)
    (d : list (string * json)) (employees : store) (resp : response) (employees' : store) :
  update_employee emp_id (JDict d) employees = Returns (resp, employees') ->
  (code resp = 200 /\
   exists at_ old new,
     find_employee emp_id employees = Returns (Some (at_, old)) /\
     body resp = JDict new /\
     map fst new = map fst old /\
     (forall key, dict_get key new =
                  match dict_get key old with
                  | Some v => Some (dict_get_default d key v)
                  | None => None
                  end) /\
     List.length employees' = List.length employees /\
     nth_error employees' at_ = Some new /\
     forall j, j <> at_ -> nth_error employees' j = nth_error employees j)
  \/ (resp = not_found /\ employees' = employees).
Proof.
  unfold update_employee.
  destruct (find_employee emp_id employees) as [[[at_ old]|]|] eqn:Hfind;
    cbn [bind ret Monad_outcome]; [| intro H; inversion H; right; split; reflexivity
                                   | discriminate].
  unfold find_employee in Hfind.
  destruct (find_from_some _ _ _ _ _ Hfind) as [Htruthy [j [Hj Hnth]]].
  cbn in Hj. subst j. rewrite Htruthy. cbn [py_items bind ret Monad_outcome].
  intro H. inversion H; subst. left. split; [reflexivity|].
  destruct (put_at_spec employees at_ old (overwrite old (dict_items d)) Hnth)
    as (Hlen & Hnew & Hother).
  exists at_, old, (overwrite old (dict_items d)).
  split; [reflexivity|]. split; [reflexivity|]. split; [apply overwrite_keys|].
  split; [|split; [exact Hlen | split; [exact Hnew | exact Hother]]].
  intro key. unfold dict_items. rewrite overwrite_items_from. reflexivity.
Qed.

(** X28.  On a JSON object an add never raises.  It answers 400 and
    leaves the list alone unless the object has all five required keys;
    with them it answers 201 whatever their values are ([null] and the
    empty string pass) and appends an employee of exactly eight fields:
    the id [len(employees) + 1], the five required values, and
    [department] and [phone] from the body or ["General"] and ["N/A"].
    Any other key of the body, an [id] among them, is dropped. *)
Theorem add_employee_checks_presence_only (d : list (string * json)) (employees : store) :
  exists resp employees',
    add_employee (JDict d) employees = Returns (resp, employees') /\
    if forallb (dict_has d) required_fields then
      code resp = 201 /\
      exists new,
        body resp = JDict new /\ employees' = (employees ++ [new])%list /\
        map fst new = ["id"; "name"; "place"; "email"; "designation"; "description";
                       "department"; "phone"] /\
        dict_get "id" new = Some (JInt (Z.of_nat (List.length employees) + 1)) /\
        Forall (fun key => dict_get key new = dict_get key d) required_fields /\
        dict_get "department" new = Some (dict_get_default d "department" (JStr "General")) /\
        dict_get "phone" new = Some (dict_get_default d "phone" (JStr "N/A"))
    else code resp = 400 /\ employees' = employees.
Proof.
  unfold add_employee. rewrite all_keys_in_dict.
  cbn [forallb required_fields of_result bind ret Monad_outcome py_getitem py_get].
  unfold dict_has.
  destruct (dict_get "name" d) as [name|] eqn:En;
    [|cbn; eexists _, _; split; [reflexivity | split; reflexivity]].
  destruct (dict_get "place" d) as [place|] eqn:Ep;
    [|cbn; eexists _, _; split; [reflexivity | split; reflexivity]].
  destruct (dict_get "email" d) as [email|] eqn:Ee;
    [|cbn; eexists _, _; split; [reflexivity | split; reflexivity]].
  destruct (dict_get "designation" d) as [designation|] eqn:Eg;
    [|cbn; eexists _, _; split; [reflexivity | split; reflexivity]].
  destruct (dict_get "description" d) as [description|] eqn:Ed;
    [|cbn; eexists _, _; split; [reflexivity | split; reflexivity]].
  cbn [andb negb]. eexists _, _. split; [reflexivity|]. split; [reflexivity|].
  eexists. split; [reflexivity|]. split; [reflexivity|]. split; [reflexivity|].
  split; [reflexivity|]. split; [|split; reflexivity].
  repeat constructor; cbv beta; cbn; symmetry; assumption.
Qed.

End EmployeesProperties.

(** * Concrete runs of the further properties *)

(** X1 at a log of one PASS and two FAIL. *)
Lemma failure_counts_agree_witness :
  exists sm,
    get_summary (mkTester "http://x/items"
                   [mkOutcome "a" "PASS" "" "t"; mkOutcome "b" "FAIL" "" "t";
                    mkOutcome "c" "FAIL" "" "t"]) = Ok sm
    /\ failed sm = 2.
Proof.
  destruct (failure_counts_agree
              (mkTester "http://x/items"
                 [mkOutcome "a" "PASS" "" "t"; mkOutcome "b" "FAIL" "" "t";
                  mkOutcome "c" "FAIL" "" "t"]))
    as (sm & Hsum & _ & Hfailed & _).
  - constructor; [left; reflexivity|].
    constructor; [right; reflexivity|].
    constructor; [right; reflexivity|]. constructor.
  - exists sm. split; [exact Hsum | rewrite Hfailed; reflexivity].
Defined.

(** X2 at a log with one entry of status SKIP. *)
Lemma other_status_counts_as_failed_in_summary_only_witness :
  exists sm,
    get_summary (mkTester "http://x/items"
                   [mkOutcome "a" "PASS" "" "t"; mkOutcome "b" "SKIP" "" "t"]) = Ok sm
    /\ 0 < failed sm.
Proof.
  destruct (other_status_counts_as_failed_in_summary_only
              (mkTester "http://x/items"
                 [mkOutcome "a" "PASS" "" "t"; mkOutcome "b" "SKIP" "" "t"])
              (mkOutcome "b" "SKIP" "" "t"))
    as (sm & Hsum & Hfailed & _).
  - right. left. reflexivity.
  - discriminate.
  - discriminate.
  - exists sm. split; [exact Hsum | exact Hfailed].
Defined.


(** X4 at a body with an id and no name. *)
Lemma field_check_on_object_witness :
  validate_response_data
    (mkResponse 200 "" (Some (JDict [("id", JInt 1)])) 0.25%float JSONDecodeError) (Some ["id"; "name"])
  = Ok (false, "Missing fields: name").
Proof.
  exact (field_check_on_object
           (mkResponse 200 "" (Some (JDict [("id", JInt 1)])) 0.25%float JSONDecodeError)
           [("id", JInt 1)] "id" ["name"] eq_refl).
Defined.

(** X5 at the body [7], and at a body the decoder gives up on. *)
Lemma field_check_raises_exactly_when_witness :
  validate_response_data
    (mkResponse 200 "7" (Some (JInt 7)) 0.25%float JSONDecodeError) (Some ["id"])
  = Raise TypeError
  /\ validate_response_data
       (mkResponse 200 (brackets 1000) None 0.25%float RecursionError) (Some ["id"])
     = Raise RecursionError.
Proof.
  split.
  - apply (proj2 (field_check_raises_exactly_when
                    (mkResponse 200 "7" (Some (JInt 7)) 0.25%float JSONDecodeError)
                    (Some ["id"]) TypeError)).
    right. split; [reflexivity |]. exists (JInt 7), ["id"]. repeat split.
    constructor. reflexivity.
  - apply (proj2 (field_check_raises_exactly_when
                    (mkResponse 200 (brackets 1000) None 0.25%float RecursionError)
                    (Some ["id"]) RecursionError)).
    left. repeat split. discriminate.
Defined.

(** X6 at a body whose one key is [a.b]. *)
Lemma dotted_key_is_reported_missing_witness :
  validate_response_data
    (mkResponse 200 "" (Some (JDict [("a.b", JInt 1)])) 0.25%float JSONDecodeError) (Some ["a.b"])
  = Ok (false, "Missing fields: a.b").
Proof.
  exact (dotted_key_is_reported_missing
           (mkResponse 200 "" (Some (JDict [("a.b", JInt 1)])) 0.25%float JSONDecodeError)
           [("a.b", JInt 1)] "a.b" (JInt 1) eq_refl eq_refl eq_refl eq_refl).
Defined.

(** X7 at a creation body that is a list. *)
Lemma no_identity_without_object_witness :
  extract_resource_id (mkResponse 201 "[]" (Some (JList [])) 0.25%float JSONDecodeError) = JNull.
Proof.
  destruct (no_identity_without_object (mkResponse 201 "[]" (Some (JList [])) 0.25%float JSONDecodeError))
    as (_ & Hother & _).
  apply (Hother (JList [])); [reflexivity | discriminate].
Defined.

(** X8 at a creation body with its id under data. *)
Lemma suite_identity_ignores_data_id_witness :
  extract_resource_id
    (mkResponse 201 "" (Some (JDict [("data", JDict [("id", JInt 7)])])) 0.25%float JSONDecodeError)
  = JInt 7
  /\ truthy (AutoApi.extract_resource_id
       (mkResponse 201 "" (Some (JDict [("data", JDict [("id", JInt 7)])])) 0.25%float JSONDecodeError))
     = false.
Proof.
  destruct (suite_identity_ignores_data_id
              (mkResponse 201 "" (Some (JDict [("data", JDict [("id", JInt 7)])])) 0.25%float JSONDecodeError)
              [("data", JDict [("id", JInt 7)])] eq_refl) as [_ Hnested].
  apply (Hnested [("id", JInt 7)] (JInt 7)).
  - repeat constructor.
  - reflexivity.
  - reflexivity.
  - reflexivity.
Defined.

(** X9 at a list of one complete case and one without a description. *)
Lemma generator_keeps_complete_cases_witness :
  exists test_cases,
    JList [JDict [("method", JStr "GET"); ("expected_status", JInt 200);
                  ("description", JStr "list all")];
           JDict [("method", JStr "GET"); ("expected_status", JInt 200)]]
    = JList test_cases
    /\ List.length (map completed (filter has_required test_cases)) = 1%nat.
Proof.
  destruct (generator_keeps_complete_cases
              (JList [JDict [("method", JStr "GET"); ("expected_status", JInt 200);
                             ("description", JStr "list all")];
                      JDict [("method", JStr "GET"); ("expected_status", JInt 200)]])
              [completed (JDict [("method", JStr "GET"); ("expected_status", JInt 200);
                                 ("description", JStr "list all")])])
    as (test_cases & Hparsed & Hcases & _).
  - reflexivity.
  - exists test_cases. split; [exact Hparsed | rewrite <- Hcases; reflexivity].
Defined.

(** X10 at a list of one complete case and the number 3. *)
Lemma scalar_element_discards_the_list_witness :
  exists e,
    validate_structure
      (JList [JDict [("method", JStr "GET"); ("expected_status", JInt 200);
                     ("description", JStr "list all")];
              JInt 3])
    = Raise e.
Proof.
  apply (scalar_element_discards_the_list _ (JInt 3)).
  - right. left. reflexivity.
  - reflexivity.
Defined.

(** X12 at a create answered 201 with the id 7, a PUT answered 200 and
    a PATCH answered 500: the PUT is followed by a fetch, the PATCH is
    not. *)
Lemma lifecycle_requests_in_order_witness :
  exists s',
    run_full_crud_test JNull JNull JNull None
      (start "http://x/items/"
         [reply 201 "" (Some (JDict [("id", JInt 7)])); reply 200 "[]" (Some (JList []));
          reply 200 "{}" (Some (JDict [])); reply 200 "{}" (Some (JDict []));
          reply 200 "{}" (Some (JDict [])); reply 500 "boom" None])
    = (Ok tt, s')
    /\ map (fun rq => (rq_method rq, rq_url rq)) (issued s')
       = [(POST, "http://x/items"); (GET, "http://x/items");
          (GET, "http://x/items/7"); (PUT, "http://x/items/7"); (GET, "http://x/items/7");
          (PATCH, "http://x/items/7");
          (DELETE, "http://x/items/7"); (GET, "http://x/items/7");
          (GET, "http://x/items/nonexistent-id-12345");
          (DELETE, "http://x/items/nonexistent-id-12345"); (POST, "http://x/items")].
Proof.
  destruct (@lifecycle_requests_in_order scripted JNull JNull JNull None
              (start "http://x/items/"
                 [reply 201 "" (Some (JDict [("id", JInt 7)]));
                  reply 200 "[]" (Some (JList []));
                  reply 200 "{}" (Some (JDict [])); reply 200 "{}" (Some (JDict []));
                  reply 200 "{}" (Some (JDict [])); reply 500 "boom" None])
              eq_refl)
    as (s' & outs & Hrun & _ & _ & Hiss).
  exists s'. split; [exact Hrun |]. rewrite Hiss. reflexivity.
Defined.

(** X17 at a GET answered 200. *)
Lemma test_request_agrees_with_v1_methods_witness :
  fst (test_request (JStr "GET") (JStr "/1") JNull (JInt 200) None None
         (start "http://x/items" [reply 200 "{}" (Some (JDict []))]))
  = fst (test_get "/1" 200 json_headers
           (start "http://x/items" [reply 200 "{}" (Some (JDict []))])).
Proof.
  exact (proj1 (@test_request_agrees_with_v1_methods scripted (JStr "GET") JNull "/1" 200 GET
                  (start "http://x/items" [reply 200 "{}" (Some (JDict []))]) eq_refl)).
Defined.

(** X20 at the first create of a fresh server. *)
Lemma created_product_is_served_witness :
  Products.get_product 1
    (Products.mkStore [(1, product_of 1 "Pen" 3 "t0")] 2)
  = Flask.mkResponseOf (JDict (product_of 1 "Pen" 3 "t0")) 200.
Proof.
  destruct (created_product_is_served (product_body "Pen" 3) "t0" Products.empty
              (Flask.mkResponseOf (JDict (product_of 1 "Pen" 3 "t0")) 201)
              (Products.mkStore [(1, product_of 1 "Pen" 3 "t0")] 2) eq_refl)
    as [(_ & _ & Hget & _)|(H400 & _)]; [exact Hget | discriminate H400].
Defined.

(** X21 at an update of the one product of the store. *)
Lemma update_replaces_the_four_fields_only_witness :
  exists old new,
    Products.products_get 1 [(1, product_of 1 "Pen" 3 "t0")] = Some old
    /\ dict_get "created_at" new = dict_get "created_at" old
    /\ dict_get "name" new = Some (JStr "Pencil").
Proof.
  destruct (update_replaces_the_four_fields_only 1 (product_body "Pencil" 5) "t1"
              (Products.mkStore [(1, product_of 1 "Pen" 3 "t0")] 2)
              (Flask.mkResponseOf
                 (JDict (product_of 1 "Pencil" 5 "t0" ++ [("updated_at", JStr "t1")])%list) 200)
              (Products.mkStore
                 [(1, (product_of 1 "Pencil" 5 "t0" ++ [("updated_at", JStr "t1")])%list)] 2)
              eq_refl)
    as [(_ & (old & new & Hold & Hbody & Hfour & _ & Hother) & _)|([H|H] & _)];
    [| discriminate H | discriminate H].
  exists old, new. split; [exact Hold|]. split.
  - apply Hother. cbn. intros [H|[H|[H|[H|[H|[]]]]]]; discriminate H.
  - inversion Hbody. reflexivity.
Defined.

(** X22 at a delete followed by a create and a read. *)
Lemma deleted_product_never_comes_back_witness :
  Products.get_product 1
    (serve_all [Create (product_body "Pencil" 5) "t1"; Read 1]
       (snd (Products.delete_product 1
               (Products.mkStore [(1, product_of 1 "Pen" 3 "t0")] 2))))
  = Products.not_found.
Proof.
  exact (proj1 (deleted_product_never_comes_back 1
                  (Products.mkStore [(1, product_of 1 "Pen" 3 "t0")] 2)
                  [Create (product_body "Pencil" 5) "t1"; Read 1] eq_refl eq_refl)).
Defined.

(** X23 at the body [null]. *)
Lemma scalar_body_is_not_answered_400_witness :
  Products.create_product JNull "t0" Products.empty
  = Flask.Uncaught (Flask.Builtin TypeError).
Proof.
  exact (proj1 (scalar_body_is_not_answered_400 JNull "t0" 1 Products.empty eq_refl)).
Defined.

(** X24 at a store of one employee. *)
Lemma employee_views_fail_only_on_the_body_witness :
  exists resp, Employees.get_employee 1 [employee_of 1 "Ann"] = Flask.Returns resp.
Proof.
  exact (proj1 (employee_views_fail_only_on_the_body 1 [employee_of 1 "Ann"] eq_refl)).
Defined.

(** X25 after two adds and the delete of the first: the list has one
    employee, of id 2, and the next add uses the id 2 again. *)
Lemma new_employee_can_be_shadowed_witness :
  Employees.delete_employee 1 [employee_of 1 "Ann"; employee_of 2 "Bob"]
  = Flask.Returns
      (Flask.mkResponseOf (JDict [("message", JStr "Employee 1 deleted")]) 200,
       [employee_of 2 "Bob"])
  /\ Employees.get_employee 2 [employee_of 2 "Bob"; employee_of 2 "Cy"]
     = Flask.Returns (Flask.mkResponseOf (JDict (employee_of 2 "Bob")) 200).
Proof.
  split; [reflexivity|].
  apply (new_employee_can_be_shadowed (employee_body "Cy") [employee_of 2 "Bob"]
           (Flask.mkResponseOf (JDict (employee_of 2 "Cy")) 201)
           [employee_of 2 "Bob"; employee_of 2 "Cy"] 0 (employee_of 2 "Bob")
           eq_refl eq_refl eq_refl).
Defined.

(** X26 at the delete of an id no employee has. *)
Lemma delete_employee_always_answers_200_witness :
  exists resp employees',
    Employees.delete_employee 9 [employee_of 1 "Ann"] = Flask.Returns (resp, employees')
    /\ Flask.code resp = 200.
Proof.
  destruct (delete_employee_always_answers_200 9 [employee_of 1 "Ann"] eq_refl)
    as (resp & employees' & Hrun & H200 & _).
  exists resp, employees'. split; [exact Hrun | exact H200].
Defined.

(** X27 at a body with a new name, a new id and a key the employee does
    not have. *)
Lemma update_employee_overwrites_existing_fields_only_witness :
  exists at_ old new,
    Employees.find_employee 1 [employee_of 1 "Ann"] = Flask.Returns (Some (at_, old))
    /\ map fst new = map fst old
    /\ dict_get "id" new = Some (JInt 5)
    /\ dict_get "salary" new = None.
Proof.
  destruct (update_employee_overwrites_existing_fields_only 1
              [("name", JStr "Anna"); ("salary", JInt 1); ("id", JInt 5)]
              [employee_of 1 "Ann"]
              (Flask.mkResponseOf (JDict (employee_of 5 "Anna")) 200)
              [employee_of 5 "Anna"] eq_refl)
    as [(_ & at_ & old & new & Hfind & Hbody & Hkeys & _)|(H & _)]; [|discriminate H].
  exists at_, old, new. split; [exact Hfind|]. split; [exact Hkeys|].
  inversion Hbody. split; reflexivity.
Defined.
